(** * Castle Defense: a shallow embedding of the simulation core

    The Python sources under [Castle_Defense/] are embedded as Rocq
    functions with explicit state passing.  Python objects that are shared
    and mutated (monsters) live in a store indexed by object identity;
    containers of such objects hold identities.

    Numbers.  Python [int] is [Z].  The spawn quota of a wave, an integer
    that outgrows the precision of a double, is computed in IEEE 754
    doubles ([Float.t]): every product and sum is rounded to the nearest
    double, and an infinity makes [int] raise.  Elsewhere a Python
    [float] is idealised as an exact rational ([Qc], canonical fractions,
    so that equal numbers are equal terms), without rounding.  [int(x)]
    on a float truncates toward zero. *)

From Stdlib Require Import ZArith QArith Qcanon Qround Qpower Lia Lqa.
From stdpp Require Import gmap strings list numbers.

Local Open Scope Z_scope.

(** ** Python numerics *)

Module Py.

(** A decimal literal [n/d] as an exact rational. *)
Definition frac (n d : Z) : Qc := Q2Qc (Qmake n (Z.to_pos d)).

(** [int(x)] for a float [x]: truncation toward zero. *)
Definition int (x : Qc) : Z :=
  if bool_decide (0 ≤ x)%Qc then Qfloor x else Qceiling x.

(** [b ** e] for a float base and an [int] exponent. *)
Definition pow (b : Qc) (e : Z) : Qc :=
  if e <? 0 then (/ (b ^ Z.to_nat (- e)))%Qc else (b ^ Z.to_nat e)%Qc.

(** Truthiness of an optional string ([None] and the empty string are falsy). *)
Definition truthy (s : option string) : bool :=
  match s with
  | Some s => negb (String.eqb s "")
  | None => false
  end.

Definition Qcleb (x y : Qc) : bool := bool_decide (x ≤ y)%Qc.
Definition Qcltb (x y : Qc) : bool := bool_decide (x < y)%Qc.

(** [min(x, y)] and [max(x, y)]: the first argument wins a tie. *)
Definition min (x y : Qc) : Qc := if Qcltb y x then y else x.
Definition max (x y : Qc) : Qc := if Qcltb x y then y else x.

End Py.

(** ** Exceptions *)

Inductive exn := ValueError | KeyError | OverflowError.

Inductive result (A : Type) :=
| Ok (a : A)
| Raise (e : exn).
Arguments Ok {A} a.
Arguments Raise {A} e.

(** ** Python floats as IEEE 754 doubles *)

Module Float.

(** A float: a finite double, kept as the rational it stands for, an
    infinity, or a NaN.  The two zeros are not told apart. *)
Inductive t :=
| finite (x : Qc)
| inf (negative : bool)
| nan.

(** [2 ** e] as a rational. *)
Definition pow2 (e : Z) : Q := Qpower 2 e.

(** The binade of a positive rational: the [e] with [2^e <= x < 2^(e+1)]. *)
Definition ilog2 (x : Q) : Z :=
  let d := Z.log2 (Qnum x) - Z.log2 (Zpos (Qden x)) in
  if Qle_bool (pow2 d) x then d else d - 1.

(** Rounding to the nearest integer, a tie to the even one. *)
Definition rne (x : Q) : Z :=
  let f := Qfloor x in
  match ((x - inject_Z f) ?= 1 # 2)%Q with
  | Lt => f
  | Gt => f + 1
  | Eq => if Z.even f then f else f + 1
  end.

(** Rounding a positive rational to a double: 53 significant bits, no
    exponent below -1074, and infinity if the rounded number is not below
    [2^1024]. *)
Definition round_pos (x : Q) : t :=
  let q := Z.max (ilog2 x - 52) (-1074) in
  let y := (inject_Z (rne (x / pow2 q)) * pow2 q)%Q in
  if Qle_bool (pow2 1024) y then inf false else finite (Q2Qc y).

(** Rounding to the nearest double, ties to even. *)
Definition round (x : Q) : t :=
  match (x ?= 0)%Q with
  | Eq => finite 0%Qc
  | Gt => round_pos x
  | Lt =>
      match round_pos (- x) with
      | finite y => finite (- y)%Qc
      | inf _ => inf true
      | nan => nan
      end
  end.

(** [a * b] *)
Definition mul (a b : t) : t :=
  match a, b with
  | nan, _ | _, nan => nan
  | finite x, finite y => round (this x * this y)
  | inf s, inf s' => inf (xorb s s')
  | inf s, finite y | finite y, inf s =>
      if bool_decide (y = 0%Qc) then nan else inf (xorb s (Py.Qcltb y 0))
  end.

(** [a + b] *)
Definition add (a b : t) : t :=
  match a, b with
  | nan, _ | _, nan => nan
  | finite x, finite y => round (this x + this y)
  | inf s, inf s' => if Bool.eqb s s' then inf s else nan
  | inf s, finite _ | finite _, inf s => inf s
  end.

(** An overflow that Python reports: an infinite result raises
    [OverflowError]. *)
Definition checked (x : t) : result t :=
  match x with
  | inf _ => Raise OverflowError
  | _ => Ok x
  end.

(** The conversion of an [int] operand of a float operation: the
    nearest double, [OverflowError] if the int is too large. *)
Definition of_int (n : Z) : result t := checked (round (inject_Z n)).

(** [int(x)] *)
Definition to_int (x : t) : result Z :=
  match x with
  | finite q => Ok (Py.int q)
  | inf _ => Raise OverflowError
  | nan => Raise ValueError
  end.

End Float.

(** ** config.py *)

Module Config.

Definition REF_WIDTH : Z := 800.
Definition MONSTER_SPAWN_INTERVAL : Qc := Py.frac 3 2.
Definition WAVE_MONSTER_COUNT_BASE : Z := 5.
Definition WAVE_MONSTER_COUNT_MULTIPLIER : Qc := Py.frac 3 2.

Definition INITIAL_RESOURCES : gmap string Z :=
  list_to_map
    [("Stone", 100); ("Iron", 0); ("Copper", 0); ("Thorium", 0);
     ("Monster Coins", 50); ("Force Core", 0); ("Spirit Core", 0);
     ("Magic Core", 0); ("Void Core", 0); ("Unstoppable Force", 0);
     ("Serene Spirit", 0)].

End Config.

(** ** The economy ledger (features/resources.py is not part of the sources) *)

Module ResourceManager.

Abbreviation t := (gmap string Z).

(** Modelled from the spec: the ledger's [getAmount(kind) → integer]
    ([ResourceManager.get_resource]); a kind that was never credited
    holds 0. *)
Definition get_resource (rm : t) (resource_type : string) : Z :=
  default 0 (rm !! resource_type).

(** Modelled from the spec: the ledger's [add(kind, amount)]
    ([ResourceManager.add_resource]). *)
Definition add_resource (rm : t) (resource_type : string) (amount : Z) : t :=
  <[resource_type := get_resource rm resource_type + amount]> rm.

(** Modelled from the spec: the ledger's [hasAll(costMap) → bool]
    ([ResourceManager.has_resources]); a cost map is a Python dict, kept
    as its list of items. *)
Definition has_resources (rm : t) (cost : list (string * Z)) : bool :=
  forallb (fun '(k, a) => a <=? get_resource rm k) cost.

(** The deduction of every entry of a cost map. *)
Definition deduct (rm : t) (cost : list (string * Z)) : t :=
  foldl (fun m '(k, a) => <[k := get_resource m k - a]> m) rm cost.

(** Modelled from the spec: the ledger's [spendAll(costMap) → bool],
    atomic: all-or-nothing ([ResourceManager.spend_resources]). *)
Definition spend_resources (rm : t) (cost : list (string * Z)) : bool * t :=
  if has_resources rm cost then (true, deduct rm cost) else (false, rm).

(** Modelled from the spec: [spendAll] on a single kind
    ([ResourceManager.spend_resource]). *)
Definition spend_resource (rm : t) (resource_type : string) (amount : Z) : bool * t :=
  if amount <=? get_resource rm resource_type
  then (true, <[resource_type := get_resource rm resource_type - amount]> rm)
  else (false, rm).

(** Modelled from the spec: the affordability check of a placement, the
    variant's in-kind cost together with its Monster Coin cost
    ([ResourceManager.has_resources_for_tower]). *)
Definition has_resources_for_tower (rm : t) (cost : list (string * Z)) (monster_coin_cost : Z) : bool :=
  has_resources rm cost && (monster_coin_cost <=? get_resource rm "Monster Coins").

(** Modelled from the spec: the atomic spend of a placement, "the ledger
    can afford the variant's cost (spent atomically on confirmation)"
    ([ResourceManager.spend_resources_for_tower]). *)
Definition spend_resources_for_tower (rm : t) (cost : list (string * Z)) (monster_coin_cost : Z) : bool * t :=
  if has_resources_for_tower rm cost monster_coin_cost
  then (true, snd (spend_resource (deduct rm cost) "Monster Coins" monster_coin_cost))
  else (false, rm).

(** What a cost map charges for one kind. *)
Definition charged (cost : list (string * Z)) (resource_type : string) : Z :=
  foldr (fun '(k, a) acc => if String.eqb k resource_type then a + acc else acc) 0 cost.

End ResourceManager.

(** ** The objective (features/castle.py is not part of the sources) *)

Module Castle.

(** The attributes of the castle that the sources under study read or
    write. *)
Record t := mk {
  position : Qc * Qc;
  health : Qc;
  max_health : Qc
}.

End Castle.

(** ** Adversaries (features/monsters/monster.py is not part of the sources) *)

Module Monster.

(** The attributes of a monster that the sources under study read or
    write.  [boss_loot] is [Some loot] exactly for instances of
    [BossMonster], [loot] being what [drop_loot()] returns. *)
Record t := mk {
  position : Qc * Qc;
  health : Qc;
  flying : bool;
  is_dead : bool;
  reached_castle : bool;
  boss_loot : option (list (string * Z))
}.

Definition set_is_dead (b : bool) (m : t) : t :=
  mk (position m) (health m) (flying m) b (reached_castle m) (boss_loot m).

Definition set_health (h : Qc) (m : t) : t :=
  mk (position m) h (flying m) (is_dead m) (reached_castle m) (boss_loot m).

(** Modelled from the spec: [takeDamage(amount, source) → stillAlive]
    subtracts the amount from health, clamped at 0, and returns whether
    health remains above 0. *)
Definition take_damage (amount : Qc) (m : t) : bool * t :=
  let h := (health m - amount)%Qc in
  let h' := if Py.Qcltb h 0 then 0%Qc else h in
  (Py.Qcltb 0 h', set_health h' m).

End Monster.

(** The store of monster objects, by object identity. *)
Abbreviation Heap := (gmap nat Monster.t).

(** What the sources call but do not contain: screen scaling (utils.py),
    the monster factory and the monsters' own per-tick behaviour, the
    castle's footprint test; and [x ** n] for a float [x] and an int [n],
    whose digits are those of the C library's [pow] ([OverflowError] when
    the result is out of range). *)
Class Externals := {
  float_pow : Float.t → Z → result Float.t;
  scale_value : Qc → Qc;
  scale_size : Z * Z → Z * Z;
  scale_position : Z * Z → Qc * Qc;
  create_regular_monster : string → Qc * Qc → Qc * Qc → Z → Monster.t;
  create_boss_monster : string → Qc * Qc → Qc * Qc → Monster.t;
  monster_update : Qc → Monster.t → Castle.t → bool * Monster.t * Castle.t;
  is_position_within_castle : Castle.t → Z * Z → bool
}.

(** ** features/monsters/wave_manager.py *)

Module WaveManager.

Record t := mk {
  current_wave : Z;
  active_monsters : list nat;
  spawn_timer : Qc;
  monsters_to_spawn : Z;
  wave_active : bool;
  wave_completed : bool;
  wave_start_animation_timer : Qc;
  wave_complete_animation_timer : Qc;
  continuous_wave : bool
}.

(** [WaveManager.__init__] *)
Definition init : t :=
  mk 0 [] 0%Qc 0 false true 0%Qc 0%Qc true.

(** [WaveManager.get_boss_type] *)
Definition get_boss_type (self : t) : string :=
  let boss_types : list string :=
    ["Force"%string; "Spirit"%string; "Magic"%string; "Void"%string] in
  default "Force"%string
    (boss_types !! Z.to_nat ((current_wave self / 10 - 1) mod 4)).

(** [WaveManager.get_random_monster_type]; [r] is the value drawn by
    [random.randint(1, total_weight)]. *)
Definition get_random_monster_type (self : t) (r : Z) : string :=
  let wave := current_wave self in
  let available_types : list string :=
    ["Grunt"%string] ++ (if 3 <=? wave then ["Runner"%string] else [])
       ++ (if 5 <=? wave then ["Tank"%string] else [])
       ++ (if 8 <=? wave then ["Flyer"%string] else []) in
  let all_weights : list (string * Z) :=
    [("Grunt"%string, 100 - Z.min 80 (wave * 2));
     ("Runner"%string, Z.min 60 (Z.max 10 (wave * 3)));
     ("Tank"%string, Z.min 50 (Z.max 10 (wave * 2)));
     ("Flyer"%string,
      Py.int (Py.min (Qc_of_Z 40) (Py.max (Qc_of_Z 10) (Qc_of_Z wave * Py.frac 3 2)%Qc)))] in
  let weights :=
    filter (fun kv => bool_decide (fst kv ∈ available_types)) all_weights in
  let total_weight := foldr Z.add 0 (snd <$> weights) in
  if total_weight <=? 0 then "Grunt"%string
  else
    (fix choose (ws : list (string * Z)) (cumulative_weight : Z) : string :=
       match ws with
       | [] => "Grunt"%string
       | (monster_type, weight) :: ws' =>
           let cumulative_weight := cumulative_weight + weight in
           if r <=? cumulative_weight then monster_type
           else choose ws' cumulative_weight
       end) weights 0.

(** The random draws of one spawn: the reference x coordinate and the
    weighted-choice roll. *)
Record Draws := mkDraws { spawn_x : Z; type_roll : Z }.

Section WithExternals.
Context `{Externals}.

(** The number of monsters of a regular wave:
    [int(base_count + wave * 0.5 * multiplier)] with
    [multiplier = WAVE_MONSTER_COUNT_MULTIPLIER ** (wave // 10)], in
    doubles. *)
Definition regular_wave_count (wave : Z) : result Z :=
  let base_count := Config.WAVE_MONSTER_COUNT_BASE in
  match float_pow (Float.finite Config.WAVE_MONSTER_COUNT_MULTIPLIER) (wave / 10) with
  | Raise e => Raise e
  | Ok multiplier =>
      match Float.of_int wave with
      | Raise e => Raise e
      | Ok wave_as_float =>
          let product :=
            Float.mul (Float.mul wave_as_float (Float.finite (Py.frac 1 2))) multiplier in
          match Float.of_int base_count with
          | Raise e => Raise e
          | Ok base => Float.to_int (Float.add base product)
          end
      end
  end.

(** [WaveManager.start_next_wave]: what the call answers, or the
    exception it raises, and the scheduler as the call leaves it.  The
    quota is the last attribute assigned: when its computation raises,
    the wave number and the flags are already those of the new wave and
    the quota is the old one. *)
Definition start_next_wave (self : t) : result bool * t :=
  if negb (wave_active self) then
    let wave := current_wave self + 1 in
    let started monsters_to_spawn :=
      mk wave (active_monsters self) 0%Qc monsters_to_spawn
         true false 1%Qc (wave_complete_animation_timer self)
         (continuous_wave self) in
    if wave mod 10 =? 0 then (Ok true, started 1)
    else
      match regular_wave_count wave with
      | Ok count => (Ok true, started count)
      | Raise e => (Raise e, started (monsters_to_spawn self))
      end
  else (Ok false, self).

(** [WaveManager.spawn_monster]; the new object gets a fresh identity. *)
Definition spawn_monster (self : t) (heap : Heap) (castle_position : Qc * Qc)
    (rnd : Draws) : t * Heap :=
  let spawn_pos := scale_position (spawn_x rnd, 50) in
  let monster :=
    if current_wave self mod 10 =? 0
    then create_boss_monster (get_boss_type self) spawn_pos castle_position
    else create_regular_monster (get_random_monster_type self (type_roll rnd))
           spawn_pos castle_position (current_wave self) in
  let id := fresh (dom heap) in
  (mk (current_wave self) (active_monsters self ++ [id]) (spawn_timer self)
      (monsters_to_spawn self) (wave_active self) (wave_completed self)
      (wave_start_animation_timer self) (wave_complete_animation_timer self)
      (continuous_wave self),
   <[id := monster]> heap).

(** [WaveManager.handle_monster_death]; [monster] is [None] for Python's
    [None].  The wave manager itself is left as it is: the monster is
    marked and the ledger credited. *)
Definition handle_monster_death (self : t) (monster : option nat) (heap : Heap)
    (resource_manager : ResourceManager.t) : Heap * ResourceManager.t :=
  match monster with
  | None => (heap, resource_manager)
  | Some id =>
      if negb (bool_decide (id ∈ active_monsters self)) then (heap, resource_manager)
      else
        match heap !! id with
        | None => (heap, resource_manager)
        | Some m =>
            let heap := <[id := Monster.set_is_dead true m]> heap in
            let resource_manager :=
              ResourceManager.add_resource resource_manager "Monster Coins" 1 in
            match Monster.boss_loot m with
            | Some loot =>
                (heap,
                 foldl (fun rm '(resource_type, amount) =>
                          ResourceManager.add_resource rm resource_type amount)
                       resource_manager loot)
            | None => (heap, resource_manager)
            end
        end
  end.

(** First loop of [update]: every active monster is advanced; those no
    longer active are collected. *)
Fixpoint update_monsters (dt : Qc) (ids : list nat) (heap : Heap)
    (castle : Castle.t) : list nat * Heap * Castle.t :=
  match ids with
  | [] => ([], heap, castle)
  | id :: ids' =>
      match heap !! id with
      | None => update_monsters dt ids' heap castle
      | Some m =>
          let '(monster_still_active, m', castle') := monster_update dt m castle in
          let '(monsters_to_remove, heap', castle'') :=
            update_monsters dt ids' (<[id := m']> heap) castle' in
          (if monster_still_active then monsters_to_remove
           else id :: monsters_to_remove, heap', castle'')
      end
  end.

(** [list.remove]: the first occurrence is dropped. *)
Fixpoint list_remove (id : nat) (l : list nat) : list nat :=
  match l with
  | [] => []
  | x :: l' => if bool_decide (x = id) then l' else x :: list_remove id l'
  end.

(** Second loop of [update]: removal, with the fallback death handling.
    [game_instance] is [game.game_instance], [None] while no [Game] has
    been constructed, otherwise its resource manager. *)
Fixpoint remove_monsters (monsters_to_remove : list nat) (self : t) (heap : Heap)
    (game_instance : option ResourceManager.t)
    : t * Heap * option ResourceManager.t :=
  match monsters_to_remove with
  | [] => (self, heap, game_instance)
  | id :: rest =>
      if bool_decide (id ∈ active_monsters self) then
        let '(heap', game_instance') :=
          match heap !! id, game_instance with
          | Some m, Some rm =>
              if Monster.is_dead m && negb (Monster.reached_castle m) then
                let '(heap', rm') := handle_monster_death self (Some id) heap rm in
                (heap', Some rm')
              else (heap, game_instance)
          | _, _ => (heap, game_instance)
          end in
        let self' :=
          mk (current_wave self) (list_remove id (active_monsters self))
             (spawn_timer self) (monsters_to_spawn self) (wave_active self)
             (wave_completed self) (wave_start_animation_timer self)
             (wave_complete_animation_timer self) (continuous_wave self) in
        remove_monsters rest self' heap' game_instance'
      else remove_monsters rest self heap game_instance
  end.

(** [WaveManager.update] *)
Definition update (dt : Qc) (rnd : Draws) (self : t) (heap : Heap)
    (castle : Castle.t) (game_instance : option ResourceManager.t)
    : t * Heap * Castle.t * option ResourceManager.t :=
  let start_timer :=
    if Py.Qcltb 0 (wave_start_animation_timer self)
    then (wave_start_animation_timer self - dt)%Qc
    else wave_start_animation_timer self in
  let complete_timer :=
    if Py.Qcltb 0 (wave_complete_animation_timer self)
    then (wave_complete_animation_timer self - dt)%Qc
    else wave_complete_animation_timer self in
  let self :=
    mk (current_wave self) (active_monsters self) (spawn_timer self)
       (monsters_to_spawn self) (wave_active self) (wave_completed self)
       start_timer complete_timer (continuous_wave self) in
  if wave_active self then
    let timer := (spawn_timer self + dt)%Qc in
    let self :=
      mk (current_wave self) (active_monsters self) timer
         (monsters_to_spawn self) (wave_active self) (wave_completed self)
         start_timer complete_timer (continuous_wave self) in
    let '(self, heap) :=
      if Py.Qcleb Config.MONSTER_SPAWN_INTERVAL timer && (0 <? monsters_to_spawn self) then
        let '(self', heap') := spawn_monster self heap (Castle.position castle) rnd in
        (mk (current_wave self') (active_monsters self') 0%Qc
            (monsters_to_spawn self' - 1) (wave_active self') (wave_completed self')
            start_timer complete_timer (continuous_wave self'),
         heap')
      else (self, heap) in
    let '(monsters_to_remove, heap, castle) :=
      update_monsters dt (active_monsters self) heap castle in
    let '(self, heap, game_instance) :=
      remove_monsters monsters_to_remove self heap game_instance in
    if (length (active_monsters self) =? 0)%nat && (monsters_to_spawn self =? 0) then
      (mk (current_wave self) (active_monsters self) (spawn_timer self)
          (monsters_to_spawn self) false true
          (wave_start_animation_timer self) 2%Qc (continuous_wave self),
       heap, castle, game_instance)
    else (self, heap, castle, game_instance)
  else (self, heap, castle, game_instance).

End WithExternals.

End WaveManager.

(** ** config.py: towers and items *)

Module TowerConfig.

(** One entry of [TOWER_TYPES]; a key the entry does not have is [None]. *)
Record t := mk {
  damage : option Qc;
  attack_speed : option Qc;
  range : option Qc;
  aoe_radius : option Qc;
  slow_effect : option Qc;
  slow_duration : option Qc;
  cost : option (list (string * Z))
}.

(** The empty dict [{}]. *)
Definition empty : t := mk None None None None None None None.

Definition TOWER_TYPES (tower_type : string) : option t :=
  if String.eqb tower_type "Archer" then
    Some (mk (Some (Qc_of_Z 10)) (Some (Py.frac 3 2)) (Some (Qc_of_Z 150))
             None None None (Some [("Stone"%string, 20)]))
  else if String.eqb tower_type "Sniper" then
    Some (mk (Some (Qc_of_Z 50)) (Some (Py.frac 1 2)) (Some (Qc_of_Z 300))
             None None None (Some [("Stone"%string, 40); ("Iron"%string, 10)]))
  else if String.eqb tower_type "Splash" then
    Some (mk (Some (Qc_of_Z 20)) (Some (Py.frac 4 5)) (Some (Qc_of_Z 200))
             (Some (Qc_of_Z 50)) None None
             (Some [("Stone"%string, 30); ("Iron"%string, 5); ("Copper"%string, 2)]))
  else if String.eqb tower_type "Frozen" then
    Some (mk (Some (Qc_of_Z 5)) (Some (Qc_of_Z 1)) (Some (Qc_of_Z 180))
             None (Some (Py.frac 1 2)) (Some (Qc_of_Z 3))
             (Some [("Stone"%string, 25); ("Iron"%string, 5); ("Copper"%string, 3)]))
  else None.

Definition TOWER_MONSTER_COIN_COSTS (tower_type : string) : option Z :=
  if String.eqb tower_type "Archer" then Some 15
  else if String.eqb tower_type "Sniper" then Some 50
  else if String.eqb tower_type "Splash" then Some 65
  else if String.eqb tower_type "Frozen" then Some 65
  else None.

Definition TOWER_UPGRADE_COST_MULTIPLIER : Qc := Py.frac 3 2.
Definition TOWER_MONSTER_COIN_UPGRADE_MULTIPLIER : Qc := Py.frac 13 10.
Definition TOWER_DAMAGE_UPGRADE_MULTIPLIER : Qc := Py.frac 13 10.
Definition TOWER_ATTACK_SPEED_UPGRADE_MULTIPLIER : Qc := Py.frac 6 5.
Definition TOWER_RANGE_UPGRADE_MULTIPLIER : Qc := Py.frac 6 5.

End TowerConfig.

Module ItemEffect.

(** One entry of [ITEM_EFFECTS] (the description string is left out). *)
Record t := mk {
  aoe_radius_multiplier : option Qc;
  splash_damage_radius : option Qc;
  healing_percentage : option Qc;
  glow_color : option (Z * Z * Z)
}.

Definition empty : t := mk None None None None.

Definition ITEM_EFFECTS (item : string) : option t :=
  if String.eqb item "Unstoppable Force" then
    Some (mk (Some (Py.frac 13 10)) (Some (Qc_of_Z 30)) None (Some (255, 100, 50)))
  else if String.eqb item "Serene Spirit" then
    Some (mk None None (Some (Py.frac 1 20)) (Some (100, 200, 100)))
  else None.

End ItemEffect.

(** ** pygame.Rect *)

Module Rect.

Record t := mk { left : Z; top : Z; width : Z; height : Z }.

(** [Rect.colliderect]: the two rectangles overlap; a rectangle of zero
    width or height collides with nothing. *)
Definition colliderect (a b : t) : bool :=
  if (width a =? 0) || (height a =? 0) || (width b =? 0) || (height b =? 0)
  then false
  else
    (Z.min (left a) (left a + width a) <? Z.max (left b) (left b + width b))
    && (Z.min (top a) (top a + height a) <? Z.max (top b) (top b + height b))
    && (Z.min (left b) (left b + width b) <? Z.max (left a) (left a + width a))
    && (Z.min (top b) (top b + height b) <? Z.max (top a) (top a + height a)).

End Rect.

(** ** utils.py (not part of the sources) *)

Module Utils.

(** Modelled from the spec: the geometry utility [distance] is the
    Euclidean distance of two points.  The sources only compare and order
    distances, so the square is kept: [distance(p, q) <= r] is
    [distance_le p q r], and ordering by distance is ordering by
    [distance2]. *)
Definition distance2 (p q : Qc * Qc) : Qc :=
  ((fst q - fst p) * (fst q - fst p) + (snd q - snd p) * (snd q - snd p))%Qc.

Definition distance_le (p q : Qc * Qc) (r : Qc) : bool :=
  Py.Qcleb 0 r && Py.Qcleb (distance2 p q) (r * r)%Qc.

Definition point (p : Z * Z) : Qc * Qc := (Qc_of_Z (fst p), Qc_of_Z (snd p)).

End Utils.

(** ** features/towers/base_tower.py *)

Module Tower.

(** The Python class of a tower object. *)
Inductive Class := ArcherTower | SniperTower | SplashTower | FrozenTower.

(** [tower.__class__.__name__] *)
Definition class_name (c : Class) : string :=
  match c with
  | ArcherTower => "ArcherTower"
  | SniperTower => "SniperTower"
  | SplashTower => "SplashTower"
  | FrozenTower => "FrozenTower"
  end.

(** The attributes of a tower, flat as in [Tower.__init__]; the
    attributes that only drive drawing (colour, size, selection, glow
    intensity, attack animation) are left out.  The area attributes exist
    on "Splash" towers only and the slow attributes on "Frozen" towers
    only; on the other towers they are never read. *)
Record t := mk {
  cls : Class;
  position : Z * Z;
  tower_type : string;
  level : Z;
  damage_level : Z;
  attack_speed_level : Z;
  range_level : Z;
  damage : Qc;
  attack_speed : Qc;
  ref_range : Qc;
  range : Qc;
  base_damage : Qc;
  base_attack_speed : Qc;
  base_range : Qc;
  base_ref_range : Qc;
  attack_timer : Qc;
  targets : list nat;
  current_target : option nat;
  item_slots : list (option string);
  has_item_effects : bool;
  splash_damage_enabled : bool;
  splash_damage_radius : Qc;
  item_glow_color : option (Z * Z * Z);
  rect : Rect.t;
  ref_aoe_radius : Qc;
  aoe_radius : Qc;
  base_ref_aoe_radius : Qc;
  base_aoe_radius : Qc;
  aoe_radius_level : Z;
  slow_effect : Qc;
  slow_duration : Qc;
  base_slow_effect : Qc;
  base_slow_duration : Qc;
  slow_effect_level : Z;
  slow_duration_level : Z
}.

Definition eta (self : t) : t :=
  mk (cls self) (position self) (tower_type self) (level self)
     (damage_level self) (attack_speed_level self) (range_level self)
     (damage self) (attack_speed self) (ref_range self) (range self)
     (base_damage self) (base_attack_speed self) (base_range self)
     (base_ref_range self) (attack_timer self) (targets self)
     (current_target self) (item_slots self) (has_item_effects self)
     (splash_damage_enabled self) (splash_damage_radius self)
     (item_glow_color self) (rect self) (ref_aoe_radius self) (aoe_radius self)
     (base_ref_aoe_radius self) (base_aoe_radius self) (aoe_radius_level self)
     (slow_effect self) (slow_duration self) (base_slow_effect self)
     (base_slow_duration self) (slow_effect_level self)
     (slow_duration_level self).

(** [self.attr = v]: the record rebuilt with one attribute replaced. *)
Ltac assign attr :=
  let e := eval cbv beta delta [eta] in (fun self : t => eta self) in
  match eval pattern attr in e with
  | ?F _ =>
      let r := eval cbv beta in (fun v self => F (fun _ : t => v) self) in
      exact r
  end.

Definition set_level : Z → t → t := ltac:(assign level).
Definition set_damage_level : Z → t → t := ltac:(assign damage_level).
Definition set_attack_speed_level : Z → t → t := ltac:(assign attack_speed_level).
Definition set_range_level : Z → t → t := ltac:(assign range_level).
Definition set_damage : Qc → t → t := ltac:(assign damage).
Definition set_attack_speed : Qc → t → t := ltac:(assign attack_speed).
Definition set_ref_range : Qc → t → t := ltac:(assign ref_range).
Definition set_range : Qc → t → t := ltac:(assign range).
Definition set_base_damage : Qc → t → t := ltac:(assign base_damage).
Definition set_base_attack_speed : Qc → t → t := ltac:(assign base_attack_speed).
Definition set_base_range : Qc → t → t := ltac:(assign base_range).
Definition set_base_ref_range : Qc → t → t := ltac:(assign base_ref_range).
Definition set_attack_timer : Qc → t → t := ltac:(assign attack_timer).
Definition set_targets : list nat → t → t := ltac:(assign targets).
Definition set_current_target : option nat → t → t := ltac:(assign current_target).
Definition set_item_slots : list (option string) → t → t := ltac:(assign item_slots).
Definition set_has_item_effects : bool → t → t := ltac:(assign has_item_effects).
Definition set_splash_damage_enabled : bool → t → t := ltac:(assign splash_damage_enabled).
Definition set_splash_damage_radius : Qc → t → t := ltac:(assign splash_damage_radius).
Definition set_item_glow_color : option (Z * Z * Z) → t → t := ltac:(assign item_glow_color).
Definition set_ref_aoe_radius : Qc → t → t := ltac:(assign ref_aoe_radius).
Definition set_aoe_radius : Qc → t → t := ltac:(assign aoe_radius).
Definition set_slow_effect : Qc → t → t := ltac:(assign slow_effect).
Definition set_slow_duration : Qc → t → t := ltac:(assign slow_duration).

Definition config (tower_type : string) : TowerConfig.t :=
  default TowerConfig.empty (TowerConfig.TOWER_TYPES tower_type).

Definition is_archer_or_sniper (tower_type : string) : bool :=
  String.eqb tower_type "Archer" || String.eqb tower_type "Sniper".

Definition is_splash_or_frozen (tower_type : string) : bool :=
  String.eqb tower_type "Splash" || String.eqb tower_type "Frozen".

Section WithExternals.
Context `{Externals}.

(** [Tower.__init__] followed by [initialize_specific_properties];
    [c] is the class being instantiated. *)
Definition init (c : Class) (position : Z * Z) (tower_type : string) : t :=
  let tower_config := config tower_type in
  let damage := default (Qc_of_Z 10) (TowerConfig.damage tower_config) in
  let attack_speed := default (Qc_of_Z 1) (TowerConfig.attack_speed tower_config) in
  let ref_range := default (Qc_of_Z 150) (TowerConfig.range tower_config) in
  let range := scale_value ref_range in
  let size := scale_size (40, 40) in
  let rect :=
    Rect.mk (fst position - fst size / 2) (snd position - snd size / 2)
            (fst size) (snd size) in
  let is_splash := String.eqb tower_type "Splash" in
  let is_frozen := negb is_splash && String.eqb tower_type "Frozen" in
  let ref_aoe_radius :=
    if is_splash then default (Qc_of_Z 50) (TowerConfig.aoe_radius tower_config)
    else 0%Qc in
  let aoe_radius := if is_splash then scale_value ref_aoe_radius else 0%Qc in
  let slow_effect :=
    if is_frozen then default (Py.frac 1 2) (TowerConfig.slow_effect tower_config)
    else 0%Qc in
  let slow_duration :=
    if is_frozen then default (Qc_of_Z 3) (TowerConfig.slow_duration tower_config)
    else 0%Qc in
  mk c position tower_type 1 1 1 1
     damage attack_speed ref_range range
     damage attack_speed range ref_range
     0%Qc [] None
     [None; None] false
     false 0%Qc None rect
     ref_aoe_radius aoe_radius ref_aoe_radius aoe_radius
     (if is_splash then 1 else 0)
     slow_effect slow_duration slow_effect slow_duration
     (if is_frozen then 1 else 0) (if is_frozen then 1 else 0).

(** One round of the loop of [apply_item_effects]. *)
Definition apply_item (self : t) (item : option string) : t :=
  match item with
  | None => self
  | Some name =>
      if negb (Py.truthy item) then self
      else
        let item_effect := default ItemEffect.empty (ItemEffect.ITEM_EFFECTS name) in
        if String.eqb name "Unstoppable Force" then
          let self :=
            set_item_glow_color
              (Some (default (255, 100, 50) (ItemEffect.glow_color item_effect))) self in
          if is_splash_or_frozen (tower_type self) then
            let aoe_multiplier :=
              default (Py.frac 13 10) (ItemEffect.aoe_radius_multiplier item_effect) in
            if String.eqb (tower_type self) "Splash" then
              let self := set_ref_aoe_radius (ref_aoe_radius self * aoe_multiplier)%Qc self in
              set_aoe_radius (scale_value (ref_aoe_radius self)) self
            else if String.eqb (tower_type self) "Frozen" then
              let self := set_ref_range (ref_range self * aoe_multiplier)%Qc self in
              set_range (scale_value (ref_range self)) self
            else self
          else if is_archer_or_sniper (tower_type self) then
            let self := set_splash_damage_enabled true self in
            let base_splash :=
              default (Qc_of_Z 30) (ItemEffect.splash_damage_radius item_effect) in
            set_splash_damage_radius (scale_value base_splash) self
          else self
        else if String.eqb name "Serene Spirit" then
          set_item_glow_color
            (Some (default (100, 200, 100) (ItemEffect.glow_color item_effect))) self
        else self
  end.

(** The first half of [apply_item_effects]: every derived attribute is
    set back to its base value. *)
Definition reset_to_base (self : t) : t :=
  let self := set_damage (base_damage self) self in
  let self := set_attack_speed (base_attack_speed self) self in
  let self := set_ref_range (base_ref_range self) self in
  let self := set_range (base_range self) self in
  let self :=
    if String.eqb (tower_type self) "Splash" then
      let self := set_ref_aoe_radius (base_ref_aoe_radius self) self in
      set_aoe_radius (base_aoe_radius self) self
    else if String.eqb (tower_type self) "Frozen" then
      let self := set_slow_effect (base_slow_effect self) self in
      set_slow_duration (base_slow_duration self) self
    else self in
  let self := set_splash_damage_enabled false self in
  let self := set_splash_damage_radius 0%Qc self in
  set_item_glow_color None self.

(** [Tower.apply_item_effects] *)
Definition apply_item_effects (self : t) : t :=
  let self := reset_to_base self in
  if negb (existsb Py.truthy (item_slots self)) then
    set_has_item_effects false self
  else
    let self := set_has_item_effects true self in
    foldl apply_item self (item_slots self).

(** The shared shape of the [calculate_*_upgrade_cost] methods: the
    variant's base cost scaled by the level of one path. *)
Definition scaled_cost (tower_type : string) (path_level : Z) : list (string * Z) :=
  let base_cost :=
    default [("Stone"%string, 20)] (TowerConfig.cost (config tower_type)) in
  (fun '(resource_type, amount) =>
     (resource_type,
      Py.int (Qc_of_Z amount
              * Py.pow TowerConfig.TOWER_UPGRADE_COST_MULTIPLIER (path_level - 1))%Qc))
  <$> base_cost.

(** The shared shape of the [calculate_*_upgrade_monster_coin_cost]
    methods. *)
Definition scaled_monster_coin_cost (tower_type : string) (path_level : Z) : Z :=
  let base_cost := default 5 (TowerConfig.TOWER_MONSTER_COIN_COSTS tower_type) in
  Py.int (Qc_of_Z base_cost
          * Py.pow TowerConfig.TOWER_MONSTER_COIN_UPGRADE_MULTIPLIER (path_level - 1))%Qc.

Definition calculate_damage_upgrade_cost (self : t) : list (string * Z) :=
  scaled_cost (tower_type self) (damage_level self).

Definition calculate_damage_upgrade_monster_coin_cost (self : t) : Z :=
  scaled_monster_coin_cost (tower_type self) (damage_level self).

Definition calculate_attack_speed_upgrade_cost (self : t) : list (string * Z) :=
  scaled_cost (tower_type self) (attack_speed_level self).

Definition calculate_attack_speed_upgrade_monster_coin_cost (self : t) : Z :=
  scaled_monster_coin_cost (tower_type self) (attack_speed_level self).

Definition calculate_range_upgrade_cost (self : t) : list (string * Z) :=
  scaled_cost (tower_type self) (range_level self).

Definition calculate_range_upgrade_monster_coin_cost (self : t) : Z :=
  scaled_monster_coin_cost (tower_type self) (range_level self).

(** [Tower.upgrade_damage] *)
Definition upgrade_damage (self : t) (resource_manager : ResourceManager.t)
    : bool * t * ResourceManager.t :=
  let cost := calculate_damage_upgrade_cost self in
  let monster_coin_cost := calculate_damage_upgrade_monster_coin_cost self in
  if negb (ResourceManager.has_resources resource_manager cost)
     || (ResourceManager.get_resource resource_manager "Monster Coins" <? monster_coin_cost)
  then (false, self, resource_manager)
  else
    match ResourceManager.spend_resources resource_manager cost with
    | (true, resource_manager) =>
        let resource_manager :=
          snd (ResourceManager.spend_resource resource_manager "Monster Coins"
                 monster_coin_cost) in
        let self :=
          set_base_damage
            (base_damage self * TowerConfig.TOWER_DAMAGE_UPGRADE_MULTIPLIER)%Qc self in
        let self := set_damage_level (damage_level self + 1) self in
        let self := set_level (level self + 1) self in
        (true, apply_item_effects self, resource_manager)
    | (false, resource_manager) => (false, self, resource_manager)
    end.

(** [Tower.upgrade_attack_speed] *)
Definition upgrade_attack_speed (self : t) (resource_manager : ResourceManager.t)
    : bool * t * ResourceManager.t :=
  let cost := calculate_attack_speed_upgrade_cost self in
  let monster_coin_cost := calculate_attack_speed_upgrade_monster_coin_cost self in
  if negb (ResourceManager.has_resources resource_manager cost)
     || (ResourceManager.get_resource resource_manager "Monster Coins" <? monster_coin_cost)
  then (false, self, resource_manager)
  else
    match ResourceManager.spend_resources resource_manager cost with
    | (true, resource_manager) =>
        let resource_manager :=
          snd (ResourceManager.spend_resource resource_manager "Monster Coins"
                 monster_coin_cost) in
        let self :=
          set_base_attack_speed
            (base_attack_speed self * TowerConfig.TOWER_ATTACK_SPEED_UPGRADE_MULTIPLIER)%Qc
            self in
        let self := set_attack_speed_level (attack_speed_level self + 1) self in
        let self := set_level (level self + 1) self in
        (true, apply_item_effects self, resource_manager)
    | (false, resource_manager) => (false, self, resource_manager)
    end.

(** [Tower.upgrade_range] *)
Definition upgrade_range (self : t) (resource_manager : ResourceManager.t)
    : bool * t * ResourceManager.t :=
  let cost := calculate_range_upgrade_cost self in
  let monster_coin_cost := calculate_range_upgrade_monster_coin_cost self in
  if negb (ResourceManager.has_resources resource_manager cost)
     || (ResourceManager.get_resource resource_manager "Monster Coins" <? monster_coin_cost)
  then (false, self, resource_manager)
  else
    match ResourceManager.spend_resources resource_manager cost with
    | (true, resource_manager) =>
        let resource_manager :=
          snd (ResourceManager.spend_resource resource_manager "Monster Coins"
                 monster_coin_cost) in
        let self :=
          set_base_ref_range
            (base_ref_range self * TowerConfig.TOWER_RANGE_UPGRADE_MULTIPLIER)%Qc self in
        let self := set_base_range (scale_value (base_ref_range self)) self in
        let self := set_range_level (range_level self + 1) self in
        let self := set_level (level self + 1) self in
        (true, apply_item_effects self, resource_manager)
    | (false, resource_manager) => (false, self, resource_manager)
    end.

(** [Tower.add_item]; [resource_manager] is [None] when the optional
    argument is not given. *)
Definition add_item (self : t) (item : option string) (slot_index : Z)
    (resource_manager : option ResourceManager.t)
    : bool * t * option ResourceManager.t :=
  if (0 <=? slot_index) && (slot_index <? Z.of_nat (length (item_slots self))) then
    let current_item := default None (item_slots self !! Z.to_nat slot_index) in
    let resource_manager :=
      match current_item, resource_manager with
      | Some name, Some rm =>
          if Py.truthy current_item
          then Some (ResourceManager.add_resource rm name 1)
          else resource_manager
      | _, _ => resource_manager
      end in
    let self := set_item_slots (<[Z.to_nat slot_index := item]> (item_slots self)) self in
    let resource_manager :=
      match resource_manager, item with
      | Some rm, Some name =>
          if Py.truthy item
          then Some (snd (ResourceManager.spend_resource rm name 1))
          else resource_manager
      | _, _ => resource_manager
      end in
    (true, apply_item_effects self, resource_manager)
  else (false, self, resource_manager).

(** [Tower.remove_item]; the result is the removed item or [None]. *)
Definition remove_item (self : t) (slot_index : Z)
    (resource_manager : option ResourceManager.t)
    : option string * t * option ResourceManager.t :=
  let in_range :=
    (0 <=? slot_index) && (slot_index <? Z.of_nat (length (item_slots self))) in
  let removed_item := default None (item_slots self !! Z.to_nat slot_index) in
  if in_range && Py.truthy removed_item then
    let self := set_item_slots (<[Z.to_nat slot_index := None]> (item_slots self)) self in
    let self := apply_item_effects self in
    let resource_manager :=
      match resource_manager, removed_item with
      | Some rm, Some name => Some (ResourceManager.add_resource rm name 1)
      | _, _ => resource_manager
      end in
    (removed_item, self, resource_manager)
  else (None, self, resource_manager).

End WithExternals.

End Tower.

(** ** features/towers/archer_tower.py and sniper_tower.py *)

Module SingleTarget.

Section WithExternals.
Context `{Externals}.

(** [Tower.find_targets]; [monsters] is the list handed over by the
    playing state, the wave manager's active monsters. *)
Definition in_reach (self : Tower.t) (heap : Heap) (id : nat) : bool :=
  match heap !! id with
  | None => false
  | Some monster =>
      if Monster.is_dead monster then false
      else if Monster.flying monster
              && negb (Tower.is_archer_or_sniper (Tower.tower_type self)) then false
      else Utils.distance_le (Utils.point (Tower.position self))
             (Monster.position monster) (Tower.range self)
  end.

(** The key of the sort: the (squared) distance to the tower. *)
Definition sort_key (self : Tower.t) (heap : Heap) (id : nat) : Qc :=
  match heap !! id with
  | None => 0%Qc
  | Some monster =>
      Utils.distance2 (Utils.point (Tower.position self)) (Monster.position monster)
  end.

(** [list.sort(key=...)] is stable: an element goes after every element
    whose key is not larger. *)
Fixpoint insert_by (key : nat → Qc) (x : nat) (l : list nat) : list nat :=
  match l with
  | [] => [x]
  | y :: l' =>
      if Py.Qcltb (key x) (key y) then x :: y :: l' else y :: insert_by key x l'
  end.

Definition sort_by (key : nat → Qc) (l : list nat) : list nat :=
  foldl (fun sorted x => insert_by key x sorted) [] l.

Definition find_targets (self : Tower.t) (heap : Heap) (monsters : list nat) : Tower.t :=
  Tower.set_targets
    (sort_by (sort_key self heap) (filter (fun id => in_reach self heap id = true) monsters))
    self.

(** [Tower.attack], the part that is not animation: the first target is
    remembered. *)
Definition base_attack (self : Tower.t) : Tower.t :=
  match Tower.targets self with
  | [] => self
  | first :: _ => Tower.set_current_target (Some first) self
  end.

(** One round of the splash loop of [attack]: [monster] is the loop
    variable, the state is the store and the list [splash_targets]. *)
Definition splash_round (self : Tower.t) (target : nat)
    (st : Heap * list nat) (monster : nat) : Heap * list nat :=
  let '(heap, splash_targets) := st in
  match heap !! monster, heap !! target with
  | Some m, Some tm =>
      if negb (bool_decide (monster = target)) && negb (Monster.is_dead m) then
        if Utils.distance_le (Monster.position m) (Monster.position tm)
             (Tower.splash_damage_radius self)
        then
          let splash_damage := (Tower.damage self * Py.frac 1 2)%Qc in
          let '(still_alive, m') := Monster.take_damage splash_damage m in
          (<[monster := m']> heap,
           if still_alive then splash_targets else splash_targets ++ [monster])
        else st
      else st
  | _, _ => st
  end.

(** The death handling at the end of [attack]: for every [Game] object
    found among the module's globals, every killed monster is handed to
    that game's wave manager. *)
Definition handle_killed (killed_monsters : list nat) (heap : Heap)
    (game_instances : list (WaveManager.t * ResourceManager.t))
    : Heap * list (WaveManager.t * ResourceManager.t) :=
  foldl
    (fun '(heap, done) '(wave_manager, resource_manager) =>
       let '(heap, resource_manager) :=
         foldl
           (fun '(heap, rm) monster =>
              WaveManager.handle_monster_death wave_manager (Some monster) heap rm)
           (heap, resource_manager) killed_monsters in
       (heap, done ++ [(wave_manager, resource_manager)]))
    (heap, []) game_instances.

(** The body shared by [ArcherTower.attack] and [SniperTower.attack] once
    the target is chosen. *)
Definition attack_target (self : Tower.t) (target : nat) (heap : Heap)
    (game_instances : list (WaveManager.t * ResourceManager.t))
    : Heap * list (WaveManager.t * ResourceManager.t) :=
  match heap !! target with
  | None => (heap, game_instances)
  | Some tm =>
      if Monster.is_dead tm then (heap, game_instances)
      else
        let '(still_alive, tm') := Monster.take_damage (Tower.damage self) tm in
        let heap := <[target := tm']> heap in
        let primary_target_killed := negb still_alive in
        let '(heap, splash_targets) :=
          if Tower.splash_damage_enabled self
             && Py.Qcltb 0 (Tower.splash_damage_radius self)
          then foldl (splash_round self target) (heap, []) (Tower.targets self)
          else (heap, []) in
        let killed_monsters :=
          (if primary_target_killed then [target] else []) ++ splash_targets in
        match killed_monsters with
        | [] => (heap, game_instances)
        | _ => handle_killed killed_monsters heap game_instances
        end
  end.

End WithExternals.

End SingleTarget.

Module ArcherTower.

Section WithExternals.
Context `{Externals}.

(** [ArcherTower.__init__] *)
Definition init (position : Z * Z) : Tower.t :=
  Tower.init Tower.ArcherTower position "Archer".

(** [ArcherTower.attack]: the closest target is attacked. *)
Definition attack (self : Tower.t) (heap : Heap)
    (game_instances : list (WaveManager.t * ResourceManager.t))
    : Tower.t * Heap * list (WaveManager.t * ResourceManager.t) :=
  let self := SingleTarget.base_attack self in
  match Tower.targets self with
  | [] => (self, heap, game_instances)
  | target :: _ =>
      let '(heap, game_instances) :=
        SingleTarget.attack_target self target heap game_instances in
      (self, heap, game_instances)
  end.

End WithExternals.

End ArcherTower.

Module SniperTower.

Section WithExternals.
Context `{Externals}.

(** [SniperTower.__init__] *)
Definition init (position : Z * Z) : Tower.t :=
  Tower.init Tower.SniperTower position "Sniper".

Definition health_of (heap : Heap) (id : nat) : Qc :=
  match heap !! id with
  | Some m => Monster.health m
  | None => 0%Qc
  end.

(** [max(targets, key=lambda m: m.health)]: the first of the targets of
    largest health. *)
Definition max_health (heap : Heap) (first : nat) (rest : list nat) : nat :=
  foldl
    (fun best id =>
       if Py.Qcltb (health_of heap best) (health_of heap id) then id else best)
    first rest.

(** [SniperTower.attack]: the target of highest health is attacked. *)
Definition attack (self : Tower.t) (heap : Heap)
    (game_instances : list (WaveManager.t * ResourceManager.t))
    : Tower.t * Heap * list (WaveManager.t * ResourceManager.t) :=
  let self := SingleTarget.base_attack self in
  match Tower.targets self with
  | [] => (self, heap, game_instances)
  | first :: rest =>
      let target := max_health heap first rest in
      let '(heap, game_instances) :=
        SingleTarget.attack_target self target heap game_instances in
      (self, heap, game_instances)
  end.

End WithExternals.

End SniperTower.

(** ** features/towers/factory.py *)

Module TowerFactory.

Section WithExternals.
Context `{Externals}.

(** Modelled from the spec: splash_tower.py and frozen_tower.py are not
    part of the sources; the area-damage and the control variant are
    constructed as the two single-target variants are, by [Tower.__init__]
    with their type name. *)
Definition SplashTower (position : Z * Z) : Tower.t :=
  Tower.init Tower.SplashTower position "Splash".

Definition FrozenTower (position : Z * Z) : Tower.t :=
  Tower.init Tower.FrozenTower position "Frozen".

(** [TowerFactory.create_tower] *)
Definition create_tower (tower_type : string) (position : Z * Z) : result Tower.t :=
  if String.eqb tower_type "Archer" then Ok (ArcherTower.init position)
  else if String.eqb tower_type "Sniper" then Ok (SniperTower.init position)
  else if String.eqb tower_type "Splash" then Ok (SplashTower position)
  else if String.eqb tower_type "Frozen" then Ok (FrozenTower position)
  else Raise ValueError.

End WithExternals.

End TowerFactory.

(** ** save_system.py *)

Module SaveManager.

(** The dict built by [serialize_tower]; the three variant-specific keys
    are [None] when absent. *)
Record TowerData := mkTowerData {
  type : string;
  position : Z * Z;
  level : Z;
  damage : Qc;
  attack_speed : Qc;
  range : Qc;
  item_slots : list (option string);
  aoe_radius : option Qc;
  slow_effect : option Qc;
  slow_duration : option Qc
}.

(** [SaveManager.serialize_tower] *)
Definition serialize_tower (tower : Tower.t) : TowerData :=
  let name := Tower.class_name (Tower.cls tower) in
  mkTowerData name (Tower.position tower) (Tower.level tower)
    (Tower.damage tower) (Tower.attack_speed tower) (Tower.range tower)
    (Tower.item_slots tower)
    (if String.eqb name "SplashTower" then Some (Tower.aoe_radius tower) else None)
    (if negb (String.eqb name "SplashTower") && String.eqb name "FrozenTower"
     then Some (Tower.slow_effect tower) else None)
    (if negb (String.eqb name "SplashTower") && String.eqb name "FrozenTower"
     then Some (Tower.slow_duration tower) else None).

Section WithExternals.
Context `{Externals}.

(** [SaveManager.deserialize_tower]; [hasattr(tower, 'aoe_radius')] holds
    for "Splash" towers and [hasattr(tower, 'slow_effect')] for "Frozen"
    ones.  A [ValueError] of the factory is caught and answered with a
    fresh "Archer" tower; a missing key is a [KeyError]. *)
Definition deserialize_tower (tower_data : TowerData) : result Tower.t :=
  let tower_type := type tower_data in
  let position := position tower_data in
  match TowerFactory.create_tower tower_type position with
  | Ok tower =>
      let tower := Tower.set_level (level tower_data) tower in
      let tower := Tower.set_damage (damage tower_data) tower in
      let tower := Tower.set_attack_speed (attack_speed tower_data) tower in
      let tower := Tower.set_range (range tower_data) tower in
      let tower := Tower.set_item_slots (item_slots tower_data) tower in
      if String.eqb tower_type "SplashTower"
         && String.eqb (Tower.tower_type tower) "Splash" then
        match aoe_radius tower_data with
        | Some v => Ok (Tower.set_aoe_radius v tower)
        | None => Raise KeyError
        end
      else if String.eqb tower_type "FrozenTower"
              && String.eqb (Tower.tower_type tower) "Frozen" then
        match slow_effect tower_data, slow_duration tower_data with
        | Some e, Some d => Ok (Tower.set_slow_duration d (Tower.set_slow_effect e tower))
        | _, _ => Raise KeyError
        end
      else Ok tower
  | Raise ValueError => TowerFactory.create_tower "Archer" position
  | Raise e => Raise e
  end.

(** The wave part of [SaveManager.load_game]. *)
Definition restore_wave (wave : Z) (wm : WaveManager.t) : WaveManager.t :=
  WaveManager.mk wave [] (WaveManager.spawn_timer wm)
    (WaveManager.monsters_to_spawn wm) false true
    (WaveManager.wave_start_animation_timer wm)
    (WaveManager.wave_complete_animation_timer wm)
    (WaveManager.continuous_wave wm).

End WithExternals.

End SaveManager.

(** ** game.py and the states *)

Module GameOverState.

Record t := mk {
  time_in_state : Qc;
  auto_continue_time : Qc;
  setback_wave : Z;
  current_wave : Z
}.

(** [GameOverState.__init__] *)
Definition init : t := mk 0%Qc (Qc_of_Z 15) 1 0.

End GameOverState.

Module TowerPlacementState.

(** The pending tower type; [None] is Python's [None].  The preview tower
    only drives drawing and is left out. *)
Record t := mk { tower_type : option string }.

Definition init : t := mk None.

End TowerPlacementState.

Inductive StateName := main_menu | playing | paused | tower_placement | game_over.

(** The decoded input events the states react to. *)
Inductive Event :=
| MouseLeft
| MouseRight
| KeyEscape
| KeyReturn
| KeySpace
| OtherEvent.

Module Game.

(** The game object with the parts the states act on; buildings are kept
    as their rectangles.  [current_state] and the two state objects stand
    for the state manager and its table of states. *)
Record t := mk {
  resource_manager : ResourceManager.t;
  castle : Castle.t;
  wave_manager : WaveManager.t;
  monsters : Heap;
  buildings : list Rect.t;
  towers : list Tower.t;
  running : bool;
  current_state : StateName;
  game_over_state : GameOverState.t;
  tower_placement_state : TowerPlacementState.t
}.

Definition eta (self : t) : t :=
  mk (resource_manager self) (castle self) (wave_manager self) (monsters self)
     (buildings self) (towers self) (running self) (current_state self)
     (game_over_state self) (tower_placement_state self).

Ltac assign attr :=
  let e := eval cbv beta delta [eta] in (fun self : t => eta self) in
  match eval pattern attr in e with
  | ?F _ =>
      let r := eval cbv beta in (fun v self => F (fun _ : t => v) self) in
      exact r
  end.

Definition set_resource_manager : ResourceManager.t → t → t := ltac:(assign resource_manager).
Definition set_castle : Castle.t → t → t := ltac:(assign castle).
Definition set_wave_manager : WaveManager.t → t → t := ltac:(assign wave_manager).
Definition set_monsters : Heap → t → t := ltac:(assign monsters).
Definition set_towers : list Tower.t → t → t := ltac:(assign towers).
Definition set_running : bool → t → t := ltac:(assign running).
Definition set_current_state : StateName → t → t := ltac:(assign current_state).
Definition set_game_over_state : GameOverState.t → t → t := ltac:(assign game_over_state).
Definition set_tower_placement_state : TowerPlacementState.t → t → t :=
  ltac:(assign tower_placement_state).

(** The four assignments that [Game.set_wave] and
    [GameOverState.continue_game] both make on the wave manager. *)
Definition reset_wave_state (wave_number : Z) (wm : WaveManager.t) : WaveManager.t :=
  WaveManager.mk wave_number [] (WaveManager.spawn_timer wm) 0 false true
    (WaveManager.wave_start_animation_timer wm)
    (WaveManager.wave_complete_animation_timer wm)
    (WaveManager.continuous_wave wm).

(** [Game.set_wave] *)
Definition set_wave (self : t) (wave_number : Z) : t :=
  set_wave_manager (reset_wave_state wave_number (wave_manager self)) self.

(** [Game.reset_castle] *)
Definition reset_castle (self : t) : t :=
  let c := castle self in
  set_castle (Castle.mk (Castle.position c) (Castle.max_health c) (Castle.max_health c)) self.

Section WithExternals.
Context `{Externals}.

(** [Game.is_valid_tower_position] *)
Definition is_valid_tower_position (self : t) (position : Z * Z) : bool :=
  let tower_size := scale_size (40, 40) in
  let tower_rect :=
    Rect.mk (fst position - fst tower_size / 2) (snd position - snd tower_size / 2)
            (fst tower_size) (snd tower_size) in
  if negb (is_position_within_castle (castle self) position) then false
  else if existsb (fun building_rect => Rect.colliderect tower_rect building_rect)
            (buildings self) then false
  else if existsb (fun tower => Rect.colliderect tower_rect (Tower.rect tower))
            (towers self) then false
  else true.

(** [GameOverState.enter] *)
Definition game_over_enter (self : t) : t :=
  let current_wave := WaveManager.current_wave (wave_manager self) in
  let setback_wave := if 11 <=? current_wave then Z.max 1 (current_wave - 10) else 1 in
  set_game_over_state
    (GameOverState.mk 0%Qc
       (GameOverState.auto_continue_time (game_over_state self))
       setback_wave current_wave)
    self.

(** [TowerPlacementState.enter] and [TowerPlacementState.exit] *)
Definition tower_placement_enter (self : t) : t :=
  set_tower_placement_state (TowerPlacementState.mk None) self.

Definition tower_placement_exit (self : t) : t :=
  set_tower_placement_state (TowerPlacementState.mk None) self.

(** Modelled from the spec: states/game_state.py is not part of the
    sources; [changeState(name)] calls [exit()] on the old state, then
    [enter()] on the new one.  The hooks of the main menu, the playing
    state and the paused state touch no part of the game kept here. *)
Definition change_state (self : t) (name : StateName) : t :=
  let self :=
    match current_state self with
    | tower_placement => tower_placement_exit self
    | _ => self
    end in
  let self := set_current_state name self in
  match name with
  | tower_placement => tower_placement_enter self
  | game_over => game_over_enter self
  | _ => self
  end.

(** [Game.enter_tower_placement_mode] with
    [TowerPlacementState.set_tower_type] *)
Definition enter_tower_placement_mode (self : t) (tower_type : option string) : t :=
  let self := change_state self tower_placement in
  set_tower_placement_state (TowerPlacementState.mk tower_type) self.

(** [GameOverState.continue_game] *)
Definition continue_game (self : t) : t :=
  let c := castle self in
  let self :=
    set_castle (Castle.mk (Castle.position c) (Castle.max_health c) (Castle.max_health c))
      self in
  let self :=
    set_wave_manager
      (reset_wave_state (GameOverState.setback_wave (game_over_state self) - 1)
         (wave_manager self))
      self in
  change_state self playing.

(** [GameOverState.update] *)
Definition game_over_update (self : t) (dt : Qc) : t :=
  let s := game_over_state self in
  let time := (GameOverState.time_in_state s + dt)%Qc in
  let self :=
    set_game_over_state
      (GameOverState.mk time (GameOverState.auto_continue_time s)
         (GameOverState.setback_wave s) (GameOverState.current_wave s))
      self in
  if Py.Qcleb (GameOverState.auto_continue_time s) time then continue_game self
  else self.

(** [GameOverState.handle_events] *)
Fixpoint game_over_handle_events (self : t) (events : list Event) : bool * t :=
  match events with
  | [] => (false, self)
  | KeyEscape :: _ => (true, set_running false self)
  | KeyReturn :: _ | KeySpace :: _ => (true, continue_game self)
  | _ :: events' => game_over_handle_events self events'
  end.

(** [TowerPlacementState.place_tower]; a [ValueError] of the factory is
    not caught here. *)
Definition place_tower (self : t) (position : Z * Z) : result (bool * t) :=
  match TowerPlacementState.tower_type (tower_placement_state self) with
  | None => Ok (false, self)
  | Some tower_type =>
      if negb (Py.truthy (Some tower_type)) then Ok (false, self)
      else if negb (is_valid_tower_position self position) then Ok (false, self)
      else
        let tower_cost := default [] (TowerConfig.cost (Tower.config tower_type)) in
        let monster_coin_cost :=
          default 0 (TowerConfig.TOWER_MONSTER_COIN_COSTS tower_type) in
        match ResourceManager.spend_resources_for_tower (resource_manager self)
                tower_cost monster_coin_cost with
        | (false, _) => Ok (false, self)
        | (true, rm) =>
            let self := set_resource_manager rm self in
            match TowerFactory.create_tower tower_type position with
            | Raise e => Raise e
            | Ok tower => Ok (true, set_towers (towers self ++ [tower]) self)
            end
        end
  end.

(** [TowerPlacementState.handle_events]; [mouse_pos] is the pointer
    position read at the start of the call. *)
Fixpoint tower_placement_handle_events (self : t) (mouse_pos : Z * Z)
    (events : list Event) : result (bool * t) :=
  match events with
  | [] => Ok (false, self)
  | MouseLeft :: events' =>
      match place_tower self mouse_pos with
      | Raise e => Raise e
      | Ok (true, self) => Ok (true, change_state self playing)
      | Ok (false, self) => tower_placement_handle_events self mouse_pos events'
      end
  | MouseRight :: _ => Ok (true, change_state self playing)
  | KeyEscape :: _ => Ok (true, change_state self playing)
  | _ :: events' => tower_placement_handle_events self mouse_pos events'
  end.

(** The end of [PlayingState.update], after the wave manager and the
    towers have been updated: the loss check, then continuous wave mode. *)
Definition check_game_over (self : t) : t :=
  if Py.Qcleb (Castle.health (castle self)) 0 then change_state self game_over
  else self.

(** The game as the block leaves it; an [OverflowError] of
    [start_next_wave] leaves [update] with the scheduler as
    [start_next_wave] left it. *)
Definition continuous_wave_step (self : t) : t :=
  let wm := wave_manager self in
  if WaveManager.continuous_wave wm then
    if WaveManager.wave_completed wm && negb (WaveManager.wave_active wm)
    then set_wave_manager (snd (WaveManager.start_next_wave wm)) self
    else self
  else self.

End WithExternals.

End Game.

(** * Specification-side definitions *)

Module WaveSpec.


(** The setback wave of the game-over recovery. *)
Definition setback (wave : Z) : Z :=
  if 11 <=? wave then Z.max 1 (wave - 10) else 1.

Section WithExternals.
Context `{Externals}.

(** The states of the wave scheduler that the program can be in: the
    initial one, and whatever the writers of its attributes make of a
    reachable one. *)
Inductive reachable : WaveManager.t → Prop :=
| reach_init : reachable WaveManager.init
| reach_start_next_wave wm :
    reachable wm → reachable (snd (WaveManager.start_next_wave wm))
| reach_update wm dt rnd heap castle game_instance :
    reachable wm →
    reachable (WaveManager.update dt rnd wm heap castle game_instance).1.1.1
| reach_set_wave wm wave_number :
    reachable wm → reachable (Game.reset_wave_state wave_number wm)
| reach_load_game wm wave :
    reachable wm → reachable (SaveManager.restore_wave wave wm).

End WithExternals.

End WaveSpec.

Module PlacementSpec.

(** The pixels a rectangle covers, whichever way its width and its height
    point; a rectangle of zero width or height covers none. *)
Definition covers (r : Rect.t) (pixel : Z * Z) : Prop :=
  (Z.min (Rect.left r) (Rect.left r + Rect.width r) ≤ pixel.1
   < Z.max (Rect.left r) (Rect.left r + Rect.width r))
  ∧ (Z.min (Rect.top r) (Rect.top r + Rect.height r) ≤ pixel.2
     < Z.max (Rect.top r) (Rect.top r + Rect.height r)).

(** Two rectangles collide when they have a pixel in common. *)
Definition overlap (a b : Rect.t) : Prop :=
  ∃ pixel, covers a pixel ∧ covers b pixel.

Section WithExternals.
Context `{Externals}.

(** The ground a tower takes: the scaled 40 by 40 square centred on its
    position. *)
Definition footprint (position : Z * Z) : Rect.t :=
  let tower_size := scale_size (40, 40) in
  Rect.mk (position.1 - tower_size.1 / 2) (position.2 - tower_size.2 / 2)
    tower_size.1 tower_size.2.

(** The placement checks in the words of the specification: the position
    is within the boundary of the castle, and the ground of the tower
    collides with no building and with no tower. *)
Definition clear (g : Game.t) (position : Z * Z) : Prop :=
  is_position_within_castle (Game.castle g) position = true
  ∧ (∀ building, building ∈ Game.buildings g → ¬ overlap (footprint position) building)
  ∧ (∀ tower, tower ∈ Game.towers g →
       ¬ overlap (footprint position) (Tower.rect tower)).

End WithExternals.

End PlacementSpec.

(** ** A concrete setting to run the model in *)

Module Reference.

(** The window has the reference size, so scaling changes nothing; a
    monster stays where it is and is active until it is dead; every
    position is inside the castle's boundary; powers of floats are
    rounded to the nearest double. *)
Definition grunt (pos : Qc * Qc) : Monster.t :=
  Monster.mk pos (Qc_of_Z 50) false false false None.

Definition boss (pos : Qc * Qc) : Monster.t :=
  Monster.mk pos (Qc_of_Z 500) false false false (Some [("Force Core"%string, 1)]).

(** A [pow] that rounds correctly. *)
Definition pow (x : Float.t) (n : Z) : result Float.t :=
  match x with
  | Float.finite b => Float.checked (Float.round (Qpower (this b) n))
  | _ => Ok x
  end.

Definition externals : Externals :=
  {| float_pow := pow;
     scale_value := fun v => v;
     scale_size := fun s => s;
     scale_position := Utils.point;
     create_regular_monster := fun _ pos _ _ => grunt pos;
     create_boss_monster := fun _ pos _ => boss pos;
     monster_update := fun _ m c => (negb (Monster.is_dead m), m, c);
     is_position_within_castle := fun _ _ => true |}.

Definition castle : Castle.t :=
  Castle.mk (Qc_of_Z 400, Qc_of_Z 300) (Qc_of_Z 0) (Qc_of_Z 1000).

(** A game in the playing state that has reached the given wave. *)
Definition game_at_wave (wave : Z) : Game.t :=
  Game.mk Config.INITIAL_RESOURCES castle
    (WaveManager.mk wave [] 0%Qc 0 true false 0%Qc 0%Qc true)
    ∅ [] [] true playing GameOverState.init TowerPlacementState.init.

End Reference.

Module TowerSpec.

(** The outcome the specification asks of an upgrade purchase that
    answers [r] for the in-kind cost [cost] and the Monster Coin cost
    [monster_coin_cost]: it succeeds exactly when both are affordable at
    once; then every kind is charged what the cost map says, and Monster
    Coins the coin cost on top, once; otherwise ledger and tower are as
    before. *)
Definition purchase_outcome (self : Tower.t) (rm : ResourceManager.t)
    (cost : list (string * Z)) (monster_coin_cost : Z)
    (r : bool * Tower.t * ResourceManager.t) : Prop :=
  let affordable :=
    ResourceManager.has_resources rm cost
    && (monster_coin_cost <=? ResourceManager.get_resource rm "Monster Coins") in
  r.1.1 = affordable
  ∧ if affordable then
      ∀ k, ResourceManager.get_resource r.2 k
           = ResourceManager.get_resource rm k - ResourceManager.charged cost k
             - (if String.eqb k "Monster Coins" then monster_coin_cost else 0)
    else r.2 = rm ∧ r.1.2 = self.

(** The derived stats of a tower; the area pair (reference and scaled
    radius) exists on "Splash" towers, the slow pair (magnitude and
    duration) on "Frozen" ones. *)
Record Derived := mkDerived {
  damage : Qc;
  attack_speed : Qc;
  ref_range : Qc;
  range : Qc;
  area : option (Qc * Qc);
  slow : option (Qc * Qc);
  splash_damage_enabled : bool;
  splash_damage_radius : Qc
}.

(** The derived stats a tower currently has. *)
Definition derived (t : Tower.t) : Derived :=
  let is_splash := String.eqb (Tower.tower_type t) "Splash" in
  let is_frozen := String.eqb (Tower.tower_type t) "Frozen" in
  mkDerived (Tower.damage t) (Tower.attack_speed t) (Tower.ref_range t) (Tower.range t)
    (if is_splash then Some (Tower.ref_aoe_radius t, Tower.aoe_radius t) else None)
    (if is_frozen then Some (Tower.slow_effect t, Tower.slow_duration t) else None)
    (Tower.splash_damage_enabled t) (Tower.splash_damage_radius t).

(** The number of slots that hold the area modifier. *)
Definition equipped_force (slots : list (option string)) : nat :=
  length (filter (fun item => item = Some "Unstoppable Force"%string) slots).

(** The 30 % bonus applied once per equipped area modifier. *)
Definition boosted (n : nat) (base : Qc) : Qc :=
  Nat.iter n (fun v => (v * Py.frac 13 10)%Qc) base.

Section WithExternals.
Context `{Externals}.

(** The derived stats computed afresh from the base values and the
    modifiers equipped now: every stat is its base value, except that
    each equipped area modifier multiplies the area radius of a "Splash"
    tower, or the range of a "Frozen" tower, by 1.3 once, and that one or
    more of them give an "Archer" or "Sniper" tower the splash side
    effect with the configured radius. *)
Definition fresh (t : Tower.t) : Derived :=
  let n := equipped_force (Tower.item_slots t) in
  let is_splash := String.eqb (Tower.tower_type t) "Splash" in
  let is_frozen := String.eqb (Tower.tower_type t) "Frozen" in
  let single := Tower.is_archer_or_sniper (Tower.tower_type t) in
  let boosted_range := boosted n (Tower.base_ref_range t) in
  let boosted_area := boosted n (Tower.base_ref_aoe_radius t) in
  mkDerived (Tower.base_damage t) (Tower.base_attack_speed t)
    (if is_frozen then boosted_range else Tower.base_ref_range t)
    (if is_frozen && (0 <? n)%nat then scale_value boosted_range else Tower.base_range t)
    (if is_splash
     then Some (boosted_area,
                if (0 <? n)%nat then scale_value boosted_area
                else Tower.base_aoe_radius t)
     else None)
    (if is_frozen
     then Some (Tower.base_slow_effect t, Tower.base_slow_duration t)
     else None)
    (single && (0 <? n)%nat)
    (if single && (0 <? n)%nat then scale_value (Qc_of_Z 30) else 0%Qc).

(** Equipping and unequipping, as the tower menu drives them. *)
Inductive ItemOp :=
| Equip (item : option string) (slot_index : Z)
| Unequip (slot_index : Z).

Definition run_op (st : Tower.t * option ResourceManager.t) (op : ItemOp)
    : Tower.t * option ResourceManager.t :=
  match op with
  | Equip item slot_index =>
      let '(_, t, rm) := Tower.add_item st.1 item slot_index st.2 in (t, rm)
  | Unequip slot_index =>
      let '(_, t, rm) := Tower.remove_item st.1 slot_index st.2 in (t, rm)
  end.

Definition run_ops (t : Tower.t) (rm : option ResourceManager.t) (ops : list ItemOp)
    : Tower.t * option ResourceManager.t :=
  foldl run_op (t, rm) ops.

End WithExternals.

End TowerSpec.

(** ** What the modifier loop computes *)

Section Frame.
Context `{Externals}.

(** The derived stats after [n] area modifiers have been applied to a
    tower, in terms of the stats it had before. *)
Definition after_items (n : nat) (self : Tower.t) : TowerSpec.Derived :=
  let is_splash := String.eqb (Tower.tower_type self) "Splash" in
  let is_frozen := String.eqb (Tower.tower_type self) "Frozen" in
  let frozen_only := negb is_splash && is_frozen in
  let single_only :=
    negb (Tower.is_splash_or_frozen (Tower.tower_type self))
    && Tower.is_archer_or_sniper (Tower.tower_type self) in
  TowerSpec.mkDerived (Tower.damage self) (Tower.attack_speed self)
    (if frozen_only then TowerSpec.boosted n (Tower.ref_range self)
     else Tower.ref_range self)
    (if frozen_only && (0 <? n)%nat
     then scale_value (TowerSpec.boosted n (Tower.ref_range self))
     else Tower.range self)
    (if is_splash
     then Some (TowerSpec.boosted n (Tower.ref_aoe_radius self),
                if (0 <? n)%nat
                then scale_value (TowerSpec.boosted n (Tower.ref_aoe_radius self))
                else Tower.aoe_radius self)
     else None)
    (if is_frozen then Some (Tower.slow_effect self, Tower.slow_duration self)
     else None)
    (single_only && (0 <? n)%nat || Tower.splash_damage_enabled self)
    (if single_only && (0 <? n)%nat then scale_value (Qc_of_Z 30)
     else Tower.splash_damage_radius self).

(** The attributes no modifier touches. *)
Definition same_frame (a b : Tower.t) : Prop :=
  Tower.tower_type a = Tower.tower_type b
  ∧ Tower.item_slots a = Tower.item_slots b
  ∧ Tower.base_damage a = Tower.base_damage b
  ∧ Tower.base_attack_speed a = Tower.base_attack_speed b
  ∧ Tower.base_range a = Tower.base_range b
  ∧ Tower.base_ref_range a = Tower.base_ref_range b
  ∧ Tower.base_ref_aoe_radius a = Tower.base_ref_aoe_radius b
  ∧ Tower.base_aoe_radius a = Tower.base_aoe_radius b
  ∧ Tower.base_slow_effect a = Tower.base_slow_effect b
  ∧ Tower.base_slow_duration a = Tower.base_slow_duration b.

End Frame.

(** ** Concrete scenes *)

Module Scenario.

(** A boss wave with its boss on the field. *)
Definition boss_wave : WaveManager.t :=
  WaveManager.mk 10 [0%nat] 0%Qc 0 true false 0%Qc 0%Qc true.

Definition boss_heap : Heap :=
  {[ 0%nat := Reference.boss (Qc_of_Z 400, Qc_of_Z 50) ]}.

(** Three grunts in a line below an "Archer" tower at the origin: at
    distance 10, 30 and 100. *)
Definition three_grunts : Heap :=
  list_to_map
    [(0%nat, Reference.grunt (Qc_of_Z 0, Qc_of_Z 10));
     (1%nat, Reference.grunt (Qc_of_Z 0, Qc_of_Z 30));
     (2%nat, Reference.grunt (Qc_of_Z 0, Qc_of_Z 100))].

(** The tower with the area modifier in its first slot, after it has
    looked for targets among the three grunts. *)
Definition splash_archer : Tower.t :=
  let tower :=
    (@Tower.add_item Reference.externals
       (@ArcherTower.init Reference.externals (0, 0))
       (Some "Unstoppable Force"%string) 0 None).1.2 in
  SingleTarget.find_targets tower three_grunts [0%nat; 1%nat; 2%nat].

(** Equipping the area modifier three times, into both slots, and taking
    one out again. *)
Definition equip_ops : list TowerSpec.ItemOp :=
  [TowerSpec.Equip (Some "Unstoppable Force"%string) 0;
   TowerSpec.Equip (Some "Unstoppable Force"%string) 0;
   TowerSpec.Equip (Some "Unstoppable Force"%string) 1;
   TowerSpec.Unequip 0].

(** A game in placement mode with an "Archer" tower pending. *)
Definition placing_archer : Game.t :=
  Game.enter_tower_placement_mode
    (Reference.game_at_wave 1) (Some "Archer"%string).

End Scenario.

(** ** features/towers/base_tower.py: the remaining methods *)

Module BaseTower.

(** [Tower.get_item_in_slot] *)
Definition get_item_in_slot (self : Tower.t) (slot_index : Z) : option string :=
  if (0 <=? slot_index) && (slot_index <? Z.of_nat (length (Tower.item_slots self)))
  then default None (Tower.item_slots self !! Z.to_nat slot_index)
  else None.

(** [Tower.calculate_upgrade_cost], kept for compatibility: the cost
    scaled by the overall level. *)
Definition calculate_upgrade_cost (self : Tower.t) : list (string * Z) :=
  Tower.scaled_cost (Tower.tower_type self) (Tower.level self).

(** The outcome of a call that can raise [ZeroDivisionError]. *)
Inductive outcome (A : Type) :=
| Returns (a : A)
| ZeroDivisionError.
Arguments Returns {A} a.
Arguments ZeroDivisionError {A}.

(** [Tower.update], the part that is not animation.  [attack] is the
    method the call [self.attack(...)] is bound to, [monsters] the list
    handed over by the playing state.  [1.0 / self.attack_speed] is
    evaluated before the targets are looked at. *)
Definition update
    (attack : Tower.t → Heap → list (WaveManager.t * ResourceManager.t) →
              Tower.t * Heap * list (WaveManager.t * ResourceManager.t))
    (self : Tower.t) (dt : Qc) (heap : Heap) (monsters : list nat)
    (game_instances : list (WaveManager.t * ResourceManager.t))
    : outcome (Tower.t * Heap * list (WaveManager.t * ResourceManager.t)) :=
  let self := SingleTarget.find_targets self heap monsters in
  let self := Tower.set_attack_timer (Tower.attack_timer self + dt)%Qc self in
  if bool_decide (Tower.attack_speed self = 0%Qc) then ZeroDivisionError
  else if Py.Qcleb (1 / Tower.attack_speed self)%Qc (Tower.attack_timer self)
          && negb (bool_decide (Tower.targets self = [])) then
    let self := Tower.set_attack_timer 0%Qc self in
    Returns (attack self heap game_instances)
  else Returns (self, heap, game_instances).


End BaseTower.

(** ** states/paused_state.py: the keyboard part of the pause menu *)

Module PausedState.

(** What an entry of [menu_options] does when activated. *)
Inductive Action := resume_game | save_game.

(** [self.menu_options]: "Resume Game", "Save Game", "Exit to Menu"
    (whose action is [None]). *)
Definition menu_options : list (option Action) :=
  [Some resume_game; Some save_game; None].

Inductive Key := K_ESCAPE | K_UP | K_DOWN | K_RETURN | K_SPACE | K_OTHER.

(** What one key press is answered with. *)
Inductive Effect :=
| Resume
| Save
| Nothing.

(** [l[i]] for a Python list: a negative index counts from the end;
    [None] stands for [IndexError]. *)
Definition getitem {A : Type} (l : list A) (i : Z) : option A :=
  let n := Z.of_nat (length l) in
  if (0 <=? i) && (i <? n) then l !! Z.to_nat i
  else if (- n <=? i) && (i <? 0) then l !! Z.to_nat (n + i)
  else None.

(** The [KEYDOWN] branch of [PausedState.handle_events] for one event:
    whether the event was handled, the new [selected_option] and what
    was done; [None] stands for [IndexError]. *)
Definition handle_key (selected_option : Z) (key : Key) : option (bool * Z * Effect) :=
  match key with
  | K_ESCAPE => Some (true, selected_option, Resume)
  | K_UP =>
      Some (true, (selected_option - 1) mod Z.of_nat (length menu_options), Nothing)
  | K_DOWN =>
      Some (true, (selected_option + 1) mod Z.of_nat (length menu_options), Nothing)
  | K_RETURN | K_SPACE =>
      match getitem menu_options selected_option with
      | None => None
      | Some option =>
          Some (true, selected_option,
                match option with
                | Some resume_game => Resume
                | Some save_game => Save
                | None => Nothing
                end)
      end
  | K_OTHER => Some (false, selected_option, Nothing)
  end.

(** The second loop of [PausedState.handle_events] on the key presses
    of one call (the first loop, over [game_ui.handle_event], answers
    mouse clicks only): a key without a binding is passed over, the first
    key with a binding ends the call. *)
Fixpoint handle_events (selected_option : Z) (events : list Key)
    : option (bool * Z * Effect) :=
  match events with
  | [] => Some (false, selected_option, Nothing)
  | K_OTHER :: events' => handle_events selected_option events'
  | key :: _ => handle_key selected_option key
  end.

(** A run of calls; [selected_option] is kept by the state object from
    one call to the next. *)
Fixpoint handle_frames (selected_option : Z) (frames : list (list Key))
    : option (Z * list Effect) :=
  match frames with
  | [] => Some (selected_option, [])
  | events :: frames' =>
      match handle_events selected_option events with
      | None => None
      | Some (_, selected_option, effect) =>
          match handle_frames selected_option frames' with
          | None => None
          | Some (final, effects) => Some (final, effect :: effects)
          end
      end
  end.

End PausedState.

(** ** save_system.py: the save directory *)

Module SaveFiles.

(** [str.endswith] *)
Definition endswith (s suffix : string) : bool :=
  let n := String.length s in
  let k := String.length suffix in
  (k <=? n)%nat && String.eqb (String.substring (n - k) k s) suffix.

(** [list.sort()] on strings, as an insertion sort: an element goes
    after every element that is not larger. *)
Fixpoint insert (x : string) (l : list string) : list string :=
  match l with
  | [] => [x]
  | y :: l' => if String.ltb x y then x :: y :: l' else y :: insert x l'
  end.

Definition sort (l : list string) : list string :=
  foldl (fun sorted x => insert x sorted) [] l.

(** [SaveManager.clean_old_saves]; [directory] is what [os.listdir]
    answers, the result what is left of it after the calls of
    [os.remove]. *)
Definition clean_old_saves (max_saves : nat) (directory : list string) : list string :=
  let save_files := sort (filter (fun f => endswith f ".save" = true) directory) in
  if (max_saves <? length save_files)%nat then
    let removed := take (length save_files - max_saves) save_files in
    filter (fun f => f ∉ removed) directory
  else directory.

End SaveFiles.

(** ** Specification-side definitions for the items and the waves *)

Module ItemSpec.

(** How many of a kind of item the player holds: in the ledger and in
    the slots of a tower. *)
Definition equipped (slots : list (option string)) (kind : string) : Z :=
  Z.of_nat (length (filter (fun item => item = Some kind) slots)).

Definition holdings (rm : ResourceManager.t) (slots : list (option string))
    (kind : string) : Z :=
  ResourceManager.get_resource rm kind + equipped slots kind.

(** What one slot contributes to that count. *)
Definition holds (slot : option string) (kind : string) : Z :=
  if decide (slot = Some kind) then 1 else 0.

(** [0 <= slot_index < len(self.item_slots)] *)
Definition in_range (self : Tower.t) (slot_index : Z) : bool :=
  (0 <=? slot_index) && (slot_index <? Z.of_nat (length (Tower.item_slots self))).

End ItemSpec.

Module SpawnSpec.

(** The monster types a wave can spawn. *)
Definition unlocked (wave : Z) (monster_type : string) : Prop :=
  monster_type = "Grunt"%string
  ∨ (monster_type = "Runner"%string ∧ 3 ≤ wave)
  ∨ (monster_type = "Tank"%string ∧ 5 ≤ wave)
  ∨ (monster_type = "Flyer"%string ∧ 8 ≤ wave).

(** No monster is listed twice, and every listed monster is in the
    store. *)
Definition well_formed (wm : WaveManager.t) (heap : Heap) : Prop :=
  NoDup (WaveManager.active_monsters wm)
  ∧ ∀ id, id ∈ WaveManager.active_monsters wm → is_Some (heap !! id).

End SpawnSpec.

Module UpgradeSpec.

(** The attributes of a tower that the recomputation of the derived
    stats leaves alone, besides the base values and the slots. *)
Definition same_build (a b : Tower.t) : Prop :=
  Tower.cls a = Tower.cls b
  ∧ Tower.position a = Tower.position b
  ∧ Tower.rect a = Tower.rect b
  ∧ Tower.level a = Tower.level b
  ∧ Tower.damage_level a = Tower.damage_level b
  ∧ Tower.attack_speed_level a = Tower.attack_speed_level b
  ∧ Tower.range_level a = Tower.range_level b
  ∧ Tower.attack_timer a = Tower.attack_timer b
  ∧ Tower.targets a = Tower.targets b
  ∧ Tower.current_target a = Tower.current_target b.

End UpgradeSpec.

Module TargetSpec.

(** A list of monsters in the order of a key: no monster has a larger
    key than a monster listed after it. *)
Fixpoint ordered (key : nat → Qc) (l : list nat) : Prop :=
  match l with
  | [] => True
  | x :: l' => Forall (fun y => (key x ≤ key y)%Qc) l' ∧ ordered key l'
  end.

(** The health a hit of [amount] leaves: not less than 0. *)
Definition after_hit (amount health : Qc) : Qc :=
  let h := (health - amount)%Qc in
  if Py.Qcltb h 0 then 0%Qc else h.


End TargetSpec.

Module SaveSpec.

(** A list of names in ascending order: no name is smaller than a name
    listed before it. *)
Fixpoint ascending (l : list string) : Prop :=
  match l with
  | [] => True
  | x :: l' => Forall (fun y => String.ltb y x = false) l' ∧ ascending l'
  end.

End SaveSpec.

Module CostSpec.

(** A cost map is dearer than another when it charges the same kinds, in
    the same order, and strictly more of each. *)
Definition dearer (old new : list (string * Z)) : Prop :=
  Forall2 (fun o n => n.1 = o.1 ∧ o.2 < n.2) old new.

End CostSpec.

Module GroundSpec.

Section WithExternals.
Context `{Externals}.

(** What the game does to a tower it has: an update with the attack of
    its class, an upgrade on one of the three paths, an item put into a
    slot or taken out of one. *)
Inductive tower_step : Tower.t → Tower.t → Prop :=
| step_update_archer tower dt heap monsters game_instances r :
    BaseTower.update ArcherTower.attack tower dt heap monsters game_instances
    = BaseTower.Returns r →
    tower_step tower r.1.1
| step_update_sniper tower dt heap monsters game_instances r :
    BaseTower.update SniperTower.attack tower dt heap monsters game_instances
    = BaseTower.Returns r →
    tower_step tower r.1.1
| step_upgrade_damage tower resource_manager :
    tower_step tower (Tower.upgrade_damage tower resource_manager).1.2
| step_upgrade_attack_speed tower resource_manager :
    tower_step tower (Tower.upgrade_attack_speed tower resource_manager).1.2
| step_upgrade_range tower resource_manager :
    tower_step tower (Tower.upgrade_range tower resource_manager).1.2
| step_add_item tower item slot_index resource_manager :
    tower_step tower (Tower.add_item tower item slot_index resource_manager).1.2
| step_remove_item tower slot_index resource_manager :
    tower_step tower (Tower.remove_item tower slot_index resource_manager).1.2.

(** The lists of towers that a list of towers can become while the game
    keeps its towers: one of the towers takes a step, or a tower is
    placed. *)
Inductive later_towers (towers : list Tower.t) : list Tower.t → Prop :=
| later_now : later_towers towers towers
| later_step towers' (i : nat) tower tower' :
    later_towers towers towers' →
    towers' !! i = Some tower →
    tower_step tower tower' →
    later_towers towers (<[i := tower']> towers')
| later_placed towers' tower :
    later_towers towers towers' →
    later_towers towers (towers' ++ [tower]).

(** Every tower of the first list has a tower of the second list that
    stands on its ground. *)
Definition same_ground (towers towers' : list Tower.t) : Prop :=
  ∀ tower, tower ∈ towers →
    ∃ tower', tower' ∈ towers' ∧ Tower.rect tower' = Tower.rect tower.

End WithExternals.

End GroundSpec.

(** * Numerics *)

Section Numerics.

Lemma this_Qc_of_Z z : this (Qc_of_Z z) = inject_Z z.
Proof. reflexivity. Qed.

Lemma this_plus (a b : Qc) : (this (a + b)%Qc == this a + this b)%Q.
Proof. simpl. apply Qred_correct. Qed.

Lemma this_mult (a b : Qc) : (this (a * b)%Qc == this a * this b)%Q.
Proof. simpl. apply Qred_correct. Qed.

Lemma this_inv (a : Qc) : (this (/ a)%Qc == / this a)%Q.
Proof. simpl. apply Qred_correct. Qed.

Lemma this_frac n d : (this (Py.frac n d) == Qmake n (Z.to_pos d))%Q.
Proof. unfold Py.frac. simpl. apply Qred_correct. Qed.

Lemma this_power (q : Qc) (n : nat) :
  (this (q ^ n)%Qc == Qpower (this q) (Z.of_nat n))%Q.
Proof.
  induction n as [|n IH].
  - reflexivity.
  - change (q ^ S n)%Qc with (q * q ^ n)%Qc.
    rewrite this_mult, IH.
    replace (Z.of_nat (S n)) with (1 + Z.of_nat n) by lia.
    rewrite Qpower_plus' by lia. reflexivity.
Qed.

(** [Py.pow] is the power of the rationals, negative exponents included. *)
Lemma this_pow (b : Qc) (e : Z) : (this (Py.pow b e) == Qpower (this b) e)%Q.
Proof.
  unfold Py.pow. destruct (Z.ltb_spec e 0).
  - rewrite this_inv, this_power, Z2Nat.id by lia.
    rewrite <- Qpower_opp. replace (- - e) with e by lia. reflexivity.
  - rewrite this_power, Z2Nat.id by lia. reflexivity.
Qed.

(** On a number that is not negative, truncation is the floor. *)
Lemma int_nonneg (x : Qc) : (0 <= this x)%Q → Py.int x = Qfloor (this x).
Proof.
  intros Hx. unfold Py.int. rewrite bool_decide_eq_true_2; [reflexivity|].
  exact Hx.
Qed.


End Numerics.

(** * The wave scheduler *)

Section Waves.
Context `{Externals}.

(** What [start_next_wave] does besides the quota. *)
Lemma start_next_wave_fields wm :
  let r := WaveManager.start_next_wave wm in
  if WaveManager.wave_active wm then r = (Ok false, wm)
  else
    WaveManager.current_wave (snd r) = WaveManager.current_wave wm + 1
    ∧ WaveManager.wave_active (snd r) = true
    ∧ WaveManager.wave_completed (snd r) = false
    ∧ WaveManager.active_monsters (snd r) = WaveManager.active_monsters wm
    ∧ WaveManager.continuous_wave (snd r) = WaveManager.continuous_wave wm.
Proof.
  unfold WaveManager.start_next_wave. cbv zeta.
  destruct (WaveManager.wave_active wm); cbn [negb]; [reflexivity|].
  destruct (_ mod 10 =? 0); [repeat split|].
  destruct (WaveManager.regular_wave_count _); repeat split.
Qed.




Lemma remove_monsters_fields to_remove wm heap gi :
  let wm' := (WaveManager.remove_monsters to_remove wm heap gi).1.1 in
  WaveManager.current_wave wm' = WaveManager.current_wave wm
  ∧ WaveManager.monsters_to_spawn wm' = WaveManager.monsters_to_spawn wm
  ∧ WaveManager.wave_active wm' = WaveManager.wave_active wm
  ∧ WaveManager.wave_completed wm' = WaveManager.wave_completed wm.
Proof.
  revert wm heap gi. induction to_remove as [|id rest IH]; intros wm heap gi.
  - simpl. auto.
  - cbn [WaveManager.remove_monsters]. case_bool_decide; [|apply IH].
    match goal with
    | |- context [let '(_, _) := ?e in _] => destruct e as [heap' gi']
    end.
    match goal with
    | |- context [WaveManager.remove_monsters rest ?w ?h ?g] =>
        specialize (IH w h g)
    end.
    simpl in *. exact IH.
Qed.

(** What [update] does to the wave number and to the two flags: the wave
    number stays; the flags stay too, unless the wave is being marked
    completed, and then nothing is left to spawn and no monster is
    active. *)
Lemma update_outcome dt rnd wm heap castle gi :
  let wm' := (WaveManager.update dt rnd wm heap castle gi).1.1.1 in
  WaveManager.current_wave wm' = WaveManager.current_wave wm
  ∧ ((WaveManager.wave_active wm' = WaveManager.wave_active wm
      ∧ WaveManager.wave_completed wm' = WaveManager.wave_completed wm)
     ∨ (WaveManager.wave_active wm = true
        ∧ WaveManager.wave_active wm' = false
        ∧ WaveManager.wave_completed wm' = true
        ∧ WaveManager.monsters_to_spawn wm' = 0
        ∧ WaveManager.active_monsters wm' = [])).
Proof.
  unfold WaveManager.update. cbn zeta.
  destruct (WaveManager.wave_active wm) eqn:Hact; cbn [WaveManager.wave_active];
    rewrite ?Hact; [|simpl; auto].
  match goal with
  | |- context [if ?c then let '(_, _) := WaveManager.spawn_monster ?w ?h ?p ?r in _ else ?e] =>
      set (spawned := if c then let '(s, h') := WaveManager.spawn_monster w h p r in _ else e)
  end.
  assert (Hs : WaveManager.current_wave spawned.1 = WaveManager.current_wave wm
               ∧ WaveManager.wave_active spawned.1 = true
               ∧ WaveManager.wave_completed spawned.1 = WaveManager.wave_completed wm).
  { unfold spawned.
    match goal with |- context [if ?c then _ else _] => destruct c end;
      simpl; rewrite ?Hact; auto. }
  destruct spawned as [wm1 heap1]. simpl in Hs. destruct Hs as (Hw1 & Ha1 & Hc1).
  destruct (WaveManager.update_monsters dt (WaveManager.active_monsters wm1) heap1 castle)
    as [[to_remove heap2] castle2].
  pose proof (remove_monsters_fields to_remove wm1 heap2 gi) as Hr.
  destruct (WaveManager.remove_monsters to_remove wm1 heap2 gi) as [[wm2 heap3] gi3].
  simpl in Hr. destruct Hr as (Hw2 & Hm2 & Ha2 & Hc2).
  destruct (length (WaveManager.active_monsters wm2) =? 0)%nat eqn:Hlen;
    destruct (WaveManager.monsters_to_spawn wm2 =? 0) eqn:Hq; simpl;
      try (split; [congruence|left; split; congruence]).
  split; [congruence|]. right.
  apply Nat.eqb_eq in Hlen. apply Z.eqb_eq in Hq.
  repeat split; try assumption.
  destruct (WaveManager.active_monsters wm2); [reflexivity|discriminate].
Qed.

Lemma reachable_flags wm :
  WaveSpec.reachable wm →
  WaveManager.wave_active wm = negb (WaveManager.wave_completed wm).
Proof.
  induction 1 as [|wm Hr IH|wm dt rnd heap castle gi Hr IH|wm n Hr IH|wm n Hr IH].
  - reflexivity.
  - pose proof (start_next_wave_fields wm) as Hstart. cbv zeta in Hstart.
    destruct (WaveManager.wave_active wm) eqn:E.
    + rewrite Hstart. cbn [snd]. rewrite E. exact IH.
    + destruct Hstart as (_ & -> & -> & _). reflexivity.
  - destruct (update_outcome dt rnd wm heap castle gi) as [_ [[Ha Hc]|(_ & Ha & Hc & _)]].
    + rewrite Ha, Hc. exact IH.
    + rewrite Ha, Hc. reflexivity.
  - reflexivity.
  - reflexivity.
Qed.

(** C6: in every reachable state of the wave scheduler the flags
    [wave_active] and [wave_completed] are not both true (exactly one of
    them is); and an [update] that marks a wave completed leaves a spawn
    quota of 0 and no active monster. *)
Theorem wave_active_xor_completed (wm : WaveManager.t) :
  WaveSpec.reachable wm →
  ¬ (WaveManager.wave_active wm = true ∧ WaveManager.wave_completed wm = true)
  ∧ xorb (WaveManager.wave_active wm) (WaveManager.wave_completed wm) = true
  ∧ ∀ dt rnd heap castle game_instance,
      let wm' := (WaveManager.update dt rnd wm heap castle game_instance).1.1.1 in
      WaveManager.wave_completed wm' = WaveManager.wave_completed wm
      ∨ (WaveManager.wave_completed wm' = true
         ∧ WaveManager.wave_active wm' = false
         ∧ WaveManager.monsters_to_spawn wm' = 0
         ∧ length (WaveManager.active_monsters wm') = 0%nat).
Proof.
  intros Hr. pose proof (reachable_flags wm Hr) as Hf.
  split; [|split].
  - intros [Ha Hc]. rewrite Ha, Hc in Hf. discriminate.
  - rewrite Hf. destruct (WaveManager.wave_completed wm); reflexivity.
  - intros dt rnd heap castle gi.
    destruct (update_outcome dt rnd wm heap castle gi)
      as [_ [[_ Hc]|(_ & Ha & Hc & Hq & Hl)]].
    + left. exact Hc.
    + right. simpl. rewrite Hl. auto.
Qed.

End Waves.

(** * Game-over recovery and the wave number *)

Section Recovery.
Context `{Externals}.

Lemma change_state_wave_manager g name :
  Game.wave_manager (Game.change_state g name) = Game.wave_manager g.
Proof.
  unfold Game.change_state. destruct (Game.current_state g), name; reflexivity.
Qed.

Lemma change_state_castle g name :
  Game.castle (Game.change_state g name) = Game.castle g.
Proof.
  unfold Game.change_state. destruct (Game.current_state g), name; reflexivity.
Qed.

Lemma change_state_resource_manager g name :
  Game.resource_manager (Game.change_state g name) = Game.resource_manager g.
Proof.
  unfold Game.change_state. destruct (Game.current_state g), name; reflexivity.
Qed.

Lemma change_state_towers g name :
  Game.towers (Game.change_state g name) = Game.towers g.
Proof.
  unfold Game.change_state. destruct (Game.current_state g), name; reflexivity.
Qed.

Lemma change_state_current_state g name :
  Game.current_state (Game.change_state g name) = name.
Proof.
  unfold Game.change_state. destruct (Game.current_state g), name; reflexivity.
Qed.

Lemma game_over_entered g :
  GameOverState.setback_wave (Game.game_over_state (Game.change_state g game_over))
  = WaveSpec.setback (WaveManager.current_wave (Game.wave_manager g)).
Proof.
  unfold Game.change_state. destruct (Game.current_state g); reflexivity.
Qed.

Lemma continue_game_wave g :
  WaveManager.current_wave (Game.wave_manager (Game.continue_game g))
  = GameOverState.setback_wave (Game.game_over_state g) - 1.
Proof.
  unfold Game.continue_game. rewrite change_state_wave_manager. reflexivity.
Qed.

Lemma continue_game_next g :
  WaveManager.current_wave
    (snd (WaveManager.start_next_wave (Game.wave_manager (Game.continue_game g))))
  = GameOverState.setback_wave (Game.game_over_state g).
Proof.
  unfold Game.continue_game. rewrite change_state_wave_manager.
  match goal with
  | |- context [WaveManager.start_next_wave ?wm] =>
      pose proof (start_next_wave_fields wm) as Hstart
  end.
  cbv zeta in Hstart. cbn in Hstart. destruct Hstart as [Hwave _].
  cbn. cbn in Hwave. rewrite Hwave. lia.
Qed.

(** C2, as the code has it: when game-over is entered at wave [w], the
    setback wave is [max(1, w - 10)] from wave 11 on and 1 below;
    continuing restores the castle's health to its maximum and sets the
    wave counter to the setback wave minus 1, no wave being active, so
    that the next wave started is the setback wave.  From wave 15 the
    counter becomes 4 and the next wave is wave 5; from wave 4 the counter
    becomes 0 and the next wave is wave 1.  Confirming and the
    auto-continue timeout both run this recovery. *)
Theorem game_over_recovery (g : Game.t) :
  let w := WaveManager.current_wave (Game.wave_manager g) in
  let over := Game.change_state g game_over in
  let g' := Game.continue_game over in
  let next := snd (WaveManager.start_next_wave (Game.wave_manager g')) in
  (Castle.health (Game.castle g') = Castle.max_health (Game.castle g)
   ∧ Castle.max_health (Game.castle g') = Castle.max_health (Game.castle g)
   ∧ Game.current_state g' = playing
   ∧ WaveManager.current_wave (Game.wave_manager g') = WaveSpec.setback w - 1
   ∧ WaveManager.current_wave next = WaveSpec.setback w)
  ∧ (w = 15 →
     WaveManager.current_wave (Game.wave_manager g') = 4
     ∧ WaveManager.current_wave next = 5)
  ∧ (w = 4 →
     WaveManager.current_wave (Game.wave_manager g') = 0
     ∧ WaveManager.current_wave next = 1)
  ∧ Game.game_over_handle_events over [KeyReturn] = (true, g')
  ∧ Game.game_over_handle_events over [KeySpace] = (true, g')
  ∧ (let timed_out :=
       Game.game_over_update over
         (GameOverState.auto_continue_time (Game.game_over_state over)) in
     Game.wave_manager timed_out = Game.wave_manager g'
     ∧ Game.castle timed_out = Game.castle g').
Proof.
  intros w over g' next.
  assert (Hwave : WaveManager.current_wave (Game.wave_manager g') = WaveSpec.setback w - 1).
  { unfold g'. rewrite continue_game_wave. unfold over. rewrite game_over_entered.
    reflexivity. }
  assert (Hnext : WaveManager.current_wave next = WaveSpec.setback w).
  { unfold next, g'. rewrite continue_game_next. unfold over.
    rewrite game_over_entered. reflexivity. }
  split; [|split; [|split; [|split; [|split]]]].
  - rewrite Hwave, Hnext. unfold g', over, Game.continue_game.
    rewrite !change_state_castle, change_state_current_state.
    cbn [Game.castle Game.set_castle Game.set_wave_manager Castle.health
         Castle.max_health].
    auto.
  - intros Hw. rewrite Hwave, Hnext, Hw. split; reflexivity.
  - intros Hw. rewrite Hwave, Hnext, Hw. split; reflexivity.
  - reflexivity.
  - reflexivity.
  - cbn zeta. unfold Game.game_over_update.
    assert (Ht : GameOverState.time_in_state (Game.game_over_state over) = 0%Qc).
    { unfold over, Game.change_state. destruct (Game.current_state g); reflexivity. }
    rewrite Ht, Qcplus_0_l.
    unfold Py.Qcleb. rewrite bool_decide_eq_true_2 by apply Qcle_refl.
    unfold g', Game.continue_game. rewrite !change_state_wave_manager, !change_state_castle.
    split; reflexivity.
Qed.

Lemma start_next_wave_current_wave wm :
  WaveManager.current_wave wm
  ≤ WaveManager.current_wave (snd (WaveManager.start_next_wave wm))
  ≤ WaveManager.current_wave wm + 1.
Proof.
  pose proof (start_next_wave_fields wm) as Hstart. cbv zeta in Hstart.
  destruct (WaveManager.wave_active wm).
  - rewrite Hstart. cbn [snd]. lia.
  - destruct Hstart as [-> _]. lia.
Qed.

(** C10, as the code has it: starting the next wave, the scheduler's
    update, the loss check and continuous-mode auto-advance never make
    the wave number smaller (a started wave adds exactly one); game-over
    recovery sets it back, to the setback wave minus 1, which is smaller
    than any wave number from 1 on; and [Game.set_wave] sets it to
    whatever number it is given. *)
Theorem wave_number_only_set_back_by_recovery (g : Game.t) :
  let wm := Game.wave_manager g in
  let w := WaveManager.current_wave wm in
  w ≤ WaveManager.current_wave (snd (WaveManager.start_next_wave wm)) ≤ w + 1
  ∧ (∀ dt rnd heap castle game_instance,
       WaveManager.current_wave
         (WaveManager.update dt rnd wm heap castle game_instance).1.1.1 = w)
  ∧ WaveManager.current_wave (Game.wave_manager (Game.check_game_over g)) = w
  ∧ w ≤ WaveManager.current_wave (Game.wave_manager (Game.continuous_wave_step g))
  ∧ WaveManager.current_wave
      (Game.wave_manager (Game.continue_game (Game.change_state g game_over)))
    = WaveSpec.setback w - 1
  ∧ (1 ≤ w → WaveSpec.setback w - 1 < w)
  ∧ ∀ wave_number,
      WaveManager.current_wave (Game.wave_manager (Game.set_wave g wave_number))
      = wave_number.
Proof.
  intros wm w. split; [|split; [|split; [|split; [|split; [|split]]]]].
  - apply start_next_wave_current_wave.
  - intros dt rnd heap castle gi.
    apply (update_outcome dt rnd wm heap castle gi).
  - unfold Game.check_game_over.
    destruct (Py.Qcleb _ _); [rewrite change_state_wave_manager|]; reflexivity.
  - unfold Game.continuous_wave_step. fold wm.
    destruct (WaveManager.continuous_wave wm); [|reflexivity].
    destruct (WaveManager.wave_completed wm && negb (WaveManager.wave_active wm));
      [|reflexivity].
    apply start_next_wave_current_wave.
  - rewrite continue_game_wave, game_over_entered. reflexivity.
  - unfold WaveSpec.setback. destruct (Z.leb_spec 11 w); lia.
  - reflexivity.
Qed.

End Recovery.

(** * The ledger *)

Section Ledger.

Lemma get_resource_insert (rm : gmap string Z) k0 v k :
  ResourceManager.get_resource (<[k0 := v]> rm) k
  = if String.eqb k0 k then v else ResourceManager.get_resource rm k.
Proof.
  unfold ResourceManager.get_resource.
  destruct (String.eqb_spec k0 k) as [->|Hne].
  - rewrite lookup_insert_eq. reflexivity.
  - rewrite lookup_insert_ne by assumption. reflexivity.
Qed.

(** Deducting a cost map charges every kind what the map says. *)
Lemma get_resource_deduct (cost : list (string * Z)) (rm : gmap string Z) k :
  ResourceManager.get_resource (ResourceManager.deduct rm cost) k
  = ResourceManager.get_resource rm k - ResourceManager.charged cost k.
Proof.
  unfold ResourceManager.deduct. revert rm.
  induction cost as [|[k0 a] cost IH]; intros rm; simpl.
  - lia.
  - rewrite IH, get_resource_insert.
    destruct (String.eqb_spec k0 k) as [->|Hne]; lia.
Qed.

Lemma charged_fmap_absent (f : Z → Z) (base : list (string * Z)) k :
  k ∉ base.*1 →
  ResourceManager.charged ((fun '(r, a) => (r, f a)) <$> base) k = 0.
Proof.
  induction base as [|[k0 a] base IH]; simpl; intros Hk; [reflexivity|].
  apply not_elem_of_cons in Hk as [Hne Hk].
  destruct (String.eqb_spec k0 k) as [->|_]; [contradiction|]. auto.
Qed.

(** What both halves of a purchase do to the ledger when the in-kind
    cost does not itself charge Monster Coins. *)
Lemma spend_both (rm : gmap string Z) cost monster_coin_cost :
  ResourceManager.charged cost "Monster Coins" = 0 →
  monster_coin_cost <= ResourceManager.get_resource rm "Monster Coins" →
  ∀ k,
    ResourceManager.get_resource
      (snd (ResourceManager.spend_resource (ResourceManager.deduct rm cost)
              "Monster Coins" monster_coin_cost)) k
    = ResourceManager.get_resource rm k - ResourceManager.charged cost k
      - (if String.eqb k "Monster Coins" then monster_coin_cost else 0).
Proof.
  intros Hfree Hcoins k. unfold ResourceManager.spend_resource.
  rewrite !get_resource_deduct, Hfree, Z.sub_0_r.
  destruct (Z.leb_spec monster_coin_cost
              (ResourceManager.get_resource rm "Monster Coins")); [|lia].
  simpl. rewrite get_resource_insert, get_resource_deduct.
  rewrite String.eqb_sym.
  destruct (String.eqb_spec k "Monster Coins") as [->|_]; lia.
Qed.

End Ledger.

(** * Upgrades *)

Section Upgrades.
Context `{Externals}.

(** No upgrade cost map charges Monster Coins: the base costs of
    [TOWER_TYPES] are in stone, iron and copper. *)
Lemma scaled_cost_no_coins tower_type path_level :
  ResourceManager.charged (Tower.scaled_cost tower_type path_level) "Monster Coins" = 0.
Proof.
  unfold Tower.scaled_cost. apply charged_fmap_absent.
  unfold Tower.config, TowerConfig.TOWER_TYPES.
  repeat (match goal with |- context [String.eqb ?a ?b] => destruct (String.eqb a b) end;
          [cbn; compute_done|]).
  cbn. compute_done.
Qed.

Lemma purchase_failed (rm : gmap string Z) cost monster_coin_cost :
  ResourceManager.has_resources rm cost
  && (monster_coin_cost <=? ResourceManager.get_resource rm "Monster Coins") = false →
  negb (ResourceManager.has_resources rm cost)
  || (ResourceManager.get_resource rm "Monster Coins" <? monster_coin_cost) = true.
Proof.
  destruct (ResourceManager.has_resources rm cost); simpl; [|reflexivity].
  rewrite Z.leb_antisym. intros E. apply negb_false_iff in E. exact E.
Qed.

Lemma purchase_affordable (rm : gmap string Z) cost monster_coin_cost :
  ResourceManager.has_resources rm cost
  && (monster_coin_cost <=? ResourceManager.get_resource rm "Monster Coins") = true →
  negb (ResourceManager.has_resources rm cost)
  || (ResourceManager.get_resource rm "Monster Coins" <? monster_coin_cost) = false
  ∧ ResourceManager.spend_resources rm cost = (true, ResourceManager.deduct rm cost)
  ∧ monster_coin_cost <= ResourceManager.get_resource rm "Monster Coins".
Proof.
  intros E. apply andb_true_iff in E as [Hhas Hmc].
  unfold ResourceManager.spend_resources. rewrite Hhas. simpl.
  rewrite Z.leb_antisym in Hmc. apply negb_true_iff in Hmc. rewrite Hmc.
  repeat split. apply Z.ltb_ge. exact Hmc.
Qed.

Ltac settle_purchase :=
  unfold TowerSpec.purchase_outcome; cbn zeta;
  match goal with
  | |- context [ResourceManager.has_resources ?rm ?cost
                && (?mc <=? ResourceManager.get_resource ?rm "Monster Coins")] =>
      destruct (ResourceManager.has_resources rm cost
                && (mc <=? ResourceManager.get_resource rm "Monster Coins")) eqn:E;
      [ destruct (purchase_affordable rm cost mc E) as (Hguard & Hspend & Hcoins)
      | pose proof (purchase_failed rm cost mc E) as Hguard ]
  end.

(** C3: on each of the three upgrade paths, at any level, the purchase
    succeeds if and only if the ledger holds the in-kind cost and, at the
    same time, the Monster Coin cost; a successful purchase deducts each
    of the two costs once, a failed one leaves the ledger (and the tower)
    as it was. *)
Theorem upgrade_purchase_atomic (self : Tower.t) (rm : ResourceManager.t) :
  TowerSpec.purchase_outcome self rm
    (Tower.calculate_damage_upgrade_cost self)
    (Tower.calculate_damage_upgrade_monster_coin_cost self)
    (Tower.upgrade_damage self rm)
  ∧ TowerSpec.purchase_outcome self rm
      (Tower.calculate_attack_speed_upgrade_cost self)
      (Tower.calculate_attack_speed_upgrade_monster_coin_cost self)
      (Tower.upgrade_attack_speed self rm)
  ∧ TowerSpec.purchase_outcome self rm
      (Tower.calculate_range_upgrade_cost self)
      (Tower.calculate_range_upgrade_monster_coin_cost self)
      (Tower.upgrade_range self rm).
Proof.
  split; [|split].
  - unfold Tower.upgrade_damage. settle_purchase; rewrite Hguard.
    + rewrite Hspend. split; [reflexivity|]. cbn [snd fst].
      apply spend_both; [apply scaled_cost_no_coins|exact Hcoins].
    + auto.
  - unfold Tower.upgrade_attack_speed. settle_purchase; rewrite Hguard.
    + rewrite Hspend. split; [reflexivity|]. cbn [snd fst].
      apply spend_both; [apply scaled_cost_no_coins|exact Hcoins].
    + auto.
  - unfold Tower.upgrade_range. settle_purchase; rewrite Hguard.
    + rewrite Hspend. split; [reflexivity|]. cbn [snd fst].
      apply spend_both; [apply scaled_cost_no_coins|exact Hcoins].
    + auto.
Qed.

End Upgrades.

(** * Modifiers *)

Section Modifiers.
Context `{Externals}.

Lemma boosted_S n x :
  TowerSpec.boosted (S n) x = TowerSpec.boosted n (x * Py.frac 13 10)%Qc.
Proof.
  unfold TowerSpec.boosted.
  exact (Nat.iter_succ_r n (fun v => (v * Py.frac 13 10)%Qc) x).
Qed.

(** Once per equipped modifier is the closed form [base × 1.3^n]. *)
Lemma boosted_power n x :
  TowerSpec.boosted n x = (x * Py.frac 13 10 ^ n)%Qc.
Proof.
  induction n as [|n IH].
  - simpl. symmetry. apply Qcmult_1_r.
  - change (TowerSpec.boosted (S n) x)
      with (TowerSpec.boosted n x * Py.frac 13 10)%Qc.
    rewrite IH. simpl. ring.
Qed.

Lemma same_frame_refl a : same_frame a a.
Proof. repeat split. Qed.

Lemma same_frame_trans a b c : same_frame a b → same_frame b c → same_frame a c.
Proof. unfold same_frame. intros. intuition congruence. Qed.

Ltac split_variant ty :=
  unfold Tower.is_splash_or_frozen, Tower.is_archer_or_sniper;
  destruct (String.eqb ty "Splash") eqn:?, (String.eqb ty "Frozen") eqn:?,
    (String.eqb ty "Archer") eqn:?, (String.eqb ty "Sniper") eqn:?.

Ltac crunch :=
  repeat
    (cbn -[TowerSpec.boosted scale_value Nat.ltb Py.frac Qc_of_Z
           TowerSpec.equipped_force];
     match goal with
     | E : String.eqb _ _ = _ |- _ => rewrite !E
     end).

Lemma apply_item_frame self item : same_frame (Tower.apply_item self item) self.
Proof.
  destruct self as [? ? ty]. destruct item as [name|]; [|apply same_frame_refl].
  unfold Tower.apply_item. destruct (Py.truthy (Some name)); [|apply same_frame_refl].
  cbn [negb].
  destruct (String.eqb name "Unstoppable Force");
    [|destruct (String.eqb name "Serene Spirit")];
    cbn; try (split_variant ty); repeat split.
Qed.

(** One round of the loop, seen on the derived stats: the area modifier
    counts for one more application, anything else for none. *)
Lemma apply_item_force self n :
  after_items n (Tower.apply_item self (Some "Unstoppable Force"%string))
  = after_items (S n) self.
Proof.
  destruct self as [? ? ty]. unfold after_items, Tower.apply_item.
  cbn -[TowerSpec.boosted scale_value Nat.ltb Py.frac Qc_of_Z].
  rewrite !boosted_S.
  split_variant ty; crunch; destruct n; reflexivity.
Qed.

Lemma apply_item_other self item n :
  item ≠ Some "Unstoppable Force"%string →
  after_items n (Tower.apply_item self item) = after_items n self.
Proof.
  intros Hne. destruct item as [name|]; [|reflexivity].
  unfold Tower.apply_item. destruct (Py.truthy (Some name)); [|reflexivity].
  cbn [negb].
  destruct (String.eqb_spec name "Unstoppable Force") as [->|_]; [congruence|].
  destruct (String.eqb name "Serene Spirit"); reflexivity.
Qed.

Lemma equipped_force_cons item slots :
  TowerSpec.equipped_force (item :: slots)
  = if decide (item = Some "Unstoppable Force"%string)
    then S (TowerSpec.equipped_force slots)
    else TowerSpec.equipped_force slots.
Proof.
  unfold TowerSpec.equipped_force. rewrite filter_cons.
  destruct (decide _); reflexivity.
Qed.

(** The loop of [apply_item_effects]: after the slots [l], the stats are
    those of [equipped_force l] applications of the area modifier. *)
Lemma apply_items_derived l self :
  TowerSpec.derived (foldl Tower.apply_item self l)
  = after_items (TowerSpec.equipped_force l) self
  ∧ same_frame (foldl Tower.apply_item self l) self.
Proof.
  revert self. induction l as [|item l IH]; intros self.
  - split; [|apply same_frame_refl].
    destruct self as [? ? ty]. unfold after_items, TowerSpec.derived.
    cbn. split_variant ty; reflexivity.
  - cbn [foldl]. destruct (IH (Tower.apply_item self item)) as [IHd IHf].
    split; [|eapply same_frame_trans; [exact IHf|apply apply_item_frame]].
    rewrite IHd, equipped_force_cons.
    destruct (decide (item = Some "Unstoppable Force"%string)) as [->|Hne].
    + apply apply_item_force.
    + apply apply_item_other. exact Hne.
Qed.

Lemma no_truthy_no_force slots :
  existsb Py.truthy slots = false → TowerSpec.equipped_force slots = 0%nat.
Proof.
  induction slots as [|item slots IH]; [reflexivity|].
  cbn [existsb]. intros E. apply orb_false_iff in E as [Hi Hs].
  rewrite equipped_force_cons.
  destruct (decide _) as [->|_]; [discriminate|auto].
Qed.

Lemma reset_to_base_frame t : same_frame (Tower.reset_to_base t) t.
Proof.
  destruct t as [? ? ty]. unfold Tower.reset_to_base. cbn.
  destruct (String.eqb ty "Splash"), (String.eqb ty "Frozen"); repeat split.
Qed.

(** After the reset, [n] applications of the area modifier give exactly
    the stats computed afresh from the base values. *)
Lemma after_items_reset t flag :
  after_items (TowerSpec.equipped_force (Tower.item_slots t))
    (Tower.set_has_item_effects flag (Tower.reset_to_base t))
  = TowerSpec.fresh t.
Proof.
  destruct t as [? ? ty]. unfold after_items, TowerSpec.fresh, Tower.reset_to_base.
  unfold Tower.is_splash_or_frozen, Tower.is_archer_or_sniper.
  destruct (String.eqb ty "Splash") eqn:ES.
  { apply String.eqb_eq in ES. subst ty. reflexivity. }
  destruct (String.eqb ty "Frozen") eqn:EF.
  { apply String.eqb_eq in EF. subst ty. reflexivity. }
  crunch. rewrite orb_false_r. reflexivity.
Qed.

Lemma apply_item_effects_eq t :
  Tower.apply_item_effects t
  = if existsb Py.truthy (Tower.item_slots (Tower.reset_to_base t))
    then foldl Tower.apply_item
           (Tower.set_has_item_effects true (Tower.reset_to_base t))
           (Tower.item_slots (Tower.set_has_item_effects true (Tower.reset_to_base t)))
    else Tower.set_has_item_effects false (Tower.reset_to_base t).
Proof.
  unfold Tower.apply_item_effects.
  destruct (existsb Py.truthy (Tower.item_slots (Tower.reset_to_base t))); reflexivity.
Qed.

Lemma set_has_item_effects_frame flag t :
  same_frame (Tower.set_has_item_effects flag t) t.
Proof. destruct t. repeat split. Qed.

Lemma derived_after_items self :
  TowerSpec.derived self = after_items 0 self.
Proof. exact (proj1 (apply_items_derived [] self)). Qed.

(** [apply_item_effects] leaves the derived stats equal to the stats
    computed afresh from the base values and the equipped modifiers. *)
Lemma apply_item_effects_fresh t :
  TowerSpec.derived (Tower.apply_item_effects t) = TowerSpec.fresh t
  ∧ same_frame (Tower.apply_item_effects t) t.
Proof.
  rewrite apply_item_effects_eq.
  pose proof (reset_to_base_frame t) as Hreset.
  pose proof (set_has_item_effects_frame true (Tower.reset_to_base t)) as Ht.
  pose proof (set_has_item_effects_frame false (Tower.reset_to_base t)) as Hf.
  pose proof (same_frame_trans _ _ _ Ht Hreset) as Ht'.
  pose proof (same_frame_trans _ _ _ Hf Hreset) as Hf'.
  assert (Hslots : Tower.item_slots (Tower.reset_to_base t) = Tower.item_slots t)
    by apply Hreset.
  assert (Hslots' :
            Tower.item_slots (Tower.set_has_item_effects true (Tower.reset_to_base t))
            = Tower.item_slots t) by apply Ht'.
  rewrite Hslots, Hslots'.
  destruct (existsb Py.truthy (Tower.item_slots t)) eqn:E.
  - destruct (apply_items_derived (Tower.item_slots t)
                (Tower.set_has_item_effects true (Tower.reset_to_base t))) as [Hd Hfr].
    split; [|exact (same_frame_trans _ _ _ Hfr Ht')].
    rewrite Hd. apply after_items_reset.
  - split; [|exact Hf'].
    rewrite derived_after_items.
    rewrite <- (after_items_reset t false).
    rewrite (no_truthy_no_force _ E). reflexivity.
Qed.

Lemma fresh_frame a b : same_frame a b → TowerSpec.fresh a = TowerSpec.fresh b.
Proof.
  unfold TowerSpec.fresh. intros (-> & -> & -> & -> & -> & -> & -> & -> & -> & ->).
  reflexivity.
Qed.

End Modifiers.

Section Equipping.
Context `{Externals}.

(** A tower fresh from its constructor has the stats computed afresh. *)
Lemma init_fresh c position tower_type :
  TowerSpec.derived (Tower.init c position tower_type)
  = TowerSpec.fresh (Tower.init c position tower_type).
Proof.
  unfold TowerSpec.derived, TowerSpec.fresh, Tower.init, Tower.is_archer_or_sniper.
  cbn -[scale_value Py.frac Qc_of_Z Tower.config].
  destruct (String.eqb tower_type "Splash") eqn:ES.
  { apply String.eqb_eq in ES. subst tower_type. reflexivity. }
  destruct (String.eqb tower_type "Frozen") eqn:EF.
  { apply String.eqb_eq in EF. subst tower_type. reflexivity. }
  cbn -[scale_value Py.frac Qc_of_Z Tower.config]. rewrite !andb_false_r. reflexivity.
Qed.

Lemma set_item_slots_effects slots t :
  let t' := Tower.apply_item_effects (Tower.set_item_slots slots t) in
  TowerSpec.derived t' = TowerSpec.fresh t'.
Proof.
  cbn zeta.
  destruct (apply_item_effects_fresh (Tower.set_item_slots slots t)) as [Hd Hf].
  rewrite Hd. symmetry. apply fresh_frame. exact Hf.
Qed.

Lemma run_op_fresh t rm op :
  TowerSpec.derived t = TowerSpec.fresh t →
  TowerSpec.derived (TowerSpec.run_op (t, rm) op).1
  = TowerSpec.fresh (TowerSpec.run_op (t, rm) op).1.
Proof.
  intros Ht. destruct op as [item slot_index|slot_index]; cbn [TowerSpec.run_op fst snd].
  - unfold Tower.add_item.
    destruct ((0 <=? slot_index)
              && (slot_index <? Z.of_nat (length (Tower.item_slots t))));
      cbn [fst]; [|exact Ht].
    apply set_item_slots_effects.
  - unfold Tower.remove_item.
    destruct ((0 <=? slot_index)
              && (slot_index <? Z.of_nat (length (Tower.item_slots t)))
              && Py.truthy (default None (Tower.item_slots t !! Z.to_nat slot_index)));
      cbn [fst]; [|exact Ht].
    apply set_item_slots_effects.
Qed.

(** C4: after any sequence of equip and unequip operations, into either
    slot, the derived stats of a tower (damage, attack speed, range, area
    radius, slow magnitude and duration, splash side effect) are the
    stats computed afresh from its base values with the effect of each
    modifier equipped now applied once; nothing is compounded by
    repetition. *)
Theorem equip_never_compounds (t : Tower.t) (rm : option ResourceManager.t)
    (ops : list TowerSpec.ItemOp) :
  TowerSpec.derived t = TowerSpec.fresh t →
  let t' := (TowerSpec.run_ops t rm ops).1 in
  TowerSpec.derived t' = TowerSpec.fresh t'
  ∧ Tower.base_damage t' = Tower.base_damage t
  ∧ Tower.base_attack_speed t' = Tower.base_attack_speed t
  ∧ Tower.base_ref_range t' = Tower.base_ref_range t.
Proof.
  unfold TowerSpec.run_ops. revert t rm.
  induction ops as [|op ops IH]; intros t rm Ht; cbn [foldl fst].
  - auto.
  - pose proof (run_op_fresh t rm op Ht) as Hop.
    assert (Hbase : Tower.base_damage (TowerSpec.run_op (t, rm) op).1 = Tower.base_damage t
                    ∧ Tower.base_attack_speed (TowerSpec.run_op (t, rm) op).1
                      = Tower.base_attack_speed t
                    ∧ Tower.base_ref_range (TowerSpec.run_op (t, rm) op).1
                      = Tower.base_ref_range t).
    { destruct op as [item slot_index|slot_index]; cbn [TowerSpec.run_op fst snd].
      - unfold Tower.add_item.
        destruct ((0 <=? slot_index)
                  && (slot_index <? Z.of_nat (length (Tower.item_slots t))));
          cbn [fst]; [|auto].
        destruct (apply_item_effects_fresh
                    (Tower.set_item_slots
                       (<[Z.to_nat slot_index:=item]> (Tower.item_slots t)) t))
          as [_ Hf].
        destruct Hf as (_ & _ & Hd & Ha & _ & Hr & _). rewrite Hd, Ha, Hr. auto.
      - unfold Tower.remove_item.
        destruct ((0 <=? slot_index)
                  && (slot_index <? Z.of_nat (length (Tower.item_slots t)))
                  && Py.truthy (default None (Tower.item_slots t !! Z.to_nat slot_index)));
          cbn [fst]; [|auto].
        destruct (apply_item_effects_fresh
                    (Tower.set_item_slots
                       (<[Z.to_nat slot_index:=None]> (Tower.item_slots t)) t))
          as [_ Hf].
        destruct Hf as (_ & _ & Hd & Ha & _ & Hr & _). rewrite Hd, Ha, Hr. auto. }
    destruct (TowerSpec.run_op (t, rm) op) as [t1 rm1]. cbn [fst] in *.
    destruct (IH t1 rm1 Hop) as (Hd & H1 & H2 & H3).
    destruct Hbase as (B1 & B2 & B3).
    rewrite H1, H2, H3. auto.
Qed.

End Equipping.

(** * Persistence *)

Section Persistence.
Context `{Externals}.

(** C7, as the code has it: the saved type is the class name
    ("ArcherTower", "SniperTower", ...), which the factory does not know;
    it raises, and the tower is reconstructed as a fresh "Archer" tower at
    the saved position, whatever it was.  A "Sniper" tower of damage 50
    comes back with damage 10. *)
Theorem deserialize_tower_falls_back_to_archer (tower : Tower.t) :
  SaveManager.deserialize_tower (SaveManager.serialize_tower tower)
  = Ok (ArcherTower.init (Tower.position tower))
  ∧ Tower.damage (SniperTower.init (Tower.position tower)) = Qc_of_Z 50
  ∧ (∀ reloaded,
       SaveManager.deserialize_tower
         (SaveManager.serialize_tower (SniperTower.init (Tower.position tower)))
       = Ok reloaded →
       Tower.damage reloaded = Qc_of_Z 10
       ∧ Tower.damage reloaded
         ≠ Tower.damage (SniperTower.init (Tower.position tower))).
Proof.
  assert (Hall : ∀ t, SaveManager.deserialize_tower (SaveManager.serialize_tower t)
                      = Ok (ArcherTower.init (Tower.position t))).
  { intros t. destruct t as [[] ?]; reflexivity. }
  split; [apply Hall|]. split; [reflexivity|].
  intros reloaded. rewrite Hall. intros [= <-].
  split; [reflexivity|]. cbn. intros E. inversion E.
Qed.

End Persistence.

(** * Death handling *)

Section DeathHandling.

(** The handler marks the monster and leaves it in the store. *)
Lemma handle_monster_death_active wm id heap rm m :
  id ∈ WaveManager.active_monsters wm →
  heap !! id = Some m →
  WaveManager.handle_monster_death wm (Some id) heap rm
  = (<[id := Monster.set_is_dead true m]> heap,
     match Monster.boss_loot m with
     | Some loot =>
         foldl (fun rm '(resource_type, amount) =>
                  ResourceManager.add_resource rm resource_type amount)
               (ResourceManager.add_resource rm "Monster Coins" 1) loot
     | None => ResourceManager.add_resource rm "Monster Coins" 1
     end).
Proof.
  intros Hin Hm. unfold WaveManager.handle_monster_death.
  rewrite bool_decide_eq_true_2 by exact Hin. cbn [negb]. rewrite Hm.
  destruct (Monster.boss_loot m); reflexivity.
Qed.

Lemma get_resource_add_resource (rm : gmap string Z) k0 amount k :
  ResourceManager.get_resource (ResourceManager.add_resource rm k0 amount) k
  = if String.eqb k0 k then ResourceManager.get_resource rm k0 + amount
    else ResourceManager.get_resource rm k.
Proof. unfold ResourceManager.add_resource. apply get_resource_insert. Qed.

(** Crediting a loot map adds, for every kind, what the map holds. *)
Lemma get_resource_loot (loot : list (string * Z)) (rm : gmap string Z) k :
  ResourceManager.get_resource
    (foldl (fun rm '(resource_type, amount) =>
              ResourceManager.add_resource rm resource_type amount) rm loot) k
  = ResourceManager.get_resource rm k + ResourceManager.charged loot k.
Proof.
  revert rm. induction loot as [|[k0 a] loot IH]; intros rm; simpl.
  - lia.
  - rewrite IH, get_resource_add_resource.
    destruct (String.eqb_spec k0 k) as [->|Hne]; lia.
Qed.

(** C1, as the code has it: the guard of [handle_monster_death] is
    membership in [active_monsters], not the monster's dead flag, and the
    handler removes nothing from that list.  Called twice on a monster
    that is still listed, it marks it dead the first time and credits
    the kill reward, and the boss loot, both times: in the end every kind
    holds twice the reward of one kill more than before. *)
Theorem handle_monster_death_credits_twice (wm : WaveManager.t) (id : nat)
    (heap : Heap) (rm : ResourceManager.t) (m : Monster.t) :
  id ∈ WaveManager.active_monsters wm →
  heap !! id = Some m →
  let reward k :=
    (if String.eqb "Monster Coins" k then 1 else 0)
    + ResourceManager.charged (default [] (Monster.boss_loot m)) k in
  let first := WaveManager.handle_monster_death wm (Some id) heap rm in
  let second := WaveManager.handle_monster_death wm (Some id) first.1 first.2 in
  Monster.is_dead <$> first.1 !! id = Some true
  ∧ (∀ k, ResourceManager.get_resource first.2 k
          = ResourceManager.get_resource rm k + reward k)
  ∧ (∀ k, ResourceManager.get_resource second.2 k
          = ResourceManager.get_resource rm k + 2 * reward k).
Proof.
  intros Hin Hm reward first second.
  assert (Hfirst : first = (<[id := Monster.set_is_dead true m]> heap, first.2)).
  { unfold first. rewrite (handle_monster_death_active _ _ _ _ _ Hin Hm). reflexivity. }
  assert (Hcredit : ∀ rm0 k,
            ResourceManager.get_resource
              (match Monster.boss_loot m with
               | Some loot =>
                   foldl (fun rm '(resource_type, amount) =>
                            ResourceManager.add_resource rm resource_type amount)
                         (ResourceManager.add_resource rm0 "Monster Coins" 1) loot
               | None => ResourceManager.add_resource rm0 "Monster Coins" 1
               end) k
            = ResourceManager.get_resource rm0 k + reward k).
  { intros rm0 k. unfold reward. destruct (Monster.boss_loot m) as [loot|].
    - change (default [] (Some loot)) with loot.
      rewrite get_resource_loot, get_resource_add_resource.
      destruct (String.eqb_spec "Monster Coins" k) as [<-|_]; lia.
    - change (ResourceManager.charged (default [] None) k) with 0.
      rewrite get_resource_add_resource.
      destruct (String.eqb_spec "Monster Coins" k) as [<-|_]; lia. }
  assert (H1 : ∀ k, ResourceManager.get_resource first.2 k
                    = ResourceManager.get_resource rm k + reward k).
  { intros k. unfold first. rewrite (handle_monster_death_active _ _ _ _ _ Hin Hm).
    cbn [snd]. apply Hcredit. }
  split; [|split].
  - rewrite Hfirst. cbn [fst]. rewrite lookup_insert_eq. reflexivity.
  - exact H1.
  - intros k. unfold second. rewrite Hfirst. cbn [fst snd].
    rewrite (handle_monster_death_active wm id _ _ (Monster.set_is_dead true m) Hin)
      by apply lookup_insert_eq.
    cbn [snd Monster.boss_loot Monster.set_is_dead].
    rewrite Hcredit, H1. lia.
Qed.

End DeathHandling.

(** * Placement *)

Section Placement.
Context `{Externals}.

(** No placement cost map charges Monster Coins: the costs of
    [TOWER_TYPES] are in stone, iron and copper. *)
Lemma tower_cost_no_coins tower_type :
  ResourceManager.charged
    (default [] (TowerConfig.cost (Tower.config tower_type))) "Monster Coins" = 0.
Proof.
  unfold Tower.config, TowerConfig.TOWER_TYPES.
  repeat (match goal with |- context [String.eqb ?a ?b] => destruct (String.eqb a b) end;
          [reflexivity|]).
  reflexivity.
Qed.

(** The factory raises only for a type that [TOWER_TYPES] and
    [TOWER_MONSTER_COIN_COSTS] do not list either, so that the cost looked
    up for it is the empty one. *)
Lemma create_tower_raise tower_type position e :
  TowerFactory.create_tower tower_type position = Raise e →
  default [] (TowerConfig.cost (Tower.config tower_type)) = []
  ∧ default 0 (TowerConfig.TOWER_MONSTER_COIN_COSTS tower_type) = 0.
Proof.
  unfold TowerFactory.create_tower, Tower.config, TowerConfig.TOWER_TYPES,
    TowerConfig.TOWER_MONSTER_COIN_COSTS.
  destruct (String.eqb tower_type "Archer"); [discriminate|].
  destruct (String.eqb tower_type "Sniper"); [discriminate|].
  destruct (String.eqb tower_type "Splash"); [discriminate|].
  destruct (String.eqb tower_type "Frozen"); [discriminate|].
  intros _. split; reflexivity.
Qed.

(** The atomic spend of a placement: it answers whether the whole cost
    is affordable, and charges all of it or nothing. *)
Lemma spend_resources_for_tower_outcome (rm : gmap string Z) cost monster_coin_cost :
  ResourceManager.charged cost "Monster Coins" = 0 →
  let r := ResourceManager.spend_resources_for_tower rm cost monster_coin_cost in
  r.1 = ResourceManager.has_resources_for_tower rm cost monster_coin_cost
  ∧ if r.1 then
      ∀ k, ResourceManager.get_resource r.2 k
           = ResourceManager.get_resource rm k - ResourceManager.charged cost k
             - (if String.eqb k "Monster Coins" then monster_coin_cost else 0)
    else r.2 = rm.
Proof.
  intros Hfree r. unfold r, ResourceManager.spend_resources_for_tower.
  destruct (ResourceManager.has_resources_for_tower rm cost monster_coin_cost) eqn:E;
    cbn [fst snd]; [|auto].
  split; [reflexivity|].
  apply spend_both; [exact Hfree|].
  unfold ResourceManager.has_resources_for_tower in E.
  apply andb_true_iff in E as [_ E]. apply Z.leb_le in E. exact E.
Qed.

Lemma cancel_leaves_ledger_and_towers g mouse_pos events cancel :
  cancel = MouseRight ∨ cancel = KeyEscape →
  Game.tower_placement_handle_events g mouse_pos (cancel :: events)
  = Ok (true, Game.change_state g playing).
Proof. intros [-> | ->]; reflexivity. Qed.

(** [colliderect] answers whether the two rectangles have a pixel in
    common. *)
Lemma colliderect_overlap (a b : Rect.t) :
  Rect.colliderect a b = true ↔ PlacementSpec.overlap a b.
Proof.
  unfold Rect.colliderect, PlacementSpec.overlap, PlacementSpec.covers.
  destruct a as [la ta wa ha], b as [lb tb wb hb]. cbn [Rect.left Rect.top Rect.width Rect.height].
  split.
  - destruct (Z.eqb_spec wa 0) as [|Hwa]; [discriminate|].
    destruct (Z.eqb_spec ha 0) as [|Hha]; [discriminate|].
    destruct (Z.eqb_spec wb 0) as [|Hwb]; [discriminate|].
    destruct (Z.eqb_spec hb 0) as [|Hhb]; [discriminate|].
    cbn [orb]. rewrite !andb_true_iff, !Z.ltb_lt. intros (((H1 & H2) & H3) & H4).
    exists (Z.max (Z.min la (la + wa)) (Z.min lb (lb + wb)),
            Z.max (Z.min ta (ta + ha)) (Z.min tb (tb + hb))).
    cbn [fst snd]. lia.
  - intros ([x y] & Ha & Hb). cbn [fst snd] in Ha, Hb.
    destruct (Z.eqb_spec wa 0) as [|Hwa]; [lia|].
    destruct (Z.eqb_spec ha 0) as [|Hha]; [lia|].
    destruct (Z.eqb_spec wb 0) as [|Hwb]; [lia|].
    destruct (Z.eqb_spec hb 0) as [|Hhb]; [lia|].
    cbn [orb]. rewrite !andb_true_iff, !Z.ltb_lt. lia.
Qed.

(** The position check of the game passes exactly at the positions that
    are clear. *)
Lemma is_valid_tower_position_clear (g : Game.t) (position : Z * Z) :
  Game.is_valid_tower_position g position = true ↔ PlacementSpec.clear g position.
Proof.
  unfold Game.is_valid_tower_position, PlacementSpec.clear. cbv zeta.
  fold (PlacementSpec.footprint position).
  destruct (is_position_within_castle (Game.castle g) position); cbn [negb];
    [|split; [discriminate|intros [Hin _]; discriminate]].
  destruct (existsb _ (Game.buildings g)) eqn:Hbuildings.
  { split; [discriminate|]. intros (_ & Hnone & _). exfalso.
    apply existsb_exists in Hbuildings as (building & Hin & Hhit).
    apply (Hnone building); [apply list_elem_of_In; exact Hin|].
    apply colliderect_overlap. exact Hhit. }
  destruct (existsb _ (Game.towers g)) eqn:Htowers.
  { split; [discriminate|]. intros (_ & _ & Hnone). exfalso.
    apply existsb_exists in Htowers as (tower & Hin & Hhit).
    apply (Hnone tower); [apply list_elem_of_In; exact Hin|].
    apply colliderect_overlap. exact Hhit. }
  split; [intros _|reflexivity].
  split; [reflexivity|]. split.
  - intros building Hin Hhit. apply colliderect_overlap in Hhit.
    assert (Hsome : existsb (fun building_rect =>
                               Rect.colliderect (PlacementSpec.footprint position)
                                 building_rect) (Game.buildings g) = true).
    { apply existsb_exists. exists building. split; [apply list_elem_of_In, Hin|exact Hhit]. }
    rewrite Hbuildings in Hsome. discriminate.
  - intros tower Hin Hhit. apply colliderect_overlap in Hhit.
    assert (Hsome : existsb (fun tower =>
                               Rect.colliderect (PlacementSpec.footprint position)
                                 (Tower.rect tower)) (Game.towers g) = true).
    { apply existsb_exists. exists tower. split; [apply list_elem_of_In, Hin|exact Hhit]. }
    rewrite Htowers in Hsome. discriminate.
Qed.

(** Every tower of the factory stands at the position it was asked for,
    on the ground that the position check looks at. *)
Lemma create_tower_rect tower_type position tower :
  TowerFactory.create_tower tower_type position = Ok tower →
  Tower.rect tower = PlacementSpec.footprint position
  ∧ Tower.position tower = position.
Proof.
  unfold TowerFactory.create_tower.
  repeat (match goal with |- context [String.eqb ?a ?b] => destruct (String.eqb a b) end;
          [intros [= <-]; split; reflexivity|]).
  discriminate.
Qed.

(** C9: a placement is confirmed exactly when a tower type is pending,
    the position is clear (within the boundary of the castle, and the
    ground of the tower collides with no building and with no tower) and
    the ledger affords the type's in-kind cost together with its Monster
    Coin cost; the position check of the game passes exactly at the clear
    positions.  Then the tower built by the factory, standing at the
    position on that ground, is appended to the towers and every kind is
    charged its cost, once.  A confirm attempt that fails a check leaves
    the game as it was; so does, for ledger and towers, a cancellation by
    right click or Escape, also right after placement mode was entered.
    A type the factory does not know costs nothing and creates nothing. *)
Theorem place_tower_all_or_nothing (g : Game.t) (position : Z * Z) :
  let rm := Game.resource_manager g in
  let pending := TowerPlacementState.tower_type (Game.tower_placement_state g) in
  let tower_type := default ""%string pending in
  let tower_cost := default [] (TowerConfig.cost (Tower.config tower_type)) in
  let monster_coin_cost :=
    default 0 (TowerConfig.TOWER_MONSTER_COIN_COSTS tower_type) in
  let confirmable :=
    Py.truthy pending && Game.is_valid_tower_position g position
    && ResourceManager.has_resources_for_tower rm tower_cost monster_coin_cost in
  ((Game.is_valid_tower_position g position = true ↔ PlacementSpec.clear g position)
   ∧ (confirmable = true
      ↔ Py.truthy pending = true
        ∧ PlacementSpec.clear g position
        ∧ ResourceManager.has_resources_for_tower rm tower_cost monster_coin_cost
          = true))
  ∧ match Game.place_tower g position with
    | Ok (placed, g') =>
        placed = confirmable
        ∧ if placed then
            PlacementSpec.clear g position
            ∧ (∃ tower, TowerFactory.create_tower tower_type position = Ok tower
                        ∧ Game.towers g' = Game.towers g ++ [tower]
                        ∧ Tower.position tower = position
                        ∧ Tower.rect tower = PlacementSpec.footprint position
                        ∧ (∀ building, building ∈ Game.buildings g' →
                             ¬ PlacementSpec.overlap (Tower.rect tower) building)
                        ∧ (∀ other, other ∈ Game.towers g →
                             ¬ PlacementSpec.overlap (Tower.rect tower)
                                 (Tower.rect other)))
            ∧ ∀ k, ResourceManager.get_resource (Game.resource_manager g') k
                   = ResourceManager.get_resource rm k
                     - ResourceManager.charged tower_cost k
                     - (if String.eqb k "Monster Coins" then monster_coin_cost else 0)
          else
            g' = g
            ∧ Game.tower_placement_handle_events g position [MouseLeft] = Ok (false, g)
    | Raise _ => confirmable = true ∧ tower_cost = [] ∧ monster_coin_cost = 0
    end
  ∧ ∀ mouse_pos events cancel,
      cancel = MouseRight ∨ cancel = KeyEscape →
      (∃ g', Game.tower_placement_handle_events g mouse_pos (cancel :: events)
             = Ok (true, g')
             ∧ Game.current_state g' = playing
             ∧ Game.resource_manager g' = rm
             ∧ Game.towers g' = Game.towers g)
      ∧ ∀ chosen,
          ∃ g', Game.tower_placement_handle_events
                  (Game.enter_tower_placement_mode g chosen) mouse_pos (cancel :: events)
                = Ok (true, g')
                ∧ Game.current_state g' = playing
                ∧ Game.resource_manager g' = rm
                ∧ Game.towers g' = Game.towers g.
Proof.
  intros rm pending tower_type tower_cost monster_coin_cost confirmable.
  pose proof (is_valid_tower_position_clear g position) as Hclear.
  split; [|split].
  - split; [exact Hclear|].
    unfold confirmable. rewrite !andb_true_iff, Hclear. tauto.
  - pose proof (tower_cost_no_coins tower_type) as Hfree. fold tower_cost in Hfree.
    pose proof (spend_resources_for_tower_outcome rm tower_cost monster_coin_cost Hfree)
      as Hspend.
    cbn zeta in Hspend.
    assert (Hfail : Game.place_tower g position = Ok (false, g) →
                    g = g
                    ∧ Game.tower_placement_handle_events g position [MouseLeft]
                      = Ok (false, g)).
    { intros E. split; [reflexivity|].
      cbn [Game.tower_placement_handle_events]. rewrite E. reflexivity. }
    revert Hfail. unfold Game.place_tower. fold pending. fold rm.
    unfold confirmable, tower_cost, monster_coin_cost, tower_type in *.
    clear confirmable tower_cost monster_coin_cost tower_type.
    destruct pending as [ty|].
    2:{ intros Hfail. split; [reflexivity|]. apply Hfail. reflexivity. }
    change (default ""%string (Some ty)) with ty in *.
    destruct (Py.truthy (Some ty)); cbn [negb andb].
    2:{ intros Hfail. split; [reflexivity|]. apply Hfail. reflexivity. }
    destruct (Game.is_valid_tower_position g position); cbn [negb andb].
    2:{ intros Hfail. split; [reflexivity|]. apply Hfail. reflexivity. }
    destruct (ResourceManager.spend_resources_for_tower rm
                (default [] (TowerConfig.cost (Tower.config ty)))
                (default 0 (TowerConfig.TOWER_MONSTER_COIN_COSTS ty)))
      as [spent rm'].
    cbn [fst snd] in Hspend. destruct Hspend as [<- Hrm'].
    destruct spent.
    2:{ intros Hfail. split; [reflexivity|]. apply Hfail. reflexivity. }
    assert (Hpos : PlacementSpec.clear g position) by (apply Hclear; reflexivity).
    destruct (TowerFactory.create_tower ty position) as [tower|e] eqn:Ecreate.
    + intros _. split; [reflexivity|].
      split; [exact Hpos|]. split; [|exact Hrm'].
      destruct (create_tower_rect ty position tower Ecreate) as [Hrect Hat].
      exists tower. split; [reflexivity|]. split; [reflexivity|].
      split; [exact Hat|]. split; [exact Hrect|].
      rewrite Hrect. destruct Hpos as (_ & Hbuildings & Htowers).
      split; [exact Hbuildings|exact Htowers].
    + intros _. split; [reflexivity|].
      exact (create_tower_raise ty position e Ecreate).
  - intros mouse_pos events cancel Hcancel. split.
    + exists (Game.change_state g playing).
      rewrite (cancel_leaves_ledger_and_towers _ _ _ _ Hcancel).
      rewrite change_state_current_state, change_state_resource_manager,
        change_state_towers. auto.
    + intros chosen.
      exists (Game.change_state (Game.enter_tower_placement_mode g chosen) playing).
      rewrite (cancel_leaves_ledger_and_towers _ _ _ _ Hcancel).
      rewrite change_state_current_state, change_state_resource_manager,
        change_state_towers.
      unfold Game.enter_tower_placement_mode.
      cbn [Game.resource_manager Game.towers Game.set_tower_placement_state].
      rewrite change_state_resource_manager, change_state_towers. auto.
Qed.

End Placement.

(** * Splash damage of the single-target towers *)

Section Splash.
Context `{Externals}.

(** The death handler changes no monster's health. *)
Lemma handle_monster_death_health wm monster (heap : Heap) rm (id : nat) :
  Monster.health <$> (WaveManager.handle_monster_death wm monster heap rm).1 !! id
  = Monster.health <$> heap !! id.
Proof.
  unfold WaveManager.handle_monster_death.
  destruct monster as [mid|]; [|reflexivity].
  destruct (negb (bool_decide (mid ∈ WaveManager.active_monsters wm))); [reflexivity|].
  destruct (heap !! mid) as [m|] eqn:Hm; [|reflexivity].
  assert (Hins : Monster.health <$> (<[mid := Monster.set_is_dead true m]> heap) !! id
                 = Monster.health <$> heap !! id).
  { destruct (decide (id = mid)) as [->|Hne].
    - rewrite lookup_insert_eq, Hm. reflexivity.
    - rewrite lookup_insert_ne by congruence. reflexivity. }
  destruct (Monster.boss_loot m); exact Hins.
Qed.

Lemma handle_deaths_health wm (killed_monsters : list nat) (heap : Heap)
    (rm : ResourceManager.t) (id : nat) :
  Monster.health
  <$> (foldl (fun '(heap, rm) monster =>
                WaveManager.handle_monster_death wm (Some monster) heap rm)
             (heap, rm) killed_monsters).1 !! id
  = Monster.health <$> heap !! id.
Proof.
  revert heap rm. induction killed_monsters as [|monster killed IH]; intros heap rm.
  - reflexivity.
  - cbn [foldl].
    pose proof (handle_monster_death_health wm (Some monster) heap rm id) as Hh.
    destruct (WaveManager.handle_monster_death wm (Some monster) heap rm) as [heap1 rm1].
    rewrite IH. exact Hh.
Qed.

Lemma handle_killed_loop_health killed_monsters game_instances :
  ∀ (heap : Heap) (done : list (WaveManager.t * ResourceManager.t)) (id : nat),
    Monster.health
    <$> (foldl
           (fun '(heap, done) '(wave_manager, resource_manager) =>
              let '(heap, resource_manager) :=
                foldl
                  (fun '(heap, rm) monster =>
                     WaveManager.handle_monster_death wave_manager (Some monster) heap rm)
                  (heap, resource_manager) killed_monsters in
              (heap, done ++ [(wave_manager, resource_manager)]))
           (heap, done) game_instances).1 !! id
    = Monster.health <$> heap !! id.
Proof.
  induction game_instances as [|[wm rm] game_instances IH]; intros heap done id.
  - reflexivity.
  - cbn [foldl].
    pose proof (handle_deaths_health wm killed_monsters heap rm id) as Hh.
    destruct (foldl _ (heap, rm) killed_monsters) as [heap1 rm1].
    rewrite IH. exact Hh.
Qed.

Lemma handle_killed_health killed_monsters (heap : Heap) game_instances (id : nat) :
  Monster.health
  <$> (SingleTarget.handle_killed killed_monsters heap game_instances).1 !! id
  = Monster.health <$> heap !! id.
Proof. apply handle_killed_loop_health. Qed.

(** One round of the splash loop touches the loop variable's monster
    only, and never the primary target. *)
Lemma splash_round_other self target (heap : Heap) splash_targets monster (id : nat) :
  id ≠ monster →
  (SingleTarget.splash_round self target (heap, splash_targets) monster).1 !! id
  = heap !! id.
Proof.
  intros Hne. unfold SingleTarget.splash_round.
  destruct (heap !! monster) as [m|]; [|reflexivity].
  destruct (heap !! target) as [tm|]; [|reflexivity].
  destruct (negb (bool_decide (monster = target)) && negb (Monster.is_dead m));
    [|reflexivity].
  destruct (Utils.distance_le _ _ _); [|reflexivity].
  destruct (Monster.take_damage _ m) as [still_alive m']. cbn [fst].
  apply lookup_insert_ne. congruence.
Qed.

Lemma splash_round_target self target (heap : Heap) splash_targets monster :
  (SingleTarget.splash_round self target (heap, splash_targets) monster).1 !! target
  = heap !! target.
Proof.
  destruct (decide (target = monster)) as [<-|Hne];
    [|apply splash_round_other; exact Hne].
  unfold SingleTarget.splash_round.
  destruct (heap !! target) as [tm|] eqn:E; [|exact E].
  rewrite bool_decide_eq_true_2 by reflexivity. exact E.
Qed.

(** The round of a live monster other than the primary target: half the
    tower's damage if it is within the splash radius of the primary
    target, nothing otherwise. *)
Lemma splash_round_hit self target (heap : Heap) splash_targets monster m tm :
  monster ≠ target →
  heap !! monster = Some m →
  Monster.is_dead m = false →
  heap !! target = Some tm →
  (SingleTarget.splash_round self target (heap, splash_targets) monster).1 !! monster
  = Some (if Utils.distance_le (Monster.position m) (Monster.position tm)
               (Tower.splash_damage_radius self)
          then (Monster.take_damage (Tower.damage self * Py.frac 1 2)%Qc m).2
          else m).
Proof.
  intros Hne Hm Halive Htm. unfold SingleTarget.splash_round.
  rewrite Hm, Htm, Halive, bool_decide_eq_false_2 by exact Hne.
  cbn [negb andb].
  destruct (Utils.distance_le _ _ _); [|exact Hm].
  destruct (Monster.take_damage _ m) as [still_alive m']. cbn [fst snd].
  apply lookup_insert_eq.
Qed.

(** The whole loop over targets that are pairwise distinct objects. *)
Lemma splash_loop self target tm (l : list nat) :
  ∀ (heap : Heap) splash_targets,
    heap !! target = Some tm →
    let result := foldl (SingleTarget.splash_round self target) (heap, splash_targets) l in
    result.1 !! target = Some tm
    ∧ (∀ id, id ∉ l → result.1 !! id = heap !! id)
    ∧ (NoDup l →
       ∀ id m, id ∈ l → id ≠ target → heap !! id = Some m →
         Monster.is_dead m = false →
         result.1 !! id
         = Some (if Utils.distance_le (Monster.position m) (Monster.position tm)
                      (Tower.splash_damage_radius self)
                 then (Monster.take_damage (Tower.damage self * Py.frac 1 2)%Qc m).2
                 else m)).
Proof.
  induction l as [|monster l IH]; intros heap splash_targets Htm; cbn [foldl].
  - split; [exact Htm|]. split; [reflexivity|].
    intros _ id m Hin. apply elem_of_nil in Hin. contradiction.
  - pose proof (splash_round_target self target heap splash_targets monster) as Ht1.
    pose proof (λ id, splash_round_other self target heap splash_targets monster id)
      as Ho1.
    pose proof (splash_round_hit self target heap splash_targets monster) as Hh1.
    destruct (SingleTarget.splash_round self target (heap, splash_targets) monster)
      as [heap1 splash1].
    cbn [fst] in Ht1, Ho1, Hh1. rewrite Htm in Ht1.
    destruct (IH heap1 splash1 Ht1) as (Ht & Ho & Hhit).
    split; [exact Ht|]. split.
    + intros id Hid. apply not_elem_of_cons in Hid as [Hne Hid].
      rewrite (Ho id Hid). apply Ho1. exact Hne.
    + intros Hnd id m Hin Hnt Hm Halive.
      apply list.NoDup_cons in Hnd as [Hfresh Hnd].
      apply elem_of_cons in Hin as [->|Hin].
      * rewrite (Ho monster Hfresh). apply Hh1; assumption.
      * assert (Hne : id ≠ monster) by (intros ->; contradiction).
        apply (Hhit Hnd id m Hin Hnt); [|exact Halive].
        rewrite (Ho1 id Hne). exact Hm.
Qed.

(** The attack on a chosen live target, seen on the other targets. *)
Lemma attack_target_splash self target (heap : Heap) game_instances tm :
  heap !! target = Some tm →
  Monster.is_dead tm = false →
  Tower.splash_damage_enabled self = true →
  (0 < Tower.splash_damage_radius self)%Qc →
  NoDup (Tower.targets self) →
  ∀ id m, id ∈ Tower.targets self → id ≠ target → heap !! id = Some m →
    Monster.is_dead m = false →
    Monster.health
    <$> (SingleTarget.attack_target self target heap game_instances).1 !! id
    = Some (if Utils.distance_le (Monster.position m) (Monster.position tm)
                 (Tower.splash_damage_radius self)
            then Monster.health
                   (Monster.take_damage (Tower.damage self * Py.frac 1 2)%Qc m).2
            else Monster.health m).
Proof.
  intros Htm Halive Hen Hrad Hnd id m Hin Hne Hm Hmalive.
  unfold SingleTarget.attack_target. rewrite Htm, Halive, Hen.
  unfold Py.Qcltb at 1. rewrite bool_decide_eq_true_2 by exact Hrad. cbn [andb].
  assert (Hpos : Monster.position (Monster.take_damage (Tower.damage self) tm).2
                 = Monster.position tm) by reflexivity.
  destruct (Monster.take_damage (Tower.damage self) tm) as [still_alive tm'].
  cbn [snd] in Hpos.
  assert (Htm' : (<[target := tm']> heap) !! target = Some tm')
    by apply lookup_insert_eq.
  destruct (splash_loop self target tm' (Tower.targets self) _ [] Htm')
    as (_ & _ & Hhit).
  specialize (Hhit Hnd id m Hin Hne).
  rewrite lookup_insert_ne in Hhit by congruence.
  specialize (Hhit Hm Hmalive). rewrite Hpos in Hhit.
  destruct (foldl (SingleTarget.splash_round self target)
              (<[target := tm']> heap, []) (Tower.targets self))
    as [heap2 splash_targets].
  cbn [fst] in Hhit.
  assert (Hgoal : Monster.health <$> heap2 !! id
                  = Some (if Utils.distance_le (Monster.position m)
                               (Monster.position tm) (Tower.splash_damage_radius self)
                          then Monster.health
                                 (Monster.take_damage
                                    (Tower.damage self * Py.frac 1 2)%Qc m).2
                          else Monster.health m)).
  { rewrite Hhit. destruct (Utils.distance_le _ _ _); reflexivity. }
  destruct ((if negb still_alive then [target] else []) ++ splash_targets);
    cbn [fst]; [exact Hgoal|].
  rewrite handle_killed_health. exact Hgoal.
Qed.

(** C8: a single-target tower with the splash side effect attacks its
    primary target, the closest target for an "Archer" tower and (under
    the same conditions, with [SniperTower.attack]) the target of highest
    health for a "Sniper" tower.  Every other live target then has its
    health lowered by exactly half the tower's damage (not below 0) if it
    is within the splash radius of the primary target, and keeps its
    health if it is outside. *)
Theorem splash_hits_only_within_radius (self : Tower.t) (heap : Heap)
    (game_instances : list (WaveManager.t * ResourceManager.t))
    (first : nat) (rest : list nat) :
  Tower.targets self = first :: rest →
  NoDup (first :: rest) →
  Tower.splash_damage_enabled self = true →
  (0 < Tower.splash_damage_radius self)%Qc →
  let secondary (primary : nat) (heap' : Heap) :=
    ∀ tm id m,
      heap !! primary = Some tm → Monster.is_dead tm = false →
      id ∈ first :: rest → id ≠ primary →
      heap !! id = Some m → Monster.is_dead m = false →
      Monster.health <$> heap' !! id
      = Some (if Utils.distance_le (Monster.position m) (Monster.position tm)
                   (Tower.splash_damage_radius self)
              then
                let health := (Monster.health m - Tower.damage self * Py.frac 1 2)%Qc in
                if Py.Qcltb health 0 then 0%Qc else health
              else Monster.health m) in
  secondary first (ArcherTower.attack self heap game_instances).1.2
  ∧ secondary (SniperTower.max_health heap first rest)
      (SniperTower.attack self heap game_instances).1.2.
Proof.
  intros Htargets Hnd Hen Hrad secondary.
  set (self' := SingleTarget.base_attack self).
  assert (Hself' : self' = Tower.set_current_target (Some first) self).
  { unfold self', SingleTarget.base_attack. rewrite Htargets. reflexivity. }
  assert (Ht' : Tower.targets self' = first :: rest).
  { rewrite Hself'. exact Htargets. }
  assert (Hen' : Tower.splash_damage_enabled self' = true).
  { rewrite Hself'. exact Hen. }
  assert (Hrad' : (0 < Tower.splash_damage_radius self')%Qc).
  { rewrite Hself'. exact Hrad. }
  assert (Hr : Tower.splash_damage_radius self' = Tower.splash_damage_radius self).
  { rewrite Hself'. reflexivity. }
  assert (Hd : Tower.damage self' = Tower.damage self).
  { rewrite Hself'. reflexivity. }
  assert (Hany : ∀ primary, secondary primary
                   (SingleTarget.attack_target self' primary heap game_instances).1).
  { intros primary tm id m Htm Halive Hin Hne Hm Hmalive.
    rewrite <- Ht' in Hnd, Hin.
    rewrite (attack_target_splash self' primary heap game_instances tm
               Htm Halive Hen' Hrad' Hnd id m Hin Hne Hm Hmalive).
    rewrite Hr, Hd. reflexivity. }
  split.
  - unfold ArcherTower.attack. fold self'. rewrite Ht'.
    pose proof (Hany first) as Hp.
    destruct (SingleTarget.attack_target self' first heap game_instances).
    exact Hp.
  - unfold SniperTower.attack. fold self'. rewrite Ht'. cbn zeta.
    pose proof (Hany (SniperTower.max_health heap first rest)) as Hp.
    destruct (SingleTarget.attack_target self' _ heap game_instances).
    exact Hp.
Qed.

End Splash.

(** * The theorems at work *)

Section Examples.
#[local] Existing Instance Reference.externals.

(** The boss of wave 10 handled twice: 50 Monster Coins become 52, and
    the Force Core of its loot is credited twice. *)
Lemma handle_monster_death_credits_twice_witness :
  let first :=
    WaveManager.handle_monster_death Scenario.boss_wave (Some 0%nat)
      Scenario.boss_heap Config.INITIAL_RESOURCES in
  let second :=
    WaveManager.handle_monster_death Scenario.boss_wave (Some 0%nat) first.1 first.2 in
  (0%nat ∈ WaveManager.active_monsters Scenario.boss_wave
   ∧ Scenario.boss_heap !! 0%nat
     = Some (Reference.boss (Qc_of_Z 400, Qc_of_Z 50)))
  ∧ (Monster.is_dead <$> first.1 !! 0%nat = Some true
     ∧ (∀ k, ResourceManager.get_resource first.2 k
             = ResourceManager.get_resource Config.INITIAL_RESOURCES k
               + ((if String.eqb "Monster Coins" k then 1 else 0)
                  + ResourceManager.charged
                      (default [] (Monster.boss_loot
                                     (Reference.boss (Qc_of_Z 400, Qc_of_Z 50)))) k))
     ∧ (∀ k, ResourceManager.get_resource second.2 k
             = ResourceManager.get_resource Config.INITIAL_RESOURCES k
               + 2 * ((if String.eqb "Monster Coins" k then 1 else 0)
                      + ResourceManager.charged
                          (default [] (Monster.boss_loot
                                         (Reference.boss (Qc_of_Z 400, Qc_of_Z 50)))) k)))
  ∧ ResourceManager.get_resource Config.INITIAL_RESOURCES "Monster Coins" = 50
  ∧ ResourceManager.get_resource second.2 "Monster Coins" = 52
  ∧ ResourceManager.get_resource second.2 "Force Core" = 2.
Proof.
  assert (Hin : 0%nat ∈ WaveManager.active_monsters Scenario.boss_wave)
    by constructor.
  assert (Hm : Scenario.boss_heap !! 0%nat
               = Some (Reference.boss (Qc_of_Z 400, Qc_of_Z 50))) by reflexivity.
  split; [split; [exact Hin|exact Hm]|].
  split; [exact (handle_monster_death_credits_twice _ _ _ _ _ Hin Hm)|].
  split; [reflexivity|]. split; vm_compute; reflexivity.
Defined.



(** Game over at wave 15: the counter after continuing is 4, not 5. *)
Lemma game_over_recovery_counterexample :
  let over := Game.change_state (Reference.game_at_wave 15) game_over in
  WaveManager.current_wave (Game.wave_manager (Reference.game_at_wave 15)) = 15
  ∧ WaveManager.current_wave (Game.wave_manager (Game.continue_game over)) = 4
  ∧ WaveManager.current_wave (Game.wave_manager (Game.continue_game over)) ≠ 5
  ∧ WaveManager.current_wave
      (Game.wave_manager
         (Game.continue_game (Game.change_state (Reference.game_at_wave 4) game_over)))
    = 0.
Proof. cbn zeta. repeat split. intros E. discriminate E. Qed.

(** Game over at wave 15: continuing makes the wave number smaller. *)
Lemma wave_number_decreases_counterexample :
  let g := Reference.game_at_wave 15 in
  let g' := Game.continue_game (Game.change_state g game_over) in
  WaveManager.current_wave (Game.wave_manager g')
  < WaveManager.current_wave (Game.wave_manager g).
Proof. reflexivity. Qed.

(** The first wave has been started: the scheduler is in a reachable
    state. *)
Lemma wave_active_xor_completed_witness :
  let wm := snd (WaveManager.start_next_wave WaveManager.init) in
  WaveSpec.reachable wm
  ∧ (¬ (WaveManager.wave_active wm = true ∧ WaveManager.wave_completed wm = true)
     ∧ xorb (WaveManager.wave_active wm) (WaveManager.wave_completed wm) = true
     ∧ ∀ dt rnd heap castle game_instance,
         let wm' := (WaveManager.update dt rnd wm heap castle game_instance).1.1.1 in
         WaveManager.wave_completed wm' = WaveManager.wave_completed wm
         ∨ (WaveManager.wave_completed wm' = true
            ∧ WaveManager.wave_active wm' = false
            ∧ WaveManager.monsters_to_spawn wm' = 0
            ∧ length (WaveManager.active_monsters wm') = 0%nat)).
Proof.
  assert (Hr : WaveSpec.reachable (snd (WaveManager.start_next_wave WaveManager.init)))
    by apply WaveSpec.reach_start_next_wave, WaveSpec.reach_init.
  split; [exact Hr|].
  exact (wave_active_xor_completed _ Hr).
Defined.

(** A "Splash" tower: three equips of the area modifier and one removal
    leave one modifier in place, and the stats of one application. *)
Lemma equip_never_compounds_witness :
  let t := TowerFactory.SplashTower (0, 0) in
  let t' := (TowerSpec.run_ops t None Scenario.equip_ops).1 in
  TowerSpec.derived t = TowerSpec.fresh t
  ∧ (TowerSpec.derived t' = TowerSpec.fresh t'
     ∧ Tower.base_damage t' = Tower.base_damage t
     ∧ Tower.base_attack_speed t' = Tower.base_attack_speed t
     ∧ Tower.base_ref_range t' = Tower.base_ref_range t)
  ∧ Tower.item_slots t' = [None; Some "Unstoppable Force"%string]
  ∧ TowerSpec.equipped_force (Tower.item_slots t') = 1%nat.
Proof.
  assert (Ht : TowerSpec.derived (TowerFactory.SplashTower (0, 0))
               = TowerSpec.fresh (TowerFactory.SplashTower (0, 0)))
    by apply init_fresh.
  split; [exact Ht|].
  split; [exact (equip_never_compounds _ None Scenario.equip_ops Ht)|].
  split; vm_compute; reflexivity.
Defined.

(** The archer with the area modifier shoots the grunt at distance 10:
    the grunt 20 away from it loses 5 of its 50 health, the grunt 90 away
    none. *)
Lemma splash_hits_only_within_radius_witness :
  let heap' := (ArcherTower.attack Scenario.splash_archer Scenario.three_grunts []).1.2 in
  (Tower.targets Scenario.splash_archer = [0%nat; 1%nat; 2%nat]
   ∧ NoDup [0%nat; 1%nat; 2%nat]
   ∧ Tower.splash_damage_enabled Scenario.splash_archer = true
   ∧ (0 < Tower.splash_damage_radius Scenario.splash_archer)%Qc)
  ∧ Monster.health <$> heap' !! 1%nat = Some (Qc_of_Z 50 - Qc_of_Z 10 * Py.frac 1 2)%Qc
  ∧ Monster.health <$> heap' !! 2%nat = Some (Qc_of_Z 50).
Proof.
  assert (Ht : Tower.targets Scenario.splash_archer = [0%nat; 1%nat; 2%nat])
    by (vm_compute; reflexivity).
  assert (Hnd : NoDup [0%nat; 1%nat; 2%nat]) by compute_done.
  assert (Hen : Tower.splash_damage_enabled Scenario.splash_archer = true)
    by (vm_compute; reflexivity).
  assert (Hrad : (0 < Tower.splash_damage_radius Scenario.splash_archer)%Qc)
    by compute_done.
  split; [auto|].
  destruct (splash_hits_only_within_radius Scenario.splash_archer Scenario.three_grunts
              [] 0%nat [1%nat; 2%nat] Ht Hnd Hen Hrad) as [Harcher _].
  split.
  - rewrite (Harcher (Reference.grunt (Qc_of_Z 0, Qc_of_Z 10)) 1%nat
               (Reference.grunt (Qc_of_Z 0, Qc_of_Z 30)));
      [|reflexivity|reflexivity|compute_done
       |discriminate|reflexivity|reflexivity].
    vm_compute. reflexivity.
  - rewrite (Harcher (Reference.grunt (Qc_of_Z 0, Qc_of_Z 10)) 2%nat
               (Reference.grunt (Qc_of_Z 0, Qc_of_Z 100)));
      [|reflexivity|reflexivity|compute_done
       |discriminate|reflexivity|reflexivity].
    vm_compute. reflexivity.
Defined.

End Examples.

(** * More on the wave scheduler *)

Section Spawning.
Context `{Externals}.

(** X1: the boss of a boss wave: the index into the four boss types is in
    range for every wave number, the types rotate with a period of 40
    waves, and waves 10 to 19, 20 to 29, 30 to 39 and 40 to 49 give
    "Force", "Spirit", "Magic" and "Void". *)
Theorem get_boss_type_rotates (wm wm' : WaveManager.t) :
  let boss_types : list string :=
    ["Force"%string; "Spirit"%string; "Magic"%string; "Void"%string] in
  let w := WaveManager.current_wave wm in
  (0 ≤ (w / 10 - 1) mod 4 < 4
   ∧ boss_types !! Z.to_nat ((w / 10 - 1) mod 4) = Some (WaveManager.get_boss_type wm))
  ∧ (WaveManager.current_wave wm' = w + 40 →
     WaveManager.get_boss_type wm' = WaveManager.get_boss_type wm)
  ∧ (w / 10 = 1 → WaveManager.get_boss_type wm = "Force"%string)
  ∧ (w / 10 = 2 → WaveManager.get_boss_type wm = "Spirit"%string)
  ∧ (w / 10 = 3 → WaveManager.get_boss_type wm = "Magic"%string)
  ∧ (w / 10 = 4 → WaveManager.get_boss_type wm = "Void"%string).
Proof.
  intros boss_types w. unfold WaveManager.get_boss_type. fold w.
  assert (Hrange : 0 ≤ (w / 10 - 1) mod 4 < 4) by (apply Z.mod_pos_bound; lia).
  split; [split; [exact Hrange|]|].
  - assert (Hi : (w / 10 - 1) mod 4 = 0 ∨ (w / 10 - 1) mod 4 = 1
                 ∨ (w / 10 - 1) mod 4 = 2 ∨ (w / 10 - 1) mod 4 = 3) by lia.
    destruct Hi as [-> | [-> | [-> | ->]]]; reflexivity.
  - split; [|repeat split; intros ->; reflexivity].
    intros ->.
    replace (w + 40) with (w + 4 * 10) by lia.
    rewrite Z.div_add by lia.
    replace (w / 10 + 4 - 1) with (w / 10 - 1 + 1 * 4) by lia.
    rewrite Z.mod_add by lia. reflexivity.
Qed.

(** The loop of the weighted choice answers with a listed type, or with
    the fallback. *)
Lemma weighted_choice_listed (r : Z) (ws : list (string * Z)) :
  ∀ cumulative_weight,
    (fix choose (ws : list (string * Z)) (cumulative_weight : Z) : string :=
       match ws with
       | [] => "Grunt"%string
       | (monster_type, weight) :: ws' =>
           let cumulative_weight := cumulative_weight + weight in
           if r <=? cumulative_weight then monster_type
           else choose ws' cumulative_weight
       end) ws cumulative_weight
    ∈ "Grunt"%string :: ws.*1.
Proof.
  set (choose :=
         fix choose (ws : list (string * Z)) (cumulative_weight : Z) : string :=
           match ws with
           | [] => "Grunt"%string
           | (monster_type, weight) :: ws' =>
               let cumulative_weight := cumulative_weight + weight in
               if r <=? cumulative_weight then monster_type
               else choose ws' cumulative_weight
           end).
  induction ws as [|[monster_type weight] ws IH]; intros c.
  - apply list_elem_of_singleton. reflexivity.
  - change (choose ((monster_type, weight) :: ws) c)
      with (if r <=? c + weight then monster_type else choose ws (c + weight)).
    change (((monster_type, weight) :: ws).*1) with (monster_type :: ws.*1).
    destruct (r <=? c + weight).
    + apply elem_of_cons. right. apply elem_of_cons. left. reflexivity.
    + specialize (IH (c + weight)).
      apply elem_of_cons in IH as [IH|IH].
      * rewrite IH. apply elem_of_cons. left. reflexivity.
      * apply elem_of_cons. right. apply elem_of_cons. right. exact IH.
Qed.

(** X2: whatever the roll, a wave spawns only the monster types it has
    unlocked: "Runner" from wave 3, "Tank" from wave 5, "Flyer" from
    wave 8; before wave 3 every monster is a "Grunt". *)
Theorem get_random_monster_type_unlocked (wm : WaveManager.t) (r : Z) :
  SpawnSpec.unlocked (WaveManager.current_wave wm)
    (WaveManager.get_random_monster_type wm r)
  ∧ (WaveManager.current_wave wm < 3 →
     WaveManager.get_random_monster_type wm r = "Grunt"%string).
Proof.
  assert (Hmain : SpawnSpec.unlocked (WaveManager.current_wave wm)
                    (WaveManager.get_random_monster_type wm r)).
  { unfold WaveManager.get_random_monster_type. cbv zeta.
    set (wave := WaveManager.current_wave wm).
    set (available_types :=
           (["Grunt"%string] ++ (if 3 <=? wave then ["Runner"%string] else [])
            ++ (if 5 <=? wave then ["Tank"%string] else [])
            ++ (if 8 <=? wave then ["Flyer"%string] else [])) : list string).
    match goal with
    | |- context [filter ?P ?l] => set (weights := filter P l)
    end.
    assert (Havail : ∀ ty, ty ∈ available_types → SpawnSpec.unlocked wave ty).
    { intros ty. unfold available_types, SpawnSpec.unlocked.
      rewrite !elem_of_app, list_elem_of_singleton.
      destruct (Z.leb_spec 3 wave), (Z.leb_spec 5 wave), (Z.leb_spec 8 wave);
        rewrite ?list_elem_of_singleton, ?elem_of_nil; intuition lia. }
    destruct (_ <=? 0); [left; reflexivity|].
    pose proof (weighted_choice_listed r weights 0) as Hin.
    match type of Hin with
    | ?x ∈ _ => set (chosen := x) in Hin; change (SpawnSpec.unlocked wave chosen)
    end.
    apply elem_of_cons in Hin as [E|Hin]; [rewrite E; left; reflexivity|].
    apply Havail.
    apply list_elem_of_fmap in Hin as ([ty weight] & -> & Hin).
    unfold weights in Hin. apply list_elem_of_filter in Hin as [Hin _].
    apply bool_decide_unpack in Hin. exact Hin. }
  split; [exact Hmain|].
  intros Hw. destruct Hmain as [E | [[_ E] | [[_ E] | [_ E]]]]; [exact E|lia..].
Qed.

End Spawning.

Section Accounting.
Context `{Externals}.

Lemma list_remove_sublist id l : WaveManager.list_remove id l `sublist_of` l.
Proof.
  induction l as [|x l IH]; cbn [WaveManager.list_remove]; [reflexivity|].
  case_bool_decide; [apply sublist_cons; reflexivity|apply sublist_skip, IH].
Qed.

Lemma insert_is_Some (heap : Heap) (key : nat) (m : Monster.t) (id : nat) :
  is_Some (heap !! id) → is_Some (<[key := m]> heap !! id).
Proof.
  intros Hs. destruct (decide (id = key)) as [->|Hne].
  - rewrite lookup_insert_eq. eauto.
  - rewrite lookup_insert_ne by congruence. exact Hs.
Qed.

Lemma handle_monster_death_is_Some wm monster (heap : Heap) rm (id : nat) :
  is_Some (heap !! id) →
  is_Some ((WaveManager.handle_monster_death wm monster heap rm).1 !! id).
Proof.
  intros Hs. unfold WaveManager.handle_monster_death.
  destruct monster as [mid|]; [|exact Hs].
  destruct (negb (bool_decide (mid ∈ WaveManager.active_monsters wm))); [exact Hs|].
  destruct (heap !! mid) as [m|] eqn:Hm; [|exact Hs].
  destruct (Monster.boss_loot m); cbn [fst]; apply insert_is_Some, Hs.
Qed.

(** The first loop of [update] keeps every monster in the store. *)
Lemma update_monsters_is_Some dt ids :
  ∀ (heap : Heap) castle (id : nat),
    is_Some (heap !! id) →
    is_Some ((WaveManager.update_monsters dt ids heap castle).1.2 !! id).
Proof.
  induction ids as [|a ids IH]; intros heap castle id Hs;
    cbn [WaveManager.update_monsters]; [exact Hs|].
  destruct (heap !! a) as [m|]; [|apply IH, Hs].
  destruct (monster_update dt m castle) as [[still_active m'] castle'].
  specialize (IH (<[a := m']> heap) castle' id (insert_is_Some _ _ _ _ Hs)).
  destruct (WaveManager.update_monsters dt ids (<[a := m']> heap) castle')
    as [[to_remove heap'] castle''].
  exact IH.
Qed.

(** The second loop of [update] only takes monsters off the list; it
    keeps the spawn timer, and every monster in the store. *)
Lemma remove_monsters_shape to_remove :
  ∀ wm (heap : Heap) gi,
    let r := WaveManager.remove_monsters to_remove wm heap gi in
    WaveManager.active_monsters r.1.1 `sublist_of` WaveManager.active_monsters wm
    ∧ WaveManager.spawn_timer r.1.1 = WaveManager.spawn_timer wm
    ∧ ∀ id : nat, is_Some (heap !! id) → is_Some (r.1.2 !! id).
Proof.
  induction to_remove as [|id rest IH]; intros wm heap gi.
  - cbn. auto.
  - cbn [WaveManager.remove_monsters]. case_bool_decide; [|apply IH].
    match goal with
    | |- context [let '(_, _) := ?e in _] =>
        assert (Hh : ∀ id0 : nat, is_Some (heap !! id0) → is_Some (e.1 !! id0));
        [|destruct e as [heap' gi']]
    end.
    { intros id0 Hs. destruct (heap !! id) as [m|]; [|exact Hs].
      destruct gi as [rm|]; [|exact Hs].
      destruct (Monster.is_dead m && negb (Monster.reached_castle m)); [|exact Hs].
      pose proof (handle_monster_death_is_Some wm (Some id) heap rm id0 Hs) as Hd.
      destruct (WaveManager.handle_monster_death wm (Some id) heap rm). exact Hd. }
    match goal with
    | |- context [WaveManager.remove_monsters rest ?w ?h ?g] =>
        specialize (IH w h g)
    end.
    cbn zeta in IH. cbn [fst] in Hh.
    destruct IH as (Hsub & Htimer & Hstore).
    split; [|split].
    + etransitivity; [exact Hsub|]. apply list_remove_sublist.
    + exact Htimer.
    + intros id0 Hs. apply Hstore, Hh, Hs.
Qed.

(** A spawn appends a monster that was not in the store. *)
Lemma spawn_monster_well_formed wm (heap : Heap) castle_position rnd :
  SpawnSpec.well_formed wm heap →
  let r := WaveManager.spawn_monster wm heap castle_position rnd in
  SpawnSpec.well_formed r.1 r.2
  ∧ (∀ id : nat, is_Some (heap !! id) → is_Some (r.2 !! id))
  ∧ length (WaveManager.active_monsters r.1)
    = S (length (WaveManager.active_monsters wm)).
Proof.
  intros [Hnd Hin]. unfold WaveManager.spawn_monster. cbn zeta. cbn [fst snd].
  set (id := fresh (dom heap)).
  assert (Hfresh : id ∉ dom heap) by apply is_fresh.
  set (monster := if _ =? 0 then _ else _).
  split; [split|split].
  - cbn [WaveManager.active_monsters]. apply list.NoDup_app.
    split; [exact Hnd|]. split; [|apply NoDup_singleton].
    intros x Hx Hx'. apply list_elem_of_singleton in Hx'. subst x.
    apply Hfresh, elem_of_dom, Hin, Hx.
  - cbn [WaveManager.active_monsters]. intros x Hx.
    apply elem_of_app in Hx as [Hx|Hx].
    + apply insert_is_Some, Hin, Hx.
    + apply list_elem_of_singleton in Hx. subst x. rewrite lookup_insert_eq. eauto.
  - intros x Hx. apply insert_is_Some, Hx.
  - cbn [WaveManager.active_monsters]. rewrite length_app. cbn. lia.
Qed.

(** X3: the scheduler never lists a monster twice, never lists one that is
    not in the store, and never takes a monster out of the store. *)
Theorem update_keeps_monsters_distinct dt rnd wm (heap : Heap) castle game_instance :
  SpawnSpec.well_formed wm heap →
  let r := WaveManager.update dt rnd wm heap castle game_instance in
  SpawnSpec.well_formed r.1.1.1 r.1.1.2
  ∧ ∀ id : nat, is_Some (heap !! id) → is_Some (r.1.1.2 !! id).
Proof.
  intros Hwf. unfold WaveManager.update. cbn zeta.
  destruct (WaveManager.wave_active wm) eqn:Hact; cbn [WaveManager.wave_active];
    rewrite ?Hact; [|cbn [fst snd]; split; [exact Hwf|auto]].
  match goal with
  | |- context [if ?c then let '(_, _) := WaveManager.spawn_monster ?w ?h ?p ?r in _ else ?e] =>
      set (spawned := if c then let '(s, h') := WaveManager.spawn_monster w h p r in _ else e)
  end.
  assert (Hs : SpawnSpec.well_formed spawned.1 spawned.2
               ∧ ∀ id : nat, is_Some (heap !! id) → is_Some (spawned.2 !! id)).
  { unfold spawned.
    match goal with |- context [if ?c then _ else _] => destruct c end;
      [|cbn [fst snd]; split; [exact Hwf|auto]].
    match goal with
    | |- context [WaveManager.spawn_monster ?w ?h ?p ?r] =>
        pose proof (spawn_monster_well_formed w h p r Hwf) as Hsp;
        destruct (WaveManager.spawn_monster w h p r) as [wm0 heap0]
    end.
    cbn zeta in Hsp. cbn [fst snd] in *. destruct Hsp as ([Hnd Hin] & Hkeep & _).
    split; [split; assumption|exact Hkeep]. }
  destruct spawned as [wm1 heap1]. cbn [fst snd] in Hs.
  destruct Hs as ([Hnd1 Hin1] & Hkeep1).
  pose proof (update_monsters_is_Some dt (WaveManager.active_monsters wm1) heap1 castle)
    as Hkeep2.
  destruct (WaveManager.update_monsters dt (WaveManager.active_monsters wm1) heap1 castle)
    as [[to_remove heap2] castle2].
  cbn [fst snd] in Hkeep2.
  pose proof (remove_monsters_shape to_remove wm1 heap2 game_instance) as Hr.
  destruct (WaveManager.remove_monsters to_remove wm1 heap2 game_instance)
    as [[wm2 heap3] gi3].
  cbn zeta in Hr. cbn [fst snd] in Hr. destruct Hr as (Hsub & _ & Hkeep3).
  assert (Hwf2 : SpawnSpec.well_formed wm2 heap3).
  { split.
    - eapply sublist_NoDup; [exact Hnd1|exact Hsub].
    - intros id Hid. apply Hkeep3, Hkeep2, Hin1.
      eapply elem_of_sublist; [exact Hid|exact Hsub]. }
  assert (Hkeep : ∀ id : nat, is_Some (heap !! id) → is_Some (heap3 !! id)).
  { intros id Hid. apply Hkeep3, Hkeep2, Hkeep1, Hid. }
  destruct ((length (WaveManager.active_monsters wm2) =? 0)%nat
            && (WaveManager.monsters_to_spawn wm2 =? 0));
    cbn [fst snd]; split; try exact Hkeep; exact Hwf2.
Qed.






End Accounting.

(** * More on the costs and the quota *)

(** ** Rounding to a double from below *)

Section FloatBounds.

Lemma rne_ge_floor x : Qfloor x ≤ Float.rne x.
Proof. unfold Float.rne. cbv zeta. destruct (_ ?= _)%Q; [destruct (Z.even _)| |]; lia. Qed.

Lemma pow2_pos e : (0 < Float.pow2 e)%Q.
Proof. apply Qpower_0_lt. reflexivity. Qed.

Lemma pow2_nonneg_exponent e : 0 ≤ e → (Float.pow2 e == inject_Z (2 ^ e))%Q.
Proof. intros He. unfold Float.pow2. rewrite Zpower_Qpower by exact He. reflexivity. Qed.

Lemma pow2_plus a b : (Float.pow2 (a + b) == Float.pow2 a * Float.pow2 b)%Q.
Proof. unfold Float.pow2. apply Qpower_plus. discriminate. Qed.

Lemma pow2_opp a : (Float.pow2 (- a) == / Float.pow2 a)%Q.
Proof. unfold Float.pow2. apply Qpower_opp. Qed.

(** The binade is not above the number. *)
Lemma ilog2_le x : (0 < x)%Q → (Float.pow2 (Float.ilog2 x) <= x)%Q.
Proof.
  intros Hx. unfold Float.ilog2. cbv zeta.
  destruct (Qle_bool _ x) eqn:E; [apply Qle_bool_iff; exact E|]. clear E.
  destruct x as [n d]. cbn [Qnum Qden].
  assert (Hn : 0 < n) by (unfold Qlt in Hx; simpl in Hx; lia).
  set (a := Z.log2 n). set (b := Z.log2 (Z.pos d)).
  assert (Ha : 0 ≤ a) by apply Z.log2_nonneg.
  assert (Hb : 0 ≤ b) by apply Z.log2_nonneg.
  destruct (Z.log2_spec n Hn) as [Hlow _]. fold a in Hlow.
  destruct (Z.log2_spec (Z.pos d) ltac:(lia)) as [_ Hhigh]. fold b in Hhigh.
  replace (a - b - 1) with (a + - (b + 1)) by lia.
  rewrite pow2_plus, pow2_opp, !pow2_nonneg_exponent by lia.
  assert (Hpos : 0 < 2 ^ (b + 1)) by (apply Z.pow_pos_nonneg; lia).
  set (A := 2 ^ a) in *. replace (Z.succ b) with (b + 1) in Hhigh by lia.
  set (B := 2 ^ (b + 1)) in *.
  apply Qle_shift_div_r.
  - change 0%Q with (inject_Z 0). rewrite <- Zlt_Qlt. exact Hpos.
  - unfold Qle, Qmult, inject_Z. simpl. nia.
Qed.


Lemma rne_scaled_ge (K q : Z) (x : Q) :
  (inject_Z K * Float.pow2 q <= x)%Q →
  (inject_Z K * Float.pow2 q <= inject_Z (Float.rne (x / Float.pow2 q)) * Float.pow2 q)%Q.
Proof.
  intros HK. pose proof (pow2_pos q) as Hq.
  apply Qmult_le_compat_r; [|apply Qlt_le_weak; exact Hq].
  rewrite <- Zle_Qle.
  transitivity (Qfloor (x / Float.pow2 q)); [|apply rne_ge_floor].
  rewrite <- (Qfloor_Z K). apply Qfloor_resp_le.
  apply Qle_shift_div_l; assumption.
Qed.

(** Rounding is never below a double that the number is not below; here
    for the doubles [n / 2] with [0 < n < 2^53]. *)
Lemma round_pos_ge (n : Z) (x : Q) (y : Qc) :
  0 < n < 2 ^ 53 → (n # 2 <= x)%Q →
  Float.round_pos x = Float.finite y → (n # 2 <= this y)%Q.
Proof.
  intros Hn Hx. unfold Float.round_pos. cbv zeta.
  set (q := Z.max (Float.ilog2 x - 52) (-1074)).
  destruct (Qle_bool _ _); [discriminate|]. intros [= <-].
  cbn [this Q2Qc]. rewrite Qred_correct.
  assert (Hpos : (0 < x)%Q).
  { eapply Qlt_le_trans; [|exact Hx]. unfold Qlt. simpl. lia. }
  destruct (Z.le_gt_cases q (-1)) as [Hq|Hq].
  - set (K := n * 2 ^ (-1 - q)).
    assert (HK : (inject_Z K * Float.pow2 q == n # 2)%Q).
    { unfold K. rewrite inject_Z_mult, <- pow2_nonneg_exponent by lia.
      rewrite <- Qmult_assoc, <- pow2_plus.
      replace (-1 - q + q) with (-1) by lia.
      change (Float.pow2 (-1)) with (1 # 2)%Q.
      unfold Qeq, Qmult, inject_Z. simpl. lia. }
    rewrite <- HK. apply rne_scaled_ge. rewrite HK. exact Hx.
  - assert (Hq' : q = Float.ilog2 x - 52) by lia.
    assert (HK : (inject_Z (2 ^ 52) * Float.pow2 q == Float.pow2 (Float.ilog2 x))%Q).
    { rewrite <- pow2_nonneg_exponent, <- pow2_plus by lia.
      replace (52 + q) with (Float.ilog2 x) by lia. reflexivity. }
    apply (Qle_trans _ (inject_Z (2 ^ 52) * Float.pow2 q)%Q).
    + rewrite pow2_nonneg_exponent by lia. rewrite <- inject_Z_mult.
      assert (H1 : 1 ≤ 2 ^ q) by (apply Z.lt_pred_le, Z.pow_pos_nonneg; lia).
      unfold Qle, inject_Z. simpl. nia.
    + apply rne_scaled_ge. rewrite HK. apply ilog2_le. exact Hpos.
Qed.

Lemma round_ge (n : Z) (x : Q) (y : Qc) :
  0 < n < 2 ^ 53 → (n # 2 <= x)%Q →
  Float.round x = Float.finite y → (n # 2 <= this y)%Q.
Proof.
  intros Hn Hx. unfold Float.round.
  assert (Hpos : (0 < x)%Q).
  { eapply Qlt_le_trans; [|exact Hx]. unfold Qlt. simpl. lia. }
  apply Qgt_alt in Hpos. rewrite Hpos. apply round_pos_ge; assumption.
Qed.

Lemma mul_finite a b z :
  Float.mul a b = Float.finite z →
  ∃ x y, a = Float.finite x ∧ b = Float.finite y
         ∧ Float.round (this x * this y) = Float.finite z.
Proof.
  destruct a as [x|s|], b as [y|s'|]; cbn [Float.mul]; try discriminate.
  - intros Hz. exists x, y. auto.
  - destruct (bool_decide _); discriminate.
  - destruct (bool_decide _); discriminate.
Qed.

Lemma add_finite a b z :
  Float.add a b = Float.finite z →
  ∃ x y, a = Float.finite x ∧ b = Float.finite y
         ∧ Float.round (this x + this y) = Float.finite z.
Proof.
  destruct a as [x|s|], b as [y|s'|]; cbn [Float.add]; try discriminate.
  - intros Hz. exists x, y. auto.
  - destruct (Bool.eqb _ _); discriminate.
Qed.

Lemma of_int_finite n f :
  Float.of_int n = Ok f → 0 < n →
  ∃ x, f = Float.finite x ∧ Float.round (inject_Z n) = Float.finite x.
Proof.
  unfold Float.of_int, Float.checked. intros Hf Hn.
  destruct (Float.round (inject_Z n)) as [x|s|] eqn:E; [|discriminate|].
  - injection Hf as <-. exists x. auto.
  - exfalso. revert E. unfold Float.round.
    assert (Hpos : (0 < inject_Z n)%Q)
      by (change 0%Q with (inject_Z 0); rewrite <- Zlt_Qlt; exact Hn).
    apply Qgt_alt in Hpos. rewrite Hpos. unfold Float.round_pos. cbv zeta.
    destruct (Qle_bool _ _); discriminate.
Qed.

End FloatBounds.


Section Costs.
Context `{Externals}.

Lemma floor_step (x y : Q) : (x + 1 <= y)%Q → Qfloor x < Qfloor y.
Proof.
  intros Hxy.
  pose proof (Qfloor_le x) as Hx. pose proof (Qlt_floor y) as Hy.
  assert (Hlt : (inject_Z (Qfloor x + 1) < inject_Z (Qfloor y + 1))%Q).
  { rewrite inject_Z_plus. change (inject_Z 1) with 1%Q. lra. }
  rewrite <- Zlt_Qlt in Hlt. lia.
Qed.

(** A base amount scaled by a level: one level more costs at least one
    unit more, if the base amount times the growth per level is at
    least one. *)
Lemma scaled_amount_increases (a : Z) (M : Qc) (l : Z) :
  1 ≤ l →
  (1 <= this M)%Q →
  (1 <= inject_Z a * (this M - 1))%Q →
  Py.int (Qc_of_Z a * Py.pow M (l - 1))%Qc
  < Py.int (Qc_of_Z a * Py.pow M (l + 1 - 1))%Qc.
Proof.
  intros Hl HM Ha.
  assert (Hnz : ¬ (this M == 0)%Q) by lra.
  assert (Hp : (1 <= Qpower (this M) (l - 1))%Q) by (apply Qpower_1_le; [exact HM|lia]).
  assert (Hstep : (Qpower (this M) (l + 1 - 1)
                   == Qpower (this M) (l - 1) * this M)%Q).
  { replace (l + 1 - 1) with ((l - 1) + 1) by lia.
    rewrite Qpower_plus by exact Hnz. reflexivity. }
  assert (Hx : (this (Qc_of_Z a * Py.pow M (l - 1))%Qc
                == inject_Z a * Qpower (this M) (l - 1))%Q).
  { rewrite this_mult, this_pow, this_Qc_of_Z. reflexivity. }
  assert (Hy : (this (Qc_of_Z a * Py.pow M (l + 1 - 1))%Qc
                == inject_Z a * (Qpower (this M) (l - 1) * this M))%Q).
  { rewrite this_mult, this_pow, this_Qc_of_Z, Hstep. reflexivity. }
  set (p := Qpower (this M) (l - 1)) in *.
  set (m := this M) in *. set (q := inject_Z a) in *.
  assert (Hprod : (0 <= (p - 1) * (q * (m - 1) - 1))%Q)
    by (apply Qmult_le_0_compat; lra).
  assert (Hq : (0 <= q * (m - 1))%Q) by lra.
  assert (Hqp : (0 <= q * p)%Q).
  { destruct (Qlt_le_dec q 0) as [Hneg|Hpos].
    - exfalso. assert (0 <= (- q) * (m - 1))%Q by (apply Qmult_le_0_compat; lra). lra.
    - apply Qmult_le_0_compat; lra. }
  rewrite !int_nonneg.
  - apply floor_step. rewrite Hx, Hy. lra.
  - rewrite Hy.
    assert (0 <= (q * p) * m)%Q by (apply Qmult_le_0_compat; lra). lra.
  - rewrite Hx. exact Hqp.
Qed.

(** Every amount of every base cost is at least 2. *)
Lemma base_cost_at_least_2 tower_type k a :
  (k, a) ∈ default [("Stone"%string, 20)] (TowerConfig.cost (Tower.config tower_type)) →
  2 ≤ a.
Proof.
  unfold Tower.config, TowerConfig.TOWER_TYPES.
  repeat (match goal with |- context [String.eqb ?a ?b] => destruct (String.eqb a b) end;
          [cbn [default TowerConfig.cost from_option id]; intros Hin;
           repeat (apply elem_of_cons in Hin as [[= -> ->]|Hin]; [lia|]);
           apply elem_of_nil in Hin; contradiction|]).
  cbn [default TowerConfig.cost TowerConfig.empty from_option id]. intros Hin.
  repeat (apply elem_of_cons in Hin as [[= -> ->]|Hin]; [lia|]).
  apply elem_of_nil in Hin. contradiction.
Qed.

Lemma scaled_cost_increases tower_type (l : Z) :
  1 ≤ l →
  CostSpec.dearer (Tower.scaled_cost tower_type l) (Tower.scaled_cost tower_type (l + 1)).
Proof.
  intros Hl. unfold CostSpec.dearer, Tower.scaled_cost. cbv zeta.
  apply Forall2_fmap, Forall_Forall2_diag, list.Forall_forall.
  intros [k a] Hin. apply base_cost_at_least_2 in Hin.
  cbn [fst snd]. split; [reflexivity|].
  apply scaled_amount_increases; [exact Hl| |].
  - unfold TowerConfig.TOWER_UPGRADE_COST_MULTIPLIER. rewrite this_frac.
    unfold Qle. simpl. lia.
  - unfold TowerConfig.TOWER_UPGRADE_COST_MULTIPLIER. rewrite this_frac.
    assert (Hq : (2 <= inject_Z a)%Q)
      by (change 2%Q with (inject_Z 2); rewrite <- Zle_Qle; exact Hin).
    set (q := inject_Z a) in *.
    assert (Hhalf : ((3 # 2) - 1 == 1 # 2)%Q) by reflexivity.
    change (Qmake 3 (Z.to_pos 2)) with (3 # 2)%Q. rewrite Hhalf. lra.
Qed.

Lemma scaled_monster_coin_cost_increases tower_type (l : Z) :
  1 ≤ l →
  Tower.scaled_monster_coin_cost tower_type l
  < Tower.scaled_monster_coin_cost tower_type (l + 1).
Proof.
  intros Hl. unfold Tower.scaled_monster_coin_cost.
  assert (Hone : ∀ a, 5 ≤ a →
            Py.int (Qc_of_Z a
                    * Py.pow TowerConfig.TOWER_MONSTER_COIN_UPGRADE_MULTIPLIER (l - 1))%Qc
            < Py.int (Qc_of_Z a
                      * Py.pow TowerConfig.TOWER_MONSTER_COIN_UPGRADE_MULTIPLIER
                          (l + 1 - 1))%Qc).
  { intros a Ha. apply scaled_amount_increases; [exact Hl| |].
    - unfold TowerConfig.TOWER_MONSTER_COIN_UPGRADE_MULTIPLIER. rewrite this_frac.
      unfold Qle. simpl. lia.
    - unfold TowerConfig.TOWER_MONSTER_COIN_UPGRADE_MULTIPLIER. rewrite this_frac.
      assert (Hq : (5 <= inject_Z a)%Q)
        by (change 5%Q with (inject_Z 5); rewrite <- Zle_Qle; exact Ha).
      set (q := inject_Z a) in *.
      assert (Hgrow : ((13 # 10) - 1 == 3 # 10)%Q) by reflexivity.
      change (Qmake 13 (Z.to_pos 10)) with (13 # 10)%Q. rewrite Hgrow. lra. }
  unfold TowerConfig.TOWER_MONSTER_COIN_COSTS.
  repeat (match goal with |- context [String.eqb ?a ?b] => destruct (String.eqb a b) end;
          [cbn [default from_option id]; apply Hone; lia|]).
  cbn [default from_option id]. apply Hone. lia.
Qed.

(** The count of a regular wave below [2^52], when the computation goes
    through with a power that is at least 1, is at least 5 plus half the
    wave number. *)
Lemma regular_wave_count_at_least (wave count : Z) :
  1 ≤ wave < 2 ^ 52 →
  (∀ m, float_pow (Float.finite Config.WAVE_MONSTER_COUNT_MULTIPLIER) (wave / 10)
        = Ok (Float.finite m) → (1 <= m)%Qc) →
  WaveManager.regular_wave_count wave = Ok count →
  5 + wave / 2 ≤ count.
Proof.
  intros Hwave Hpow. unfold WaveManager.regular_wave_count. cbv zeta.
  destruct (float_pow _ _) as [multiplier|]; [|discriminate].
  destruct (Float.of_int wave) as [wave_as_float|] eqn:Hconv; [|discriminate].
  destruct (Float.of_int Config.WAVE_MONSTER_COUNT_BASE) as [base|] eqn:Hbase;
    [|discriminate].
  destruct (Float.add _ _) as [total| |] eqn:Hsum; try discriminate.
  cbn [Float.to_int]. intros [= <-].
  apply add_finite in Hsum as (b & product & -> & Hproduct & Hsum).
  apply mul_finite in Hproduct as (half & m & Hhalf & -> & Hproduct).
  apply mul_finite in Hhalf as (w & h & -> & [= <-] & Hhalf).
  apply of_int_finite in Hconv as (w' & [= <-] & Hconv); [|lia].
  assert (Hb : this b = 5%Q) by (vm_compute in Hbase; injection Hbase as <-; reflexivity).
  specialize (Hpow m eq_refl). unfold Qcle in Hpow. change (this 1%Qc) with 1%Q in Hpow.
  assert (Hw : (2 * wave # 2 <= this w)%Q).
  { apply (round_ge (2 * wave) (inject_Z wave)); [lia| |exact Hconv].
    unfold Qle, inject_Z. simpl. lia. }
  assert (Hh : (wave # 2 <= this half)%Q).
  { apply (round_ge wave (this w * this (Py.frac 1 2))); [lia| |exact Hhalf].
    rewrite this_frac. revert Hw. generalize (this w). intros [p d].
    unfold Qle, Qmult. simpl. lia. }
  assert (Hp : (wave # 2 <= this product)%Q).
  { apply (round_ge wave (this half * this m)); [lia| |exact Hproduct].
    assert (H0 : (0 <= this half)%Q).
    { eapply Qle_trans; [|exact Hh]. unfold Qle. simpl. lia. }
    assert (H1 : (0 <= this half * (this m - 1))%Q)
      by (apply Qmult_le_0_compat; lra).
    lra. }
  assert (Ht : (10 + wave # 2 <= this total)%Q).
  { apply (round_ge (10 + wave) (this b + this product)); [lia| |exact Hsum].
    rewrite Hb.
    assert (Hsplit : (10 + wave # 2 == 5 + (wave # 2))%Q)
      by (unfold Qeq, Qplus; simpl; lia).
    rewrite Hsplit. lra. }
  rewrite int_nonneg.
  - change (5 + wave / 2) with (5 + wave / 2).
    replace (5 + wave / 2) with (Qfloor (10 + wave # 2)).
    + apply Qfloor_resp_le. exact Ht.
    + unfold Qfloor. replace (10 + wave) with (wave + 5 * 2) by lia.
      rewrite Z.div_add by lia. lia.
  - eapply Qle_trans; [|exact Ht]. unfold Qle. simpl. lia.
Qed.

(** X5: a wave started from a wave number that is not negative always has
    something to spawn: one boss on a wave divisible by 10, and on any
    other wave at least 5 monsters plus one for every two waves.  The
    quota is computed in doubles: this holds for the waves below [2^52]
    when the call returns and the power of 1.5 it used is at least 1;
    a call that raises is one on a wave that is not divisible by 10, and
    leaves the quota as it was. *)
Theorem start_next_wave_quota_positive (wm : WaveManager.t) :
  let wave := WaveManager.current_wave wm + 1 in
  let r := WaveManager.start_next_wave wm in
  let wm' := snd r in
  (WaveManager.wave_active wm = false ∧ 0 ≤ WaveManager.current_wave wm) →
  (wave < 2 ^ 52
   ∧ ∀ m, float_pow (Float.finite Config.WAVE_MONSTER_COUNT_MULTIPLIER) (wave / 10)
          = Ok (Float.finite m) → (1 <= m)%Qc) →
  match fst r with
  | Ok _ =>
      1 ≤ WaveManager.monsters_to_spawn wm'
      ∧ (wave mod 10 = 0 → WaveManager.monsters_to_spawn wm' = 1)
      ∧ (wave mod 10 ≠ 0 → 5 + wave / 2 ≤ WaveManager.monsters_to_spawn wm')
  | Raise _ =>
      wave mod 10 ≠ 0
      ∧ WaveManager.monsters_to_spawn wm' = WaveManager.monsters_to_spawn wm
  end.
Proof.
  intros wave r wm' [Hact Hw] [Hbelow Hpow].
  assert (Hhalfpos : 0 ≤ wave / 2) by (apply Z.div_pos; lia).
  unfold wm', r, WaveManager.start_next_wave. cbv zeta. rewrite Hact. cbn [negb].
  fold wave.
  destruct (Z.eqb_spec (wave mod 10) 0) as [E|E]; cbn [fst snd].
  - cbn [WaveManager.monsters_to_spawn].
    split; [lia|]. split; [reflexivity|]. intros Hne. contradiction.
  - destruct (WaveManager.regular_wave_count wave) as [count|e] eqn:Hcount;
      cbn [fst snd WaveManager.monsters_to_spawn].
    + pose proof (regular_wave_count_at_least wave count ltac:(lia) Hpow Hcount).
      split; [lia|]. split; [intros E'; contradiction|]. intros _. assumption.
    + split; [exact E|reflexivity].
Qed.

End Costs.

(** * What an upgrade changes *)

Section UpgradeEffects.
Context `{Externals}.

Lemma same_build_refl a : UpgradeSpec.same_build a a.
Proof. repeat split. Qed.

Lemma same_build_trans a b c :
  UpgradeSpec.same_build a b → UpgradeSpec.same_build b c → UpgradeSpec.same_build a c.
Proof. unfold UpgradeSpec.same_build. intros. intuition congruence. Qed.

Lemma apply_item_build self item :
  UpgradeSpec.same_build (Tower.apply_item self item) self.
Proof.
  destruct self as [? ? ty]. destruct item as [name|]; [|apply same_build_refl].
  unfold Tower.apply_item. destruct (Py.truthy (Some name)); [|apply same_build_refl].
  cbn [negb].
  destruct (String.eqb name "Unstoppable Force");
    [|destruct (String.eqb name "Serene Spirit")];
    cbn;
    try (unfold Tower.is_splash_or_frozen, Tower.is_archer_or_sniper;
         destruct (String.eqb ty "Splash"), (String.eqb ty "Frozen"),
           (String.eqb ty "Archer"), (String.eqb ty "Sniper"));
    repeat split.
Qed.

Lemma apply_items_build l :
  ∀ self, UpgradeSpec.same_build (foldl Tower.apply_item self l) self.
Proof.
  induction l as [|item l IH]; intros self; cbn [foldl].
  - apply same_build_refl.
  - eapply same_build_trans; [apply IH|apply apply_item_build].
Qed.

Lemma reset_to_base_build t : UpgradeSpec.same_build (Tower.reset_to_base t) t.
Proof.
  destruct t as [? ? ty]. unfold Tower.reset_to_base. cbn.
  destruct (String.eqb ty "Splash"), (String.eqb ty "Frozen"); repeat split.
Qed.

Lemma set_has_item_effects_build flag t :
  UpgradeSpec.same_build (Tower.set_has_item_effects flag t) t.
Proof. destruct t. repeat split. Qed.

(** Recomputing the derived stats touches neither the levels nor the
    place of a tower nor its attack state. *)
Lemma apply_item_effects_build t :
  UpgradeSpec.same_build (Tower.apply_item_effects t) t.
Proof.
  rewrite apply_item_effects_eq.
  pose proof (reset_to_base_build t) as Hreset.
  destruct (existsb Py.truthy (Tower.item_slots (Tower.reset_to_base t))).
  - eapply same_build_trans; [apply apply_items_build|].
    eapply same_build_trans; [apply set_has_item_effects_build|exact Hreset].
  - eapply same_build_trans; [apply set_has_item_effects_build|exact Hreset].
Qed.

(** What a purchase that went through has built. *)
Lemma upgrade_damage_success t rm :
  (Tower.upgrade_damage t rm).1.1 = true →
  (Tower.upgrade_damage t rm).1.2
  = Tower.apply_item_effects
      (Tower.set_level (Tower.level t + 1)
         (Tower.set_damage_level (Tower.damage_level t + 1)
            (Tower.set_base_damage
               (Tower.base_damage t * TowerConfig.TOWER_DAMAGE_UPGRADE_MULTIPLIER)%Qc t))).
Proof.
  unfold Tower.upgrade_damage.
  destruct (negb _ || _); [discriminate|].
  destruct (ResourceManager.spend_resources _ _) as [[] rm']; [|discriminate].
  intros _. reflexivity.
Qed.

Lemma upgrade_attack_speed_success t rm :
  (Tower.upgrade_attack_speed t rm).1.1 = true →
  (Tower.upgrade_attack_speed t rm).1.2
  = Tower.apply_item_effects
      (Tower.set_level (Tower.level t + 1)
         (Tower.set_attack_speed_level (Tower.attack_speed_level t + 1)
            (Tower.set_base_attack_speed
               (Tower.base_attack_speed t
                * TowerConfig.TOWER_ATTACK_SPEED_UPGRADE_MULTIPLIER)%Qc t))).
Proof.
  unfold Tower.upgrade_attack_speed.
  destruct (negb _ || _); [discriminate|].
  destruct (ResourceManager.spend_resources _ _) as [[] rm']; [|discriminate].
  intros _. reflexivity.
Qed.

Lemma upgrade_range_success t rm :
  (Tower.upgrade_range t rm).1.1 = true →
  (Tower.upgrade_range t rm).1.2
  = Tower.apply_item_effects
      (Tower.set_level (Tower.level t + 1)
         (Tower.set_range_level (Tower.range_level t + 1)
            (Tower.set_base_range
               (scale_value
                  (Tower.base_ref_range t * TowerConfig.TOWER_RANGE_UPGRADE_MULTIPLIER)%Qc)
               (Tower.set_base_ref_range
                  (Tower.base_ref_range t * TowerConfig.TOWER_RANGE_UPGRADE_MULTIPLIER)%Qc
                  t)))).
Proof.
  unfold Tower.upgrade_range.
  destruct (negb _ || _); [discriminate|].
  destruct (ResourceManager.spend_resources _ _) as [[] rm']; [|discriminate].
  intros _. reflexivity.
Qed.

Lemma derived_damage t :
  Tower.damage t = TowerSpec.damage (TowerSpec.derived t)
  ∧ Tower.attack_speed t = TowerSpec.attack_speed (TowerSpec.derived t).
Proof. split; reflexivity. Qed.

(** The recomputed tower in terms of the tower the recomputation started
    from. *)
Lemma apply_item_effects_view x :
  let t' := Tower.apply_item_effects x in
  (TowerSpec.derived t' = TowerSpec.fresh t'
   ∧ Tower.damage t' = Tower.base_damage x
   ∧ Tower.attack_speed t' = Tower.base_attack_speed x)
  ∧ same_frame t' x
  ∧ UpgradeSpec.same_build t' x.
Proof.
  cbn zeta. destruct (apply_item_effects_fresh x) as [Hd Hf].
  pose proof (apply_item_effects_build x) as Hb.
  destruct (derived_damage (Tower.apply_item_effects x)) as [Hdmg Hspd].
  revert Hd Hf Hb Hdmg Hspd. generalize (Tower.apply_item_effects x). intros t' Hd Hf Hb Hdmg Hspd.
  split; [|split; [exact Hf|exact Hb]].
  split; [rewrite Hd; symmetry; apply fresh_frame; exact Hf|].
  rewrite Hdmg, Hspd, Hd. split; reflexivity.
Qed.

(** X6: a purchased upgrade raises the base value of its own path by the
    configured factor and the level of that path and the overall level by
    one; the other base values and levels, the type, the place and the
    slots stay, and the derived stats are computed afresh from the new
    base values: the damage in force is the new base damage whatever it
    was before. *)
Theorem upgrade_raises_its_base_stat (t : Tower.t) (rm : ResourceManager.t) :
  let kept (t' : Tower.t) :=
    TowerSpec.derived t' = TowerSpec.fresh t'
    ∧ Tower.level t' = Tower.level t + 1
    ∧ Tower.item_slots t' = Tower.item_slots t
    ∧ Tower.tower_type t' = Tower.tower_type t
    ∧ Tower.position t' = Tower.position t
    ∧ Tower.damage t' = Tower.base_damage t'
    ∧ Tower.attack_speed t' = Tower.base_attack_speed t' in
  ((Tower.upgrade_damage t rm).1.1 = true →
   let t' := (Tower.upgrade_damage t rm).1.2 in
   kept t'
   ∧ Tower.base_damage t'
     = (Tower.base_damage t * TowerConfig.TOWER_DAMAGE_UPGRADE_MULTIPLIER)%Qc
   ∧ Tower.base_attack_speed t' = Tower.base_attack_speed t
   ∧ Tower.base_ref_range t' = Tower.base_ref_range t
   ∧ Tower.base_range t' = Tower.base_range t
   ∧ Tower.damage_level t' = Tower.damage_level t + 1
   ∧ Tower.attack_speed_level t' = Tower.attack_speed_level t
   ∧ Tower.range_level t' = Tower.range_level t)
  ∧ ((Tower.upgrade_attack_speed t rm).1.1 = true →
     let t' := (Tower.upgrade_attack_speed t rm).1.2 in
     kept t'
     ∧ Tower.base_damage t' = Tower.base_damage t
     ∧ Tower.base_attack_speed t'
       = (Tower.base_attack_speed t
          * TowerConfig.TOWER_ATTACK_SPEED_UPGRADE_MULTIPLIER)%Qc
     ∧ Tower.base_ref_range t' = Tower.base_ref_range t
     ∧ Tower.base_range t' = Tower.base_range t
     ∧ Tower.damage_level t' = Tower.damage_level t
     ∧ Tower.attack_speed_level t' = Tower.attack_speed_level t + 1
     ∧ Tower.range_level t' = Tower.range_level t)
  ∧ ((Tower.upgrade_range t rm).1.1 = true →
     let t' := (Tower.upgrade_range t rm).1.2 in
     kept t'
     ∧ Tower.base_damage t' = Tower.base_damage t
     ∧ Tower.base_attack_speed t' = Tower.base_attack_speed t
     ∧ Tower.base_ref_range t'
       = (Tower.base_ref_range t * TowerConfig.TOWER_RANGE_UPGRADE_MULTIPLIER)%Qc
     ∧ Tower.base_range t' = scale_value (Tower.base_ref_range t')
     ∧ Tower.damage_level t' = Tower.damage_level t
     ∧ Tower.attack_speed_level t' = Tower.attack_speed_level t
     ∧ Tower.range_level t' = Tower.range_level t + 1).
Proof.
  cbv zeta. split; [|split]; intros Hok.
  - rewrite (upgrade_damage_success t rm Hok).
    match goal with |- context [Tower.apply_item_effects ?x] =>
      destruct (apply_item_effects_view x)
        as ((Hd & Hdmg & Hspd)
            & (Hty & Hsl & Hbd & Hbs & Hbr & Hbrr & _)
            & (_ & Hpos & _ & Hl & Hdl & Hal & Hrl & _))
    end.
    rewrite Hd, Hl, Hsl, Hty, Hpos, Hdmg, Hspd, Hbd, Hbs, Hbr, Hbrr, Hdl, Hal, Hrl.
    repeat split.
  - rewrite (upgrade_attack_speed_success t rm Hok).
    match goal with |- context [Tower.apply_item_effects ?x] =>
      destruct (apply_item_effects_view x)
        as ((Hd & Hdmg & Hspd)
            & (Hty & Hsl & Hbd & Hbs & Hbr & Hbrr & _)
            & (_ & Hpos & _ & Hl & Hdl & Hal & Hrl & _))
    end.
    rewrite Hd, Hl, Hsl, Hty, Hpos, Hdmg, Hspd, Hbd, Hbs, Hbr, Hbrr, Hdl, Hal, Hrl.
    repeat split.
  - rewrite (upgrade_range_success t rm Hok).
    match goal with |- context [Tower.apply_item_effects ?x] =>
      destruct (apply_item_effects_view x)
        as ((Hd & Hdmg & Hspd)
            & (Hty & Hsl & Hbd & Hbs & Hbr & Hbrr & _)
            & (_ & Hpos & _ & Hl & Hdl & Hal & Hrl & _))
    end.
    rewrite Hd, Hl, Hsl, Hty, Hpos, Hdmg, Hspd, Hbd, Hbs, Hbr, Hbrr, Hdl, Hal, Hrl.
    repeat split.
Qed.

(** X7: an upgrade makes the next upgrade of its own path dearer, in every
    resource and in Monster Coins, and leaves the prices of the other two
    paths as they were; the price by the overall level rises with every
    upgrade. *)
Theorem upgrade_makes_only_its_path_dearer (t : Tower.t) (rm : ResourceManager.t) :
  let overall (t' : Tower.t) :=
    1 ≤ Tower.level t →
    CostSpec.dearer (BaseTower.calculate_upgrade_cost t)
      (BaseTower.calculate_upgrade_cost t') in
  ((Tower.upgrade_damage t rm).1.1 = true →
   let t' := (Tower.upgrade_damage t rm).1.2 in
   (1 ≤ Tower.damage_level t →
    CostSpec.dearer (Tower.calculate_damage_upgrade_cost t)
      (Tower.calculate_damage_upgrade_cost t')
    ∧ Tower.calculate_damage_upgrade_monster_coin_cost t
      < Tower.calculate_damage_upgrade_monster_coin_cost t')
   ∧ Tower.calculate_attack_speed_upgrade_cost t'
     = Tower.calculate_attack_speed_upgrade_cost t
   ∧ Tower.calculate_attack_speed_upgrade_monster_coin_cost t'
     = Tower.calculate_attack_speed_upgrade_monster_coin_cost t
   ∧ Tower.calculate_range_upgrade_cost t' = Tower.calculate_range_upgrade_cost t
   ∧ Tower.calculate_range_upgrade_monster_coin_cost t'
     = Tower.calculate_range_upgrade_monster_coin_cost t
   ∧ overall t')
  ∧ ((Tower.upgrade_attack_speed t rm).1.1 = true →
     let t' := (Tower.upgrade_attack_speed t rm).1.2 in
     (1 ≤ Tower.attack_speed_level t →
      CostSpec.dearer (Tower.calculate_attack_speed_upgrade_cost t)
        (Tower.calculate_attack_speed_upgrade_cost t')
      ∧ Tower.calculate_attack_speed_upgrade_monster_coin_cost t
        < Tower.calculate_attack_speed_upgrade_monster_coin_cost t')
     ∧ Tower.calculate_damage_upgrade_cost t' = Tower.calculate_damage_upgrade_cost t
     ∧ Tower.calculate_damage_upgrade_monster_coin_cost t'
       = Tower.calculate_damage_upgrade_monster_coin_cost t
     ∧ Tower.calculate_range_upgrade_cost t' = Tower.calculate_range_upgrade_cost t
     ∧ Tower.calculate_range_upgrade_monster_coin_cost t'
       = Tower.calculate_range_upgrade_monster_coin_cost t
     ∧ overall t')
  ∧ ((Tower.upgrade_range t rm).1.1 = true →
     let t' := (Tower.upgrade_range t rm).1.2 in
     (1 ≤ Tower.range_level t →
      CostSpec.dearer (Tower.calculate_range_upgrade_cost t)
        (Tower.calculate_range_upgrade_cost t')
      ∧ Tower.calculate_range_upgrade_monster_coin_cost t
        < Tower.calculate_range_upgrade_monster_coin_cost t')
     ∧ Tower.calculate_damage_upgrade_cost t' = Tower.calculate_damage_upgrade_cost t
     ∧ Tower.calculate_damage_upgrade_monster_coin_cost t'
       = Tower.calculate_damage_upgrade_monster_coin_cost t
     ∧ Tower.calculate_attack_speed_upgrade_cost t'
       = Tower.calculate_attack_speed_upgrade_cost t
     ∧ Tower.calculate_attack_speed_upgrade_monster_coin_cost t'
       = Tower.calculate_attack_speed_upgrade_monster_coin_cost t
     ∧ overall t').
Proof.
  cbv zeta.
  unfold Tower.calculate_damage_upgrade_cost,
    Tower.calculate_damage_upgrade_monster_coin_cost,
    Tower.calculate_attack_speed_upgrade_cost,
    Tower.calculate_attack_speed_upgrade_monster_coin_cost,
    Tower.calculate_range_upgrade_cost,
    Tower.calculate_range_upgrade_monster_coin_cost,
    BaseTower.calculate_upgrade_cost.
  split; [|split]; intros Hok.
  - rewrite (upgrade_damage_success t rm Hok).
    match goal with |- context [Tower.apply_item_effects ?x] =>
      destruct (apply_item_effects_view x)
        as (_ & (Hty & _) & (_ & _ & _ & Hl & Hdl & Hal & Hrl & _))
    end.
    rewrite Hty, Hl, Hdl, Hal, Hrl.
    split; [intros Hlevel; split|repeat split].
    + apply (scaled_cost_increases (Tower.tower_type t) _ Hlevel).
    + apply (scaled_monster_coin_cost_increases (Tower.tower_type t) _ Hlevel).
    + intros Hlevel. apply (scaled_cost_increases (Tower.tower_type t) _ Hlevel).
  - rewrite (upgrade_attack_speed_success t rm Hok).
    match goal with |- context [Tower.apply_item_effects ?x] =>
      destruct (apply_item_effects_view x)
        as (_ & (Hty & _) & (_ & _ & _ & Hl & Hdl & Hal & Hrl & _))
    end.
    rewrite Hty, Hl, Hdl, Hal, Hrl.
    split; [intros Hlevel; split|repeat split].
    + apply (scaled_cost_increases (Tower.tower_type t) _ Hlevel).
    + apply (scaled_monster_coin_cost_increases (Tower.tower_type t) _ Hlevel).
    + intros Hlevel. apply (scaled_cost_increases (Tower.tower_type t) _ Hlevel).
  - rewrite (upgrade_range_success t rm Hok).
    match goal with |- context [Tower.apply_item_effects ?x] =>
      destruct (apply_item_effects_view x)
        as (_ & (Hty & _) & (_ & _ & _ & Hl & Hdl & Hal & Hrl & _))
    end.
    rewrite Hty, Hl, Hdl, Hal, Hrl.
    split; [intros Hlevel; split|repeat split].
    + apply (scaled_cost_increases (Tower.tower_type t) _ Hlevel).
    + apply (scaled_monster_coin_cost_increases (Tower.tower_type t) _ Hlevel).
    + intros Hlevel. apply (scaled_cost_increases (Tower.tower_type t) _ Hlevel).
Qed.

End UpgradeEffects.

(** * The item slots *)

Section Items.
Context `{Externals}.

Lemma apply_item_effects_slots x :
  Tower.item_slots (Tower.apply_item_effects x) = Tower.item_slots x.
Proof. destruct (apply_item_effects_fresh x) as [_ (_ & Hs & _)]. exact Hs. Qed.

Lemma add_item_tower t item slot_index rm :
  (Tower.add_item t item slot_index rm).1
  = if ItemSpec.in_range t slot_index
    then (true,
          Tower.apply_item_effects
            (Tower.set_item_slots
               (<[Z.to_nat slot_index := item]> (Tower.item_slots t)) t))
    else (false, t).
Proof.
  unfold Tower.add_item, ItemSpec.in_range.
  destruct ((0 <=? slot_index) && _); reflexivity.
Qed.

Lemma remove_item_tower t slot_index rm :
  (Tower.remove_item t slot_index rm).1
  = if ItemSpec.in_range t slot_index
       && Py.truthy (default None (Tower.item_slots t !! Z.to_nat slot_index))
    then (default None (Tower.item_slots t !! Z.to_nat slot_index),
          Tower.apply_item_effects
            (Tower.set_item_slots
               (<[Z.to_nat slot_index := None]> (Tower.item_slots t)) t))
    else (None, t).
Proof.
  unfold Tower.remove_item, ItemSpec.in_range. cbv zeta.
  destruct ((0 <=? slot_index) && _ && _); reflexivity.
Qed.

(** Reading a slot of a list of slots in which one slot was written. *)
Lemma slot_after_insert (slots : list (option string)) (i j : Z) (x : option string) :
  (0 <=? i) && (i <? Z.of_nat (length slots)) = true →
  (if (0 <=? j) && (j <? Z.of_nat (length (<[Z.to_nat i := x]> slots)))
   then default None (<[Z.to_nat i := x]> slots !! Z.to_nat j) else None)
  = if j =? i then x
    else if (0 <=? j) && (j <? Z.of_nat (length slots))
         then default None (slots !! Z.to_nat j) else None.
Proof.
  intros Hi. rewrite length_insert.
  apply andb_true_iff in Hi as [Hi0 Hi1].
  apply Z.leb_le in Hi0. apply Z.ltb_lt in Hi1.
  destruct (Z.eqb_spec j i) as [->|Hne].
  - rewrite (proj2 (Z.leb_le 0 i) Hi0), (proj2 (Z.ltb_lt _ _) Hi1). cbn [andb].
    rewrite list_lookup_insert_eq by lia. reflexivity.
  - destruct ((0 <=? j) && (j <? Z.of_nat (length slots))) eqn:Hj; [|reflexivity].
    apply andb_true_iff in Hj as [Hj0 _]. apply Z.leb_le in Hj0.
    rewrite list_lookup_insert_ne by lia. reflexivity.
Qed.

Lemma get_item_in_slot_outside t slot_index :
  ItemSpec.in_range t slot_index = false → BaseTower.get_item_in_slot t slot_index = None.
Proof.
  unfold ItemSpec.in_range, BaseTower.get_item_in_slot. intros ->. reflexivity.
Qed.

Lemma get_item_in_slot_inside t slot_index :
  ItemSpec.in_range t slot_index = true →
  BaseTower.get_item_in_slot t slot_index
  = default None (Tower.item_slots t !! Z.to_nat slot_index).
Proof.
  unfold ItemSpec.in_range, BaseTower.get_item_in_slot. intros ->. reflexivity.
Qed.

Lemma get_item_in_slot_written t slots slot_index x j :
  ItemSpec.in_range t slot_index = true →
  Tower.item_slots t = slots →
  BaseTower.get_item_in_slot
    (Tower.apply_item_effects
       (Tower.set_item_slots (<[Z.to_nat slot_index := x]> slots) t)) j
  = if j =? slot_index then x else BaseTower.get_item_in_slot t j.
Proof.
  intros Hin <-. unfold BaseTower.get_item_in_slot.
  rewrite apply_item_effects_slots.
  change (Tower.item_slots
            (Tower.set_item_slots
               (<[Z.to_nat slot_index := x]> (Tower.item_slots t)) t))
    with (<[Z.to_nat slot_index := x]> (Tower.item_slots t)).
  apply slot_after_insert. exact Hin.
Qed.

Lemma add_item_get t item slot_index rm j :
  BaseTower.get_item_in_slot (Tower.add_item t item slot_index rm).1.2 j
  = if ItemSpec.in_range t slot_index && (j =? slot_index) then item
    else BaseTower.get_item_in_slot t j.
Proof.
  rewrite add_item_tower.
  destruct (ItemSpec.in_range t slot_index) eqn:Hin; cbn [snd andb]; [|reflexivity].
  apply get_item_in_slot_written; [exact Hin|reflexivity].
Qed.

Lemma remove_item_get t slot_index rm j :
  BaseTower.get_item_in_slot (Tower.remove_item t slot_index rm).1.2 j
  = if Py.truthy (BaseTower.get_item_in_slot t slot_index) && (j =? slot_index)
    then None else BaseTower.get_item_in_slot t j.
Proof.
  rewrite remove_item_tower.
  destruct (ItemSpec.in_range t slot_index) eqn:Hin; cbn [andb].
  - rewrite (get_item_in_slot_inside t slot_index Hin).
    destruct (Py.truthy _); cbn [snd andb]; [|reflexivity].
    apply get_item_in_slot_written; [exact Hin|reflexivity].
  - rewrite (get_item_in_slot_outside t slot_index Hin). reflexivity.
Qed.

Lemma remove_item_answer t slot_index rm :
  (Tower.remove_item t slot_index rm).1.1
  = if Py.truthy (BaseTower.get_item_in_slot t slot_index)
    then BaseTower.get_item_in_slot t slot_index else None.
Proof.
  rewrite remove_item_tower.
  destruct (ItemSpec.in_range t slot_index) eqn:Hin; cbn [andb].
  - rewrite (get_item_in_slot_inside t slot_index Hin).
    destruct (Py.truthy _); reflexivity.
  - rewrite (get_item_in_slot_outside t slot_index Hin). reflexivity.
Qed.

(** X8: writing a slot and reading it back: [add_item] answers whether the
    slot exists; afterwards the slot holds the item and every other slot
    what it held.  [remove_item] answers with the item of the slot, if
    there is one, and empties that slot only.  Removing what was just
    added answers with the added item. *)
Theorem item_slot_round_trip (t : Tower.t) (item : option string) (slot_index j : Z)
    (rm rm' : option ResourceManager.t) :
  let added := Tower.add_item t item slot_index rm in
  let removed := Tower.remove_item t slot_index rm in
  let undone := Tower.remove_item added.1.2 slot_index rm' in
  (added.1.1 = ItemSpec.in_range t slot_index
   ∧ BaseTower.get_item_in_slot added.1.2 j
     = (if ItemSpec.in_range t slot_index && (j =? slot_index) then item
        else BaseTower.get_item_in_slot t j))
  ∧ (removed.1.1
     = (if Py.truthy (BaseTower.get_item_in_slot t slot_index)
        then BaseTower.get_item_in_slot t slot_index else None)
     ∧ BaseTower.get_item_in_slot removed.1.2 j
       = (if Py.truthy (BaseTower.get_item_in_slot t slot_index) && (j =? slot_index)
          then None else BaseTower.get_item_in_slot t j))
  ∧ undone.1.1
    = (if ItemSpec.in_range t slot_index && Py.truthy item then item else None)
  ∧ BaseTower.get_item_in_slot undone.1.2 j
    = (if ItemSpec.in_range t slot_index && (j =? slot_index)
       then (if Py.truthy item then None else item)
       else BaseTower.get_item_in_slot t j).
Proof.
  cbv zeta.
  assert (Hback : BaseTower.get_item_in_slot
                    (Tower.add_item t item slot_index rm).1.2 slot_index
                  = if ItemSpec.in_range t slot_index then item else None).
  { rewrite add_item_get, Z.eqb_refl, andb_true_r.
    destruct (ItemSpec.in_range t slot_index) eqn:Hin; [reflexivity|].
    apply get_item_in_slot_outside. exact Hin. }
  split; [split|split; [split|split]].
  - rewrite add_item_tower. destruct (ItemSpec.in_range t slot_index); reflexivity.
  - apply add_item_get.
  - apply remove_item_answer.
  - apply remove_item_get.
  - rewrite remove_item_answer, Hback.
    destruct (ItemSpec.in_range t slot_index); [|reflexivity].
    destruct (Py.truthy item); reflexivity.
  - rewrite remove_item_get, Hback, add_item_get.
    destruct (ItemSpec.in_range t slot_index); cbn [andb]; [|reflexivity].
    destruct (Py.truthy item), (j =? slot_index); reflexivity.
Qed.

Lemma equipped_cons x slots kind :
  ItemSpec.equipped (x :: slots) kind
  = ItemSpec.holds x kind + ItemSpec.equipped slots kind.
Proof.
  unfold ItemSpec.equipped, ItemSpec.holds. rewrite filter_cons.
  destruct (decide (x = Some kind)); cbn [length]; lia.
Qed.

Lemma equipped_insert kind x :
  ∀ slots (i : nat),
    (i < length slots)%nat →
    ItemSpec.equipped (<[i := x]> slots) kind
    = ItemSpec.equipped slots kind
      - ItemSpec.holds (default None (slots !! i)) kind + ItemSpec.holds x kind.
Proof.
  induction slots as [|y slots IH]; intros i Hi; [cbn in Hi; lia|].
  destruct i as [|i].
  - cbn [insert list_insert lookup list_lookup default from_option id].
    rewrite !equipped_cons. lia.
  - cbn [length] in Hi.
    change (<[S i := x]> (y :: slots)) with (y :: <[i := x]> slots).
    change ((y :: slots) !! S i) with (slots !! i).
    rewrite !equipped_cons, IH by lia. lia.
Qed.

Lemma holds_truthy name kind :
  ItemSpec.holds (Some name) kind = if String.eqb name kind then 1 else 0.
Proof.
  unfold ItemSpec.holds.
  destruct (String.eqb_spec name kind) as [->|Hne]; destruct (decide _); congruence.
Qed.

Lemma in_range_nat t slot_index :
  ItemSpec.in_range t slot_index = true →
  (Z.to_nat slot_index < length (Tower.item_slots t))%nat.
Proof.
  unfold ItemSpec.in_range. intros Hin.
  apply andb_true_iff in Hin as [H0 H1].
  apply Z.leb_le in H0. apply Z.ltb_lt in H1. lia.
Qed.

(** Taking an item out of a tower moves it to the ledger: what the
    player holds of every kind, in the ledger and in the slots together,
    stays the same. *)
Lemma remove_item_holdings t (ledger : ResourceManager.t) slot_index :
  ∃ ledger', (Tower.remove_item t slot_index (Some ledger)).2 = Some ledger'
    ∧ ∀ kind,
        ItemSpec.holdings ledger'
          (Tower.item_slots (Tower.remove_item t slot_index (Some ledger)).1.2) kind
        = ItemSpec.holdings ledger (Tower.item_slots t) kind.
Proof.
  rewrite remove_item_tower. unfold Tower.remove_item. cbv zeta.
  fold (ItemSpec.in_range t slot_index).
  destruct (ItemSpec.in_range t slot_index) eqn:Hin; cbn [andb];
    [|eexists; split; [reflexivity|reflexivity]].
  pose proof (in_range_nat t slot_index Hin) as Hlt.
  destruct (Tower.item_slots t !! Z.to_nat slot_index) as [[name|]|] eqn:Hcur;
    cbn [default from_option id];
    try (eexists; split; reflexivity).
  destruct (Py.truthy (Some name)); [|eexists; split; reflexivity].
  cbn [snd]. eexists. split; [reflexivity|]. intros kind.
  rewrite apply_item_effects_slots.
  change (Tower.item_slots
            (Tower.set_item_slots
               (<[Z.to_nat slot_index := None]> (Tower.item_slots t)) t))
    with (<[Z.to_nat slot_index := None]> (Tower.item_slots t)).
  unfold ItemSpec.holdings.
  rewrite equipped_insert by exact Hlt. rewrite Hcur.
  cbn [default from_option id]. rewrite get_resource_add_resource, holds_truthy.
  unfold ItemSpec.holds at 1. destruct (decide (None = Some kind)); [discriminate|].
  destruct (String.eqb_spec name kind) as [->|Hne]; lia.
Qed.

(** What equipping does to the holdings of one kind. *)
Lemma add_item_holdings t (ledger : ResourceManager.t) name slot_index kind :
  name ≠ ""%string → kind ≠ ""%string →
  ItemSpec.in_range t slot_index = true →
  ∃ ledger', (Tower.add_item t (Some name) slot_index (Some ledger)).2 = Some ledger'
    ∧ ItemSpec.holdings ledger'
        (Tower.item_slots (Tower.add_item t (Some name) slot_index (Some ledger)).1.2)
        kind
      = ItemSpec.holdings ledger (Tower.item_slots t) kind
        + (if String.eqb name kind then 1 else 0)
        - (if (1 <=? ResourceManager.get_resource ledger name
                     + ItemSpec.holds (BaseTower.get_item_in_slot t slot_index) name)
              && String.eqb name kind
           then 1 else 0).
Proof.
  intros Hname Hkind Hin.
  pose proof (in_range_nat t slot_index Hin) as Hlt.
  rewrite add_item_tower, (get_item_in_slot_inside t slot_index Hin), Hin.
  unfold Tower.add_item. fold (ItemSpec.in_range t slot_index). rewrite Hin.
  cbv zeta. cbn [snd].
  rewrite apply_item_effects_slots.
  change (Tower.item_slots
            (Tower.set_item_slots
               (<[Z.to_nat slot_index := Some name]> (Tower.item_slots t)) t))
    with (<[Z.to_nat slot_index := Some name]> (Tower.item_slots t)).
  assert (Htruthy : Py.truthy (Some name) = true).
  { unfold Py.truthy. destruct (String.eqb_spec name ""); [contradiction|reflexivity]. }
  set (current := default None (Tower.item_slots t !! Z.to_nat slot_index)).
  set (returned :=
         match current with
         | Some name0 =>
             if Py.truthy current
             then Some (ResourceManager.add_resource ledger name0 1)
             else Some ledger
         | None => Some ledger
         end).
  assert (Hret : ∃ ledger1, returned = Some ledger1
            ∧ ∀ k, k ≠ ""%string →
                ResourceManager.get_resource ledger1 k
                = ResourceManager.get_resource ledger k + ItemSpec.holds current k).
  { unfold returned. destruct current as [name0|].
    - unfold Py.truthy. destruct (String.eqb_spec name0 "") as [->|Hne0]; cbn [negb].
      + eexists. split; [reflexivity|]. intros k Hk. unfold ItemSpec.holds.
        destruct (decide _) as [E|_]; [congruence|lia].
      + eexists. split; [reflexivity|]. intros k Hk.
        rewrite get_resource_add_resource, holds_truthy.
        destruct (String.eqb_spec name0 k) as [->|_]; lia.
    - eexists. split; [reflexivity|]. intros k Hk. unfold ItemSpec.holds.
      destruct (decide _); [discriminate|lia]. }
  destruct Hret as (ledger1 & -> & Hledger1).
  rewrite Htruthy. eexists. split; [reflexivity|].
  unfold ItemSpec.holdings. rewrite equipped_insert by exact Hlt.
  fold current. rewrite holds_truthy.
  unfold ResourceManager.spend_resource.
  rewrite (Hledger1 name Hname).
  destruct (1 <=? ResourceManager.get_resource ledger name + ItemSpec.holds current name);
    cbn [snd andb].
  - rewrite get_resource_insert, (Hledger1 kind Hkind).
    destruct (String.eqb_spec name kind) as [->|Hne]; lia.
  - rewrite (Hledger1 kind Hkind).
    destruct (String.eqb name kind); lia.
Qed.

(** X9: items are neither lost nor made when they move between the ledger
    and a tower, as long as the ledger holds the item that is equipped:
    removing an item conserves the holdings of every kind, and so does
    equipping an item of which the ledger holds one.  Equipping an item
    the ledger does not hold is not refused: the slot is filled all the
    same, and the player holds one more than before. *)
Theorem item_moves_conserve_holdings (t : Tower.t) (ledger : ResourceManager.t)
    (name : string) (slot_index : Z) :
  let slots := Tower.item_slots t in
  let removed := Tower.remove_item t slot_index (Some ledger) in
  let added := Tower.add_item t (Some name) slot_index (Some ledger) in
  (∃ ledger', removed.2 = Some ledger'
     ∧ ∀ kind, ItemSpec.holdings ledger' (Tower.item_slots removed.1.2) kind
               = ItemSpec.holdings ledger slots kind)
  ∧ ∃ ledger', added.2 = Some ledger'
      ∧ (name ≠ ""%string →
         1 ≤ ResourceManager.get_resource ledger name →
         ∀ kind, kind ≠ ""%string →
           ItemSpec.holdings ledger' (Tower.item_slots added.1.2) kind
           = ItemSpec.holdings ledger slots kind)
      ∧ (name ≠ ""%string →
         ItemSpec.in_range t slot_index = true →
         ResourceManager.get_resource ledger name ≤ 0 →
         BaseTower.get_item_in_slot t slot_index ≠ Some name →
         BaseTower.get_item_in_slot added.1.2 slot_index = Some name
         ∧ ItemSpec.holdings ledger' (Tower.item_slots added.1.2) name
           = ItemSpec.holdings ledger slots name + 1).
Proof.
  cbv zeta. split; [apply remove_item_holdings|].
  destruct (ItemSpec.in_range t slot_index) eqn:Hin.
  - assert (Hsome : ∃ ledger',
              (Tower.add_item t (Some name) slot_index (Some ledger)).2 = Some ledger').
    { unfold Tower.add_item. fold (ItemSpec.in_range t slot_index). rewrite Hin.
      cbv zeta. cbn [snd].
      destruct (default None (Tower.item_slots t !! Z.to_nat slot_index)) as [name0|];
        [destruct (Py.truthy (Some name0))|];
        destruct (Py.truthy (Some name)); eexists; reflexivity. }
    destruct Hsome as [ledger' Hledger']. exists ledger'.
    split; [exact Hledger'|]. split.
    + intros Hname Hstock kind Hkind.
      destruct (add_item_holdings t ledger name slot_index kind Hname Hkind Hin)
        as (ledger'' & E & Hh).
      rewrite Hledger' in E. injection E as <-. rewrite Hh.
      assert (Hholds : 0 ≤ ItemSpec.holds (BaseTower.get_item_in_slot t slot_index) name)
        by (unfold ItemSpec.holds; destruct (decide _); lia).
      destruct (Z.leb_spec 1
                  (ResourceManager.get_resource ledger name
                   + ItemSpec.holds (BaseTower.get_item_in_slot t slot_index) name));
        [|lia].
      cbn [andb]. destruct (String.eqb name kind); lia.
    + intros Hname _ Hstock Hother. split.
      * rewrite add_item_get, Hin, Z.eqb_refl. reflexivity.
      * destruct (add_item_holdings t ledger name slot_index name Hname Hname Hin)
          as (ledger'' & E & Hh).
        rewrite Hledger' in E. injection E as <-. rewrite Hh.
        assert (Hholds : ItemSpec.holds (BaseTower.get_item_in_slot t slot_index) name = 0)
          by (unfold ItemSpec.holds; destruct (decide _); [contradiction|reflexivity]).
        rewrite Hholds, String.eqb_refl.
        destruct (Z.leb_spec 1 (ResourceManager.get_resource ledger name + 0)); [lia|].
        cbn [andb]. lia.
  - exists ledger. split.
    + unfold Tower.add_item. fold (ItemSpec.in_range t slot_index). rewrite Hin.
      reflexivity.
    + rewrite add_item_tower, Hin. cbn [snd]. split; [auto|].
      intros _ Hfalse. discriminate Hfalse.
Qed.

End Items.

(** * Targets and attacks *)

Section Targets.
Context `{Externals}.

Lemma insert_by_perm key x l : SingleTarget.insert_by key x l ≡ₚ x :: l.
Proof.
  induction l as [|y l IH]; cbn [SingleTarget.insert_by]; [reflexivity|].
  destruct (Py.Qcltb (key x) (key y)); [reflexivity|].
  rewrite IH. apply perm_swap.
Qed.

Lemma sort_by_perm key l : SingleTarget.sort_by key l ≡ₚ l.
Proof.
  unfold SingleTarget.sort_by.
  assert (Hgen : ∀ sorted,
            foldl (fun sorted x => SingleTarget.insert_by key x sorted) sorted l
            ≡ₚ l ++ sorted).
  { induction l as [|x l IH]; intros sorted; cbn [foldl]; [reflexivity|].
    rewrite IH, insert_by_perm. cbn [app].
    symmetry. apply Permutation_middle. }
  rewrite Hgen, app_nil_r. reflexivity.
Qed.

Lemma insert_by_ordered key x l :
  TargetSpec.ordered key l → TargetSpec.ordered key (SingleTarget.insert_by key x l).
Proof.
  induction l as [|y l IH]; cbn [SingleTarget.insert_by TargetSpec.ordered].
  - intros _. split; [constructor|exact I].
  - intros [Hy Hl]. unfold Py.Qcltb.
    destruct (bool_decide_reflect (key x < key y)%Qc) as [Hlt|Hge];
      cbn [TargetSpec.ordered].
    + split; [|split; assumption].
      constructor; [apply Qclt_le_weak; exact Hlt|].
      eapply list.Forall_impl; [exact Hy|]. cbn beta. intros z Hz.
      eapply Qcle_trans; [apply Qclt_le_weak; exact Hlt|exact Hz].
    + split; [|apply IH; exact Hl].
      rewrite insert_by_perm. constructor; [|exact Hy].
      apply Qcnot_lt_le. exact Hge.
Qed.

Lemma sort_by_ordered key l : TargetSpec.ordered key (SingleTarget.sort_by key l).
Proof.
  unfold SingleTarget.sort_by.
  assert (Hgen : ∀ sorted,
            TargetSpec.ordered key sorted →
            TargetSpec.ordered key
              (foldl (fun sorted x => SingleTarget.insert_by key x sorted) sorted l)).
  { induction l as [|x l IH]; intros sorted Hs; cbn [foldl]; [exact Hs|].
    apply IH, insert_by_ordered, Hs. }
  apply Hgen. exact I.
Qed.

Lemma in_reach_spec self (heap : Heap) id :
  SingleTarget.in_reach self heap id = true
  ↔ ∃ m, heap !! id = Some m
         ∧ Monster.is_dead m = false
         ∧ (Monster.flying m = true →
            Tower.is_archer_or_sniper (Tower.tower_type self) = true)
         ∧ Utils.distance_le (Utils.point (Tower.position self))
             (Monster.position m) (Tower.range self) = true.
Proof.
  unfold SingleTarget.in_reach. destruct (heap !! id) as [m|].
  - split.
    + intros Hr. exists m. split; [reflexivity|].
      destruct (Monster.is_dead m); [discriminate|]. split; [reflexivity|].
      destruct (Monster.flying m), (Tower.is_archer_or_sniper _);
        cbn [andb negb] in Hr; try discriminate; auto.
    + intros (m' & [= <-] & -> & Hfly & Hdist).
      destruct (Monster.flying m); cbn [andb]; [|exact Hdist].
      rewrite (Hfly eq_refl). exact Hdist.
  - split; [discriminate|]. intros (m & Hm & _). discriminate.
Qed.

(** X10: what [find_targets] leaves in [targets]: the monsters of the list
    that are alive, of a kind the tower can hit, and within its range,
    each as often as it is listed, and the closest first. *)
Theorem find_targets_closest_first (self : Tower.t) (heap : Heap) (monsters : list nat) :
  let targets := Tower.targets (SingleTarget.find_targets self heap monsters) in
  targets ≡ₚ filter (fun id => SingleTarget.in_reach self heap id = true) monsters
  ∧ (∀ id, id ∈ targets
           ↔ id ∈ monsters
             ∧ ∃ m, heap !! id = Some m
                    ∧ Monster.is_dead m = false
                    ∧ (Monster.flying m = true →
                       Tower.is_archer_or_sniper (Tower.tower_type self) = true)
                    ∧ Utils.distance_le (Utils.point (Tower.position self))
                        (Monster.position m) (Tower.range self) = true)
  ∧ TargetSpec.ordered (SingleTarget.sort_key self heap) targets
  ∧ (NoDup monsters → NoDup targets)
  ∧ (length targets ≤ length monsters)%nat.
Proof.
  cbv zeta.
  change (Tower.targets (SingleTarget.find_targets self heap monsters))
    with (SingleTarget.sort_by (SingleTarget.sort_key self heap)
            (filter (fun id => SingleTarget.in_reach self heap id = true) monsters)).
  pose proof (sort_by_perm (SingleTarget.sort_key self heap)
                (filter (fun id => SingleTarget.in_reach self heap id = true) monsters))
    as Hperm.
  split; [exact Hperm|]. split; [|split; [apply sort_by_ordered|split]].
  - intros id. rewrite Hperm, list_elem_of_filter, in_reach_spec. tauto.
  - intros Hnd. rewrite Hperm. apply list.NoDup_filter. exact Hnd.
  - rewrite Hperm. apply length_filter.
Qed.

(** ** The attack on a chosen target *)

Lemma take_damage_health amount m :
  Monster.health (Monster.take_damage amount m).2
  = TargetSpec.after_hit amount (Monster.health m).
Proof. reflexivity. Qed.

(** An attack on a target that is gone or dead does nothing. *)
Lemma attack_target_idle self target (heap : Heap) game_instances :
  (∀ tm, heap !! target = Some tm → Monster.is_dead tm = true) →
  SingleTarget.attack_target self target heap game_instances = (heap, game_instances).
Proof.
  intros Hdead. unfold SingleTarget.attack_target.
  destruct (heap !! target) as [tm|]; [|reflexivity].
  rewrite (Hdead tm eq_refl). reflexivity.
Qed.

(** An attack on a live target, seen on the health of every monster. *)
Lemma attack_target_health self target (heap : Heap) game_instances tm :
  heap !! target = Some tm →
  Monster.is_dead tm = false →
  let heap' := (SingleTarget.attack_target self target heap game_instances).1 in
  Monster.health <$> heap' !! target
  = Some (TargetSpec.after_hit (Tower.damage self) (Monster.health tm))
  ∧ (∀ id, id ≠ target → id ∉ Tower.targets self →
       Monster.health <$> heap' !! id = Monster.health <$> heap !! id)
  ∧ (Tower.splash_damage_enabled self
     && Py.Qcltb 0 (Tower.splash_damage_radius self) = false →
     ∀ id, id ≠ target →
       Monster.health <$> heap' !! id = Monster.health <$> heap !! id).
Proof.
  intros Htm Halive. cbv zeta. unfold SingleTarget.attack_target.
  rewrite Htm, Halive.
  pose proof (take_damage_health (Tower.damage self) tm) as Hhit.
  destruct (Monster.take_damage (Tower.damage self) tm) as [still_alive tm'].
  cbn [snd] in Hhit.
  assert (Htm' : (<[target := tm']> heap) !! target = Some tm')
    by apply lookup_insert_eq.
  destruct (Tower.splash_damage_enabled self
            && Py.Qcltb 0 (Tower.splash_damage_radius self)) eqn:Hsplash.
  - destruct (splash_loop self target tm' (Tower.targets self) _ [] Htm')
      as (Ht & Ho & _).
    destruct (foldl (SingleTarget.splash_round self target)
                (<[target := tm']> heap, []) (Tower.targets self))
      as [heap2 splash_targets].
    cbn [fst] in Ht, Ho.
    assert (Hall : ∀ id,
              Monster.health
              <$> (match (if negb still_alive then [target] else []) ++ splash_targets with
                   | [] => (heap2, game_instances)
                   | _ :: _ =>
                       SingleTarget.handle_killed
                         ((if negb still_alive then [target] else []) ++ splash_targets)
                         heap2 game_instances
                   end).1 !! id
              = Monster.health <$> heap2 !! id).
    { intros id.
      destruct ((if negb still_alive then [target] else []) ++ splash_targets);
        [reflexivity|apply handle_killed_health]. }
    split; [|split].
    + rewrite Hall, Ht. cbn [fmap option_fmap option_map]. rewrite Hhit. reflexivity.
    + intros id Hne Hout. rewrite Hall, (Ho id Hout).
      rewrite lookup_insert_ne by congruence. reflexivity.
    + discriminate.
  - assert (Hall : ∀ id,
              Monster.health
              <$> (match (if negb still_alive then [target] else []) ++ [] with
                   | [] => (<[target := tm']> heap, game_instances)
                   | _ :: _ =>
                       SingleTarget.handle_killed
                         ((if negb still_alive then [target] else []) ++ [])
                         (<[target := tm']> heap) game_instances
                   end).1 !! id
              = Monster.health <$> (<[target := tm']> heap) !! id).
    { intros id.
      destruct ((if negb still_alive then [target] else []) ++ []);
        [reflexivity|apply handle_killed_health]. }
    split; [|split].
    + rewrite Hall, Htm'. cbn [fmap option_fmap option_map]. rewrite Hhit. reflexivity.
    + intros id Hne _. rewrite Hall.
      rewrite lookup_insert_ne by congruence. reflexivity.
    + intros _ id Hne. rewrite Hall.
      rewrite lookup_insert_ne by congruence. reflexivity.
Qed.

End Targets.

(** * A tower's update *)

Section Attacks.
Context `{Externals}.

Lemma update_eq attack self dt (heap : Heap) monsters game_instances :
  BaseTower.update attack self dt heap monsters game_instances
  = let found :=
      Tower.set_attack_timer (Tower.attack_timer self + dt)%Qc
        (SingleTarget.find_targets self heap monsters) in
    if bool_decide (Tower.attack_speed self = 0%Qc) then BaseTower.ZeroDivisionError
    else if Py.Qcleb (1 / Tower.attack_speed self)%Qc (Tower.attack_timer self + dt)%Qc
            && negb (bool_decide
                       (Tower.targets (SingleTarget.find_targets self heap monsters) = []))
    then BaseTower.Returns (attack (Tower.set_attack_timer 0%Qc found) heap game_instances)
    else BaseTower.Returns (found, heap, game_instances).
Proof. reflexivity. Qed.

(** [ArcherTower.attack] on a tower that has targets. *)
Lemma archer_attack_first a (heap : Heap) game_instances first rest :
  Tower.targets a = first :: rest →
  ArcherTower.attack a heap game_instances
  = (Tower.set_current_target (Some first) a,
     (SingleTarget.attack_target (Tower.set_current_target (Some first) a) first heap
        game_instances).1,
     (SingleTarget.attack_target (Tower.set_current_target (Some first) a) first heap
        game_instances).2).
Proof.
  intros Ht. unfold ArcherTower.attack, SingleTarget.base_attack. rewrite Ht. cbv zeta.
  change (Tower.targets (Tower.set_current_target (Some first) a))
    with (Tower.targets a).
  rewrite Ht.
  destruct (SingleTarget.attack_target _ first heap game_instances). reflexivity.
Qed.

Lemma sniper_attack_first a (heap : Heap) game_instances first rest :
  Tower.targets a = first :: rest →
  SniperTower.attack a heap game_instances
  = (Tower.set_current_target (Some first) a,
     (SingleTarget.attack_target (Tower.set_current_target (Some first) a)
        (SniperTower.max_health heap first rest) heap game_instances).1,
     (SingleTarget.attack_target (Tower.set_current_target (Some first) a)
        (SniperTower.max_health heap first rest) heap game_instances).2).
Proof.
  intros Ht. unfold SniperTower.attack, SingleTarget.base_attack. rewrite Ht. cbv zeta.
  change (Tower.targets (Tower.set_current_target (Some first) a))
    with (Tower.targets a).
  rewrite Ht.
  destruct (SingleTarget.attack_target _ _ heap game_instances). reflexivity.
Qed.

(** [max(targets, key=...)] answers with a target, and none of the
    targets has more health. *)
Lemma max_health_spec (heap : Heap) rest :
  ∀ first,
    SniperTower.max_health heap first rest ∈ first :: rest
    ∧ ∀ id, id ∈ first :: rest →
        (SniperTower.health_of heap id
         ≤ SniperTower.health_of heap (SniperTower.max_health heap first rest))%Qc.
Proof.
  unfold SniperTower.max_health.
  induction rest as [|x rest IH]; intros first; cbn [foldl].
  - split; [constructor|]. intros id Hid.
    apply list_elem_of_singleton in Hid as ->. apply Qcle_refl.
  - destruct (Py.Qcltb (SniperTower.health_of heap first)
                (SniperTower.health_of heap x)) eqn:E; unfold Py.Qcltb in E.
    + apply bool_decide_eq_true in E. destruct (IH x) as [Hin Hmax]. split.
      * apply elem_of_cons in Hin as [Hin|Hin];
          [rewrite Hin; right; left|right; right; exact Hin].
      * intros id Hid. apply elem_of_cons in Hid as [->|Hid]; [|apply Hmax, Hid].
        eapply Qcle_trans; [apply Qclt_le_weak, E|]. apply Hmax. left.
    + apply bool_decide_eq_false in E. destruct (IH first) as [Hin Hmax]. split.
      * apply elem_of_cons in Hin as [Hin|Hin];
          [rewrite Hin; left|right; right; exact Hin].
      * intros id Hid. apply elem_of_cons in Hid as [->|Hid]; [apply Hmax; left|].
        apply elem_of_cons in Hid as [->|Hid]; [|apply Hmax; right; exact Hid].
        eapply Qcle_trans; [apply Qcnot_lt_le, E|]. apply Hmax. left.
Qed.

(** The first of the found targets is a closest monster in reach. *)
Lemma found_first_closest self (heap : Heap) monsters first rest :
  Tower.targets (SingleTarget.find_targets self heap monsters) = first :: rest →
  ∀ id, id ∈ monsters → SingleTarget.in_reach self heap id = true →
    (SingleTarget.sort_key self heap first ≤ SingleTarget.sort_key self heap id)%Qc.
Proof.
  intros Ht id Hid Hreach.
  destruct (find_targets_closest_first self heap monsters) as (Hperm & _ & Hord & _).
  cbv zeta in Hperm, Hord. rewrite Ht in Hperm, Hord.
  assert (Hin : id ∈ first :: rest).
  { rewrite Hperm. apply list_elem_of_filter. auto. }
  destruct Hord as [Hfirst _].
  apply elem_of_cons in Hin as [->|Hin]; [apply Qcle_refl|].
  rewrite list.Forall_forall in Hfirst. apply Hfirst, Hin.
Qed.

Lemma found_target_alive self (heap : Heap) monsters id :
  id ∈ Tower.targets (SingleTarget.find_targets self heap monsters) →
  id ∈ monsters
  ∧ SingleTarget.in_reach self heap id = true
  ∧ ∃ m, heap !! id = Some m ∧ Monster.is_dead m = false.
Proof.
  intros Hin.
  destruct (find_targets_closest_first self heap monsters) as (Hperm & _).
  cbv zeta in Hperm. rewrite Hperm in Hin.
  apply list_elem_of_filter in Hin as [Hreach Hin].
  split; [exact Hin|]. split; [exact Hreach|].
  apply in_reach_spec in Hreach as (m & Hm & Halive & _). eauto.
Qed.

(** X11: when the cooldown of an "Archer" tower has run out and a monster is
    in reach, the update shoots the closest monster in reach, which is
    alive: it loses the tower's damage, down to 0 at most.  No monster
    outside the list loses health, and without the splash effect no other
    monster at all.  The timer starts again from 0. *)
Theorem archer_update_hits_closest (self : Tower.t) (dt : Qc) (heap : Heap)
    (monsters : list nat) (game_instances : list (WaveManager.t * ResourceManager.t))
    (first : nat) (rest : list nat) :
  Tower.attack_speed self ≠ 0%Qc →
  (1 / Tower.attack_speed self ≤ Tower.attack_timer self + dt)%Qc →
  Tower.targets (SingleTarget.find_targets self heap monsters) = first :: rest →
  ∃ m t' heap' game_instances',
    BaseTower.update ArcherTower.attack self dt heap monsters game_instances
    = BaseTower.Returns (t', heap', game_instances')
    ∧ (first ∈ monsters ∧ heap !! first = Some m ∧ Monster.is_dead m = false
       ∧ SingleTarget.in_reach self heap first = true)
    ∧ (∀ id, id ∈ monsters → SingleTarget.in_reach self heap id = true →
         (SingleTarget.sort_key self heap first ≤ SingleTarget.sort_key self heap id)%Qc)
    ∧ Monster.health <$> heap' !! first
      = Some (TargetSpec.after_hit (Tower.damage self) (Monster.health m))
    ∧ (∀ id, id ∉ monsters →
         Monster.health <$> heap' !! id = Monster.health <$> heap !! id)
    ∧ (Tower.splash_damage_enabled self = false →
       ∀ id, id ≠ first →
         Monster.health <$> heap' !! id = Monster.health <$> heap !! id)
    ∧ Tower.attack_timer t' = 0%Qc
    ∧ Tower.current_target t' = Some first
    ∧ Tower.targets t' = first :: rest.
Proof.
  intros Hspeed Hcool Ht.
  assert (Hfirst : first ∈ Tower.targets (SingleTarget.find_targets self heap monsters))
    by (rewrite Ht; left).
  destruct (found_target_alive self heap monsters first Hfirst)
    as (Hin & Hreach & m & Hm & Halive).
  rewrite update_eq. cbv zeta.
  rewrite bool_decide_eq_false_2 by exact Hspeed.
  unfold Py.Qcleb. rewrite bool_decide_eq_true_2 by exact Hcool.
  rewrite Ht. rewrite bool_decide_eq_false_2 by discriminate. cbn [andb negb].
  rewrite (archer_attack_first
             (Tower.set_attack_timer 0%Qc
                (Tower.set_attack_timer (Tower.attack_timer self + dt)%Qc
                   (SingleTarget.find_targets self heap monsters)))
             heap game_instances first rest Ht).
  match goal with
  | |- context [SingleTarget.attack_target ?a first heap game_instances] =>
      destruct (attack_target_health a first heap game_instances m Hm Halive)
        as (Hhit & Hout & Hplain)
  end.
  eexists m, _, _, _. split; [reflexivity|].
  split; [auto|].
  split; [exact (found_first_closest self heap monsters first rest Ht)|].
  split; [exact Hhit|]. split; [|split; [|repeat split]].
  - intros id Hid. apply Hout.
    + intros ->. contradiction.
    + intros Hmem.
      destruct (found_target_alive self heap monsters id Hmem) as [Hmon _].
      contradiction.
  - intros Hoff. apply Hplain.
    change (Tower.splash_damage_enabled self = false) in Hoff.
    exact (andb_false_intro1 _ _ Hoff).
  - exact Ht.
Qed.

(** X12: when the cooldown of a "Sniper" tower has run out and a monster is
    in reach, the update shoots a monster in reach of which none in reach
    has more health; it loses the tower's damage, down to 0 at most.  The
    target remembered for the animation is the closest monster all the
    same. *)
Theorem sniper_update_hits_strongest (self : Tower.t) (dt : Qc) (heap : Heap)
    (monsters : list nat) (game_instances : list (WaveManager.t * ResourceManager.t))
    (first : nat) (rest : list nat) :
  Tower.attack_speed self ≠ 0%Qc →
  (1 / Tower.attack_speed self ≤ Tower.attack_timer self + dt)%Qc →
  Tower.targets (SingleTarget.find_targets self heap monsters) = first :: rest →
  ∃ target m t' heap' game_instances',
    BaseTower.update SniperTower.attack self dt heap monsters game_instances
    = BaseTower.Returns (t', heap', game_instances')
    ∧ (target ∈ monsters ∧ heap !! target = Some m ∧ Monster.is_dead m = false
       ∧ SingleTarget.in_reach self heap target = true)
    ∧ (∀ id m', id ∈ monsters → SingleTarget.in_reach self heap id = true →
         heap !! id = Some m' → (Monster.health m' ≤ Monster.health m)%Qc)
    ∧ Monster.health <$> heap' !! target
      = Some (TargetSpec.after_hit (Tower.damage self) (Monster.health m))
    ∧ (∀ id, id ∉ monsters →
         Monster.health <$> heap' !! id = Monster.health <$> heap !! id)
    ∧ (Tower.splash_damage_enabled self = false →
       ∀ id, id ≠ target →
         Monster.health <$> heap' !! id = Monster.health <$> heap !! id)
    ∧ Tower.attack_timer t' = 0%Qc
    ∧ Tower.current_target t' = Some first.
Proof.
  intros Hspeed Hcool Ht.
  destruct (max_health_spec heap rest first) as [Hmem Hmax].
  assert (Htarget : SniperTower.max_health heap first rest
                    ∈ Tower.targets (SingleTarget.find_targets self heap monsters))
    by (rewrite Ht; exact Hmem).
  destruct (found_target_alive self heap monsters _ Htarget)
    as (Hin & Hreach & m & Hm & Halive).
  rewrite update_eq. cbv zeta.
  rewrite bool_decide_eq_false_2 by exact Hspeed.
  unfold Py.Qcleb. rewrite bool_decide_eq_true_2 by exact Hcool.
  rewrite Ht. rewrite bool_decide_eq_false_2 by discriminate. cbn [andb negb].
  rewrite (sniper_attack_first
             (Tower.set_attack_timer 0%Qc
                (Tower.set_attack_timer (Tower.attack_timer self + dt)%Qc
                   (SingleTarget.find_targets self heap monsters)))
             heap game_instances first rest Ht).
  match goal with
  | |- context [SingleTarget.attack_target ?a ?target heap game_instances] =>
      destruct (attack_target_health a target heap game_instances m Hm Halive)
        as (Hhit & Hout & Hplain)
  end.
  eexists (SniperTower.max_health heap first rest), m, _, _, _.
  split; [reflexivity|]. split; [auto|]. split; [|split; [exact Hhit|]].
  - intros id m' Hid Hidreach Hm'.
    assert (Hidin : id ∈ first :: rest).
    { destruct (find_targets_closest_first self heap monsters) as (Hperm & _).
      cbv zeta in Hperm. rewrite Ht in Hperm. rewrite Hperm.
      apply list_elem_of_filter. auto. }
    specialize (Hmax id Hidin). unfold SniperTower.health_of in Hmax.
    rewrite Hm', Hm in Hmax. exact Hmax.
  - split; [|split; [|repeat split]].
    + intros id Hid. apply Hout.
      * intros ->. contradiction.
      * intros Hidmem.
        destruct (found_target_alive self heap monsters id Hidmem) as [Hmon _].
        contradiction.
    + intros Hoff. apply Hplain.
      change (Tower.splash_damage_enabled self = false) in Hoff.
      exact (andb_false_intro1 _ _ Hoff).
Qed.

End Attacks.

(** * Between two shots *)

Section Cooldown.
Context `{Externals}.







End Cooldown.

(** * Where a tower stands *)

Section Footprints.
Context `{Externals}.

(** A rectangle that is not empty collides with itself. *)
Lemma colliderect_self r :
  Rect.width r ≠ 0 → Rect.height r ≠ 0 → Rect.colliderect r r = true.
Proof.
  intros Hw Hh. unfold Rect.colliderect.
  destruct (Z.eqb_spec (Rect.width r) 0) as [|_]; [contradiction|].
  destruct (Z.eqb_spec (Rect.height r) 0) as [|_]; [contradiction|].
  cbn [orb].
  assert (Hx : (Z.min (Rect.left r) (Rect.left r + Rect.width r)
                <? Z.max (Rect.left r) (Rect.left r + Rect.width r)) = true)
    by (apply Z.ltb_lt; lia).
  assert (Hy : (Z.min (Rect.top r) (Rect.top r + Rect.height r)
                <? Z.max (Rect.top r) (Rect.top r + Rect.height r)) = true)
    by (apply Z.ltb_lt; lia).
  rewrite Hx, Hy. reflexivity.
Qed.

Lemma place_tower_refused g position :
  Game.is_valid_tower_position g position = false →
  Game.place_tower g position = Ok (false, g).
Proof.
  intros Hinvalid. unfold Game.place_tower.
  destruct (TowerPlacementState.tower_type (Game.tower_placement_state g));
    [|reflexivity].
  destruct (negb (Py.truthy _)); [reflexivity|].
  rewrite Hinvalid. reflexivity.
Qed.

Lemma set_current_target_rect target t :
  Tower.rect (Tower.set_current_target target t) = Tower.rect t.
Proof. destruct t. reflexivity. Qed.

Lemma base_attack_rect t : Tower.rect (SingleTarget.base_attack t) = Tower.rect t.
Proof.
  unfold SingleTarget.base_attack.
  destruct (Tower.targets t); [reflexivity|apply set_current_target_rect].
Qed.

Lemma archer_attack_rect t (heap : Heap) game_instances :
  Tower.rect (ArcherTower.attack t heap game_instances).1.1 = Tower.rect t.
Proof.
  unfold ArcherTower.attack. cbv zeta.
  destruct (Tower.targets (SingleTarget.base_attack t)) as [|target rest];
    [apply base_attack_rect|].
  destruct (SingleTarget.attack_target _ target heap game_instances).
  apply base_attack_rect.
Qed.

Lemma sniper_attack_rect t (heap : Heap) game_instances :
  Tower.rect (SniperTower.attack t heap game_instances).1.1 = Tower.rect t.
Proof.
  unfold SniperTower.attack. cbv zeta.
  destruct (Tower.targets (SingleTarget.base_attack t)) as [|first rest];
    [apply base_attack_rect|].
  destruct (SingleTarget.attack_target _ _ heap game_instances).
  apply base_attack_rect.
Qed.

(** An update leaves a tower on its ground, whatever its attack does to
    the monsters. *)
Lemma update_rect attack t dt (heap : Heap) monsters game_instances r :
  (∀ a h g, Tower.rect (attack a h g).1.1 = Tower.rect a) →
  BaseTower.update attack t dt heap monsters game_instances = BaseTower.Returns r →
  Tower.rect r.1.1 = Tower.rect t.
Proof.
  intros Hattack. rewrite update_eq. cbv zeta.
  assert (Hfound : Tower.rect
                     (Tower.set_attack_timer (Tower.attack_timer t + dt)%Qc
                        (SingleTarget.find_targets t heap monsters))
                   = Tower.rect t)
    by (destruct t; reflexivity).
  revert Hfound.
  generalize (Tower.set_attack_timer (Tower.attack_timer t + dt)%Qc
                (SingleTarget.find_targets t heap monsters)).
  intros found Hfound.
  destruct (bool_decide _); [discriminate|].
  destruct (_ && _); intros [= <-].
  - rewrite Hattack. rewrite <- Hfound. destruct found. reflexivity.
  - exact Hfound.
Qed.

Lemma same_build_rect a b : UpgradeSpec.same_build a b → Tower.rect a = Tower.rect b.
Proof. intros (_ & _ & Hrect & _). exact Hrect. Qed.

Lemma apply_item_effects_rect t : Tower.rect (Tower.apply_item_effects t) = Tower.rect t.
Proof. apply same_build_rect, apply_item_effects_build. Qed.

(** Every step of a tower leaves it on its ground. *)
Lemma tower_step_rect tower tower' :
  GroundSpec.tower_step tower tower' → Tower.rect tower' = Tower.rect tower.
Proof.
  intros [t dt heap monsters gis r Hr|t dt heap monsters gis r Hr
          |t rm|t rm|t rm|t item slot_index rm|t slot_index rm].
  - apply (update_rect ArcherTower.attack t dt heap monsters gis r);
      [apply archer_attack_rect|exact Hr].
  - apply (update_rect SniperTower.attack t dt heap monsters gis r);
      [apply sniper_attack_rect|exact Hr].
  - destruct (Tower.upgrade_damage t rm).1.1 eqn:Hdone.
    + rewrite (upgrade_damage_success t rm Hdone), apply_item_effects_rect.
      destruct t. reflexivity.
    + revert Hdone. unfold Tower.upgrade_damage.
      destruct (negb _ || _); [reflexivity|].
      destruct (ResourceManager.spend_resources _ _) as [[] rm'];
        [discriminate|reflexivity].
  - destruct (Tower.upgrade_attack_speed t rm).1.1 eqn:Hdone.
    + rewrite (upgrade_attack_speed_success t rm Hdone), apply_item_effects_rect.
      destruct t. reflexivity.
    + revert Hdone. unfold Tower.upgrade_attack_speed.
      destruct (negb _ || _); [reflexivity|].
      destruct (ResourceManager.spend_resources _ _) as [[] rm'];
        [discriminate|reflexivity].
  - destruct (Tower.upgrade_range t rm).1.1 eqn:Hdone.
    + rewrite (upgrade_range_success t rm Hdone), apply_item_effects_rect.
      destruct t. reflexivity.
    + revert Hdone. unfold Tower.upgrade_range.
      destruct (negb _ || _); [reflexivity|].
      destruct (ResourceManager.spend_resources _ _) as [[] rm'];
        [discriminate|reflexivity].
  - rewrite add_item_tower. destruct (ItemSpec.in_range t slot_index); [|reflexivity].
    cbn [snd]. rewrite apply_item_effects_rect. destruct t. reflexivity.
  - rewrite remove_item_tower. destruct (_ && _); [|reflexivity].
    cbn [snd]. rewrite apply_item_effects_rect. destruct t. reflexivity.
Qed.

(** While the game keeps its towers, every tower it had has a tower on
    its ground. *)
Lemma later_towers_same_ground towers towers' :
  GroundSpec.later_towers towers towers' → GroundSpec.same_ground towers towers'.
Proof.
  induction 1 as [|towers' i tower tower' _ IH Hi Hstep|towers' tower _ IH];
    intros t Hin.
  - exists t. auto.
  - destruct (IH t Hin) as (t' & Hin' & Hrect).
    apply list_elem_of_lookup in Hin' as [j Hj].
    destruct (decide (j = i)) as [->|Hne].
    + exists tower'. split.
      * apply list_elem_of_lookup. exists i.
        apply list_lookup_insert_eq. eapply lookup_lt_Some, Hi.
      * rewrite (tower_step_rect tower tower' Hstep).
        rewrite Hi in Hj. injection Hj as ->. exact Hrect.
    + exists t'. split; [|exact Hrect].
      apply list_elem_of_lookup. exists j.
      rewrite list_lookup_insert_ne by congruence. exact Hj.
  - destruct (IH t Hin) as (t' & Hin' & Hrect).
    exists t'. split; [apply elem_of_app; left; exact Hin'|exact Hrect].
Qed.

(** X14: a placed tower blocks its spot.  Once a placement at a position
    has gone through, that position is no longer valid in any state of
    the game in which every tower of that moment still has a tower on its
    ground, and a further placement there is refused and changes nothing,
    whatever tower is pending.  Such are the states in which the towers
    have been updated, have attacked, have been upgraded or have had
    items put in or taken out, and in which more towers have been
    placed. *)
Theorem placed_tower_blocks_its_spot (g g' : Game.t) (position : Z * Z) :
  Game.place_tower g position = Ok (true, g') →
  (scale_size (40, 40)).1 ≠ 0 →
  (scale_size (40, 40)).2 ≠ 0 →
  (∀ later,
     GroundSpec.same_ground (Game.towers g') (Game.towers later) →
     Game.is_valid_tower_position later position = false
     ∧ Game.place_tower later position = Ok (false, later))
  ∧ (∀ later,
       GroundSpec.later_towers (Game.towers g') (Game.towers later) →
       GroundSpec.same_ground (Game.towers g') (Game.towers later)
       ∧ Game.is_valid_tower_position later position = false
       ∧ Game.place_tower later position = Ok (false, later))
  ∧ (∀ tower tower',
       GroundSpec.tower_step tower tower' → Tower.rect tower' = Tower.rect tower).
Proof.
  intros Hplaced Hw Hh.
  assert (Htower : ∃ tower tower_type,
            TowerFactory.create_tower tower_type position = Ok tower
            ∧ tower ∈ Game.towers g').
  { revert Hplaced. unfold Game.place_tower.
    destruct (TowerPlacementState.tower_type (Game.tower_placement_state g))
      as [tower_type|]; [|discriminate].
    destruct (negb (Py.truthy _)); [discriminate|].
    destruct (negb (Game.is_valid_tower_position g position)); [discriminate|].
    destruct (ResourceManager.spend_resources_for_tower _ _ _) as [[] rm];
      [|discriminate].
    destruct (TowerFactory.create_tower tower_type position) as [tower|e] eqn:Hmade;
      [|discriminate].
    intros [= <-]. exists tower, tower_type. split; [exact Hmade|].
    change (tower ∈ Game.towers g ++ [tower]).
    apply elem_of_app. right. constructor. }
  destruct Htower as (tower & tower_type & Hmade & Hin).
  assert (Hblocked : ∀ later,
            GroundSpec.same_ground (Game.towers g') (Game.towers later) →
            Game.is_valid_tower_position later position = false
            ∧ Game.place_tower later position = Ok (false, later)).
  { intros later Hkeeps.
    assert (Hinvalid : Game.is_valid_tower_position later position = false).
    { unfold Game.is_valid_tower_position. cbv zeta.
      destruct (negb (is_position_within_castle _ _)); [reflexivity|].
      destruct (existsb _ (Game.buildings later)); [reflexivity|].
      fold (PlacementSpec.footprint position).
      assert (Hhit : existsb
                       (fun tower =>
                          Rect.colliderect (PlacementSpec.footprint position)
                            (Tower.rect tower))
                       (Game.towers later) = true).
      { destruct (Hkeeps tower Hin) as (tower' & Hin' & Hrect).
        apply existsb_exists. exists tower'. split.
        - apply list_elem_of_In, Hin'.
        - rewrite Hrect.
          rewrite (proj1 (create_tower_rect tower_type position tower Hmade)).
          apply colliderect_self; assumption. }
      rewrite Hhit. reflexivity. }
    split; [exact Hinvalid|apply place_tower_refused; exact Hinvalid]. }
  split; [exact Hblocked|]. split; [|exact tower_step_rect].
  intros later Hlater.
  pose proof (later_towers_same_ground _ _ Hlater) as Hkeeps.
  split; [exact Hkeeps|apply Hblocked; exact Hkeeps].
Qed.

End Footprints.

(** * The pause menu *)

Section PauseMenu.

Lemma pause_handle_key_in_range selected key :
  0 ≤ selected < 3 →
  ∃ handled selected' effect,
    PausedState.handle_key selected key = Some (handled, selected', effect)
    ∧ 0 ≤ selected' < 3.
Proof.
  intros Hs.
  assert (Hcases : selected = 0 ∨ selected = 1 ∨ selected = 2) by lia.
  destruct key; cbn [PausedState.handle_key].
  - eauto.
  - eexists _, _, _. split; [reflexivity|].
    change (Z.of_nat (length PausedState.menu_options)) with 3.
    apply Z.mod_pos_bound. lia.
  - eexists _, _, _. split; [reflexivity|].
    change (Z.of_nat (length PausedState.menu_options)) with 3.
    apply Z.mod_pos_bound. lia.
  - destruct Hcases as [-> | [-> | ->]]; cbn; eauto.
  - destruct Hcases as [-> | [-> | ->]]; cbn; eauto.
  - eauto.
Qed.

Lemma pause_handle_events_in_range events :
  ∀ selected,
    0 ≤ selected < 3 →
    ∃ handled selected' effect,
      PausedState.handle_events selected events = Some (handled, selected', effect)
      ∧ 0 ≤ selected' < 3.
Proof.
  induction events as [|key events IH]; intros selected Hs.
  - cbn. eauto.
  - destruct key; cbn [PausedState.handle_events];
      try (apply pause_handle_key_in_range; exact Hs).
    apply IH. exact Hs.
Qed.

(** X15: the selection of the pause menu never leaves the menu: from an
    index of one of the three entries, after any key presses in any
    number of calls, it is again such an index, and activating an entry
    never fails with [IndexError].  Up and Down wrap around and undo each
    other, and activating "Exit to Menu" does nothing. *)
Theorem pause_menu_selection_stays_in_menu (selected : Z)
    (frames : list (list PausedState.Key)) :
  0 ≤ selected < 3 →
  (∃ final effects,
     PausedState.handle_frames selected frames = Some (final, effects)
     ∧ 0 ≤ final < 3
     ∧ length effects = length frames)
  ∧ PausedState.handle_frames selected [[PausedState.K_DOWN]; [PausedState.K_UP]]
    = Some (selected, [PausedState.Nothing; PausedState.Nothing])
  ∧ PausedState.handle_frames selected [[PausedState.K_UP]; [PausedState.K_DOWN]]
    = Some (selected, [PausedState.Nothing; PausedState.Nothing])
  ∧ PausedState.handle_events 2 [PausedState.K_DOWN] = Some (true, 0, PausedState.Nothing)
  ∧ PausedState.handle_events 0 [PausedState.K_UP] = Some (true, 2, PausedState.Nothing)
  ∧ (∀ key, key = PausedState.K_RETURN ∨ key = PausedState.K_SPACE →
       PausedState.handle_events selected [key]
       = Some (true, selected,
               if selected =? 0 then PausedState.Resume
               else if selected =? 1 then PausedState.Save
               else PausedState.Nothing)).
Proof.
  intros Hs.
  assert (Hcases : selected = 0 ∨ selected = 1 ∨ selected = 2) by lia.
  split; [|split; [|split; [|split; [|split]]]].
  - revert selected Hs Hcases.
    induction frames as [|events frames IH]; intros selected Hs _.
    + exists selected, []. auto.
    + cbn [PausedState.handle_frames].
      destruct (pause_handle_events_in_range events selected Hs)
        as (handled & selected' & effect & -> & Hs').
      destruct (IH selected' Hs') as (final & effects & -> & Hfinal & Hlen); [lia|].
      exists final, (effect :: effects). cbn [length]. auto.
  - destruct Hcases as [-> | [-> | ->]]; reflexivity.
  - destruct Hcases as [-> | [-> | ->]]; reflexivity.
  - reflexivity.
  - reflexivity.
  - intros key [-> | ->]; destruct Hcases as [-> | [-> | ->]]; reflexivity.
Qed.

End PauseMenu.

(** * The save directory *)

Section SaveDirectory.

(** ** The order of file names *)

Lemma ascii_compare_trans a b c :
  Ascii.compare a b = Lt → Ascii.compare b c = Lt → Ascii.compare a c = Lt.
Proof.
  unfold Ascii.compare. rewrite !N.compare_lt_iff. apply N.lt_trans.
Qed.

Lemma string_compare_refl s : String.compare s s = Eq.
Proof.
  pose proof (String.compare_antisym s s) as E.
  destruct (String.compare s s); cbn in E; congruence.
Qed.

Lemma string_compare_trans a :
  ∀ b c, String.compare a b = Lt → String.compare b c = Lt → String.compare a c = Lt.
Proof.
  induction a as [|x a IH]; intros [|y b] [|z c]; cbn [String.compare];
    try congruence.
  destruct (Ascii.compare x y) eqn:Exy; try discriminate;
    destruct (Ascii.compare y z) eqn:Eyz; try discriminate.
  - apply Ascii.compare_eq_iff in Exy, Eyz. subst.
    assert (Ezz : Ascii.compare z z = Eq).
    { pose proof (Ascii.compare_antisym z z) as E.
      destruct (Ascii.compare z z); cbn in E; congruence. }
    rewrite Ezz. apply IH.
  - apply Ascii.compare_eq_iff in Exy. subst. rewrite Eyz. reflexivity.
  - apply Ascii.compare_eq_iff in Eyz. subst. rewrite Exy. reflexivity.
  - rewrite (ascii_compare_trans x y z Exy Eyz). reflexivity.
Qed.

Lemma ltb_trans a b c :
  String.ltb a b = true → String.ltb b c = true → String.ltb a c = true.
Proof.
  unfold String.ltb. intros Hab Hbc.
  destruct (String.compare a b) eqn:Eab; try discriminate.
  destruct (String.compare b c) eqn:Ebc; try discriminate.
  rewrite (string_compare_trans a b c Eab Ebc). reflexivity.
Qed.

Lemma ltb_asym a b : String.ltb a b = true → String.ltb b a = false.
Proof.
  unfold String.ltb. rewrite (String.compare_antisym a b).
  destruct (String.compare b a); cbn; congruence.
Qed.

Lemma ltb_total a b : String.ltb a b = false → a ≠ b → String.ltb b a = true.
Proof.
  unfold String.ltb. intros Hab Hne.
  pose proof (String.compare_eq_iff a b) as Heq.
  rewrite (String.compare_antisym a b) in Hab, Heq.
  destruct (String.compare b a); cbn in Hab, Heq; try congruence.
  exfalso. apply Hne, Heq. reflexivity.
Qed.

(** ** The sort *)

Lemma save_insert_perm x l : SaveFiles.insert x l ≡ₚ x :: l.
Proof.
  induction l as [|y l IH]; cbn [SaveFiles.insert]; [reflexivity|].
  destruct (String.ltb x y); [reflexivity|].
  rewrite IH. apply perm_swap.
Qed.

Lemma save_sort_perm l : SaveFiles.sort l ≡ₚ l.
Proof.
  unfold SaveFiles.sort.
  assert (Hgen : ∀ sorted,
            foldl (fun sorted x => SaveFiles.insert x sorted) sorted l ≡ₚ l ++ sorted).
  { induction l as [|x l IH]; intros sorted; cbn [foldl]; [reflexivity|].
    rewrite IH, save_insert_perm. cbn [app].
    symmetry. apply Permutation_middle. }
  rewrite Hgen, app_nil_r. reflexivity.
Qed.

Lemma save_insert_ordered x l :
  SaveSpec.ascending l → SaveSpec.ascending (SaveFiles.insert x l).
Proof.
  induction l as [|y l IH]; cbn [SaveFiles.insert SaveSpec.ascending].
  - intros _. split; [constructor|exact I].
  - intros [Hy Hl].
    destruct (String.ltb x y) eqn:Hxy; cbn [SaveSpec.ascending].
    + split; [|split; assumption].
      constructor; [apply ltb_asym; exact Hxy|].
      eapply list.Forall_impl; [exact Hy|]. cbn beta. intros z Hz.
      destruct (String.ltb z x) eqn:Hzx; [|reflexivity].
      rewrite (ltb_trans z x y Hzx Hxy) in Hz. discriminate.
    + split; [|apply IH; exact Hl].
      rewrite save_insert_perm. constructor; assumption.
Qed.

Lemma save_sort_ordered l : SaveSpec.ascending (SaveFiles.sort l).
Proof.
  unfold SaveFiles.sort.
  assert (Hgen : ∀ sorted,
            SaveSpec.ascending sorted →
            SaveSpec.ascending
              (foldl (fun sorted x => SaveFiles.insert x sorted) sorted l)).
  { induction l as [|x l IH]; intros sorted Hs; cbn [foldl]; [exact Hs|].
    apply IH, save_insert_ordered, Hs. }
  apply Hgen. exact I.
Qed.

Lemma ordered_app l1 :
  ∀ l2, SaveSpec.ascending (l1 ++ l2) →
    ∀ f g, f ∈ l1 → g ∈ l2 → String.ltb g f = false.
Proof.
  induction l1 as [|x l1 IH]; intros l2 Hord f g Hf Hg.
  - apply elem_of_nil in Hf. contradiction.
  - cbn [app SaveSpec.ascending] in Hord. destruct Hord as [Hx Hrest].
    apply elem_of_cons in Hf as [->|Hf]; [|exact (IH l2 Hrest f g Hf Hg)].
    rewrite list.Forall_forall in Hx. apply Hx, elem_of_app. right. exact Hg.
Qed.

(** ** Cleaning up *)

(** X16: after [clean_old_saves], of a directory that lists every name once:
    the files that are no save files are all still there, and of the save
    files the [max_saves] with the largest names, or all if there are no
    more than that; every save file that was removed has a smaller name
    than every save file that was kept.  Nothing is added, and the order
    of the listing stays. *)
Theorem clean_old_saves_keeps_newest (max_saves : nat) (directory : list string) :
  NoDup directory →
  let kept := SaveFiles.clean_old_saves max_saves directory in
  let saves l := filter (fun f => SaveFiles.endswith f ".save" = true) l in
  kept `sublist_of` directory
  ∧ (∀ f, f ∈ directory → SaveFiles.endswith f ".save" = false → f ∈ kept)
  ∧ length (saves kept) = (max_saves `min` length (saves directory))%nat
  ∧ ((length (saves directory) ≤ max_saves)%nat → kept = directory)
  ∧ (∀ f g, f ∈ directory → f ∉ kept → g ∈ saves kept →
       SaveFiles.endswith f ".save" = true ∧ String.ltb f g = true).
Proof.
  intros Hnd. cbv zeta. unfold SaveFiles.clean_old_saves. cbv zeta.
  set (listed := filter (fun f => SaveFiles.endswith f ".save" = true) directory).
  pose proof (save_sort_perm listed) as Hperm.
  pose proof (save_sort_ordered listed) as Hord.
  assert (Hlen : length (SaveFiles.sort listed) = length listed)
    by (apply Permutation_length; exact Hperm).
  assert (Hndl : NoDup (SaveFiles.sort listed)).
  { rewrite Hperm. apply list.NoDup_filter. exact Hnd. }
  set (sorted := SaveFiles.sort listed) in *.
  rewrite Hlen.
  destruct (Nat.ltb_spec max_saves (length listed)) as [Hmore|Hfew].
  - set (k := (length listed - max_saves)%nat).
    assert (Hsplit : sorted = take k sorted ++ drop k sorted)
      by (symmetry; apply take_drop).
    assert (Hdisjoint : ∀ f, f ∈ take k sorted → f ∉ drop k sorted).
    { rewrite Hsplit in Hndl. apply list.NoDup_app in Hndl as (_ & Hd & _). exact Hd. }
    assert (Hsave : ∀ f, f ∈ sorted ↔ SaveFiles.endswith f ".save" = true ∧ f ∈ directory).
    { intros f. rewrite Hperm. unfold listed. rewrite list_elem_of_filter. reflexivity. }
    assert (Hkept : ∀ g,
              g ∈ filter (fun f => SaveFiles.endswith f ".save" = true)
                    (filter (fun f => f ∉ take k sorted) directory)
              ↔ g ∈ drop k sorted).
    { intros g. rewrite !list_elem_of_filter. split.
      - intros (Hg & Hout & Hin).
        assert (Hgs : g ∈ sorted) by (apply Hsave; auto).
        rewrite Hsplit in Hgs. apply elem_of_app in Hgs as [Hgs|Hgs];
          [contradiction|exact Hgs].
      - intros Hg.
        assert (Hgs : g ∈ sorted) by (rewrite Hsplit; apply elem_of_app; auto).
        apply Hsave in Hgs as [Hgsave Hgin].
        split; [exact Hgsave|]. split; [|exact Hgin].
        intros Hgt. exact (Hdisjoint g Hgt Hg). }
    split; [apply sublist_filter|]. split; [|split; [|split]].
    + intros f Hf Hno. apply list_elem_of_filter. split; [|exact Hf].
      intros Hrem.
      assert (Hfs : f ∈ sorted) by (rewrite Hsplit; apply elem_of_app; auto).
      apply Hsave in Hfs as [Hfsave _]. congruence.
    + assert (Hpk : filter (fun f => SaveFiles.endswith f ".save" = true)
                      (filter (fun f => f ∉ take k sorted) directory)
                    ≡ₚ drop k sorted).
      { apply NoDup_Permutation.
        - apply list.NoDup_filter, list.NoDup_filter. exact Hnd.
        - rewrite Hsplit in Hndl. apply list.NoDup_app in Hndl as (_ & _ & Hd).
          exact Hd.
        - exact Hkept. }
      rewrite (Permutation_length Hpk), length_drop. fold sorted in Hlen.
      rewrite Hlen. unfold k. lia.
    + intros Hle. exfalso. fold listed in Hle. lia.
    + intros f g Hf Hgone Hg.
      assert (Hrem : f ∈ take k sorted).
      { destruct (decide (f ∈ take k sorted)) as [Hyes|Hno]; [exact Hyes|].
        exfalso. apply Hgone, list_elem_of_filter. auto. }
      assert (Hfs : f ∈ sorted) by (rewrite Hsplit; apply elem_of_app; auto).
      apply Hsave in Hfs as [Hfsave _]. split; [exact Hfsave|].
      apply Hkept in Hg.
      rewrite Hsplit in Hord.
      pose proof (ordered_app _ _ Hord f g Hrem Hg) as Hge.
      apply ltb_total; [exact Hge|].
      intros ->. exact (Hdisjoint f Hrem Hg).
  - split; [reflexivity|]. split; [auto|]. split; [|split].
    + fold listed. lia.
    + reflexivity.
    + intros f g Hf Hgone. contradiction.
Qed.

End SaveDirectory.

(** * Towers read back from a save *)

Section Loading.
Context `{Externals}.

Lemma factory_type_names tower_type position made :
  TowerFactory.create_tower tower_type position = Ok made →
  String.eqb tower_type "SplashTower" = false
  ∧ String.eqb tower_type "FrozenTower" = false.
Proof.
  unfold TowerFactory.create_tower.
  destruct (String.eqb_spec tower_type "Archer") as [->|_];
    [intros _; split; reflexivity|].
  destruct (String.eqb_spec tower_type "Sniper") as [->|_];
    [intros _; split; reflexivity|].
  destruct (String.eqb_spec tower_type "Splash") as [->|_];
    [intros _; split; reflexivity|].
  destruct (String.eqb_spec tower_type "Frozen") as [->|_];
    [intros _; split; reflexivity|].
  discriminate.
Qed.

(** X17: reading back a tower saved under a type name of the factory: the
    level, the derived damage, attack speed and range and the slots are
    taken from the save, while the base values and the levels of the
    three upgrade paths are those of a newly built tower.  The keys of
    the area and the slow variant are never read.  The damage and attack
    speed taken from the save therefore last only until the derived stats
    are next computed, which sets them back to the base values of a new
    tower. *)
Theorem deserialize_tower_restores_derived_stats_only
    (tower_data : SaveManager.TowerData) (made : Tower.t)
    (aoe_radius slow_effect slow_duration : option Qc) :
  TowerFactory.create_tower (SaveManager.type tower_data) (SaveManager.position tower_data)
  = Ok made →
  ∃ tower,
    SaveManager.deserialize_tower tower_data = Ok tower
    ∧ SaveManager.deserialize_tower
        (SaveManager.mkTowerData (SaveManager.type tower_data)
           (SaveManager.position tower_data) (SaveManager.level tower_data)
           (SaveManager.damage tower_data) (SaveManager.attack_speed tower_data)
           (SaveManager.range tower_data) (SaveManager.item_slots tower_data)
           aoe_radius slow_effect slow_duration)
      = Ok tower
    ∧ (Tower.level tower = SaveManager.level tower_data
       ∧ Tower.damage tower = SaveManager.damage tower_data
       ∧ Tower.attack_speed tower = SaveManager.attack_speed tower_data
       ∧ Tower.range tower = SaveManager.range tower_data
       ∧ Tower.item_slots tower = SaveManager.item_slots tower_data)
    ∧ (Tower.base_damage tower = Tower.base_damage made
       ∧ Tower.base_attack_speed tower = Tower.base_attack_speed made
       ∧ Tower.base_range tower = Tower.base_range made
       ∧ Tower.damage_level tower = Tower.damage_level made
       ∧ Tower.attack_speed_level tower = Tower.attack_speed_level made
       ∧ Tower.range_level tower = Tower.range_level made
       ∧ Tower.aoe_radius tower = Tower.aoe_radius made
       ∧ Tower.slow_effect tower = Tower.slow_effect made
       ∧ Tower.splash_damage_enabled tower = Tower.splash_damage_enabled made)
    ∧ Tower.damage (Tower.apply_item_effects tower) = Tower.base_damage made
    ∧ Tower.attack_speed (Tower.apply_item_effects tower) = Tower.base_attack_speed made.
Proof.
  destruct tower_data as [ty pos lv dmg spd rng slots aoe se sd].
  cbn [SaveManager.type SaveManager.position SaveManager.level SaveManager.damage
       SaveManager.attack_speed SaveManager.range SaveManager.item_slots].
  intros Hmade.
  destruct (factory_type_names ty pos made Hmade) as [Hsplash Hfrozen].
  unfold SaveManager.deserialize_tower.
  cbn [SaveManager.type SaveManager.position SaveManager.level SaveManager.damage
       SaveManager.attack_speed SaveManager.range SaveManager.item_slots
       SaveManager.aoe_radius SaveManager.slow_effect SaveManager.slow_duration].
  cbv zeta. rewrite Hmade, Hsplash, Hfrozen. cbn [andb].
  eexists. split; [reflexivity|]. split; [reflexivity|].
  split; [repeat split|]. split; [repeat split|].
  match goal with |- context [Tower.apply_item_effects ?x] =>
    destruct (apply_item_effects_view x) as ((_ & Hdmg & Hspd) & _)
  end.
  rewrite Hdmg, Hspd. split; reflexivity.
Qed.

End Loading.

(** * More theorems at work *)

Section MoreExamples.
#[local] Existing Instance Reference.externals.

(** The first wave, two seconds in: the first monster has been spawned
    into the empty store. *)
Lemma update_keeps_monsters_distinct_witness :
  let wm := snd (WaveManager.start_next_wave WaveManager.init) in
  let r :=
    WaveManager.update (Qc_of_Z 2) (WaveManager.mkDraws 100 1) wm ∅
      Reference.castle None in
  SpawnSpec.well_formed wm ∅
  ∧ (SpawnSpec.well_formed r.1.1.1 r.1.1.2
     ∧ ∀ id : nat, is_Some ((∅ : Heap) !! id) → is_Some (r.1.1.2 !! id))
  ∧ length (WaveManager.active_monsters r.1.1.1) = 1%nat.
Proof.
  assert (Hwf : SpawnSpec.well_formed
                  (snd (WaveManager.start_next_wave WaveManager.init)) ∅).
  { pose proof (start_next_wave_fields WaveManager.init) as Hfields.
    cbv zeta in Hfields.
    change (WaveManager.wave_active WaveManager.init) with false in Hfields.
    cbv iota in Hfields. destruct Hfields as (_ & _ & _ & Hlist & _).
    split; [rewrite Hlist; constructor|].
    intros id Hid. rewrite Hlist in Hid. apply elem_of_nil in Hid. contradiction. }
  split; [exact Hwf|].
  split; [|vm_compute; reflexivity].
  exact (update_keeps_monsters_distinct (Qc_of_Z 2) (WaveManager.mkDraws 100 1)
           (snd (WaveManager.start_next_wave WaveManager.init)) ∅
           Reference.castle None Hwf).
Defined.

(** The first wave has five monsters to spawn. *)
Lemma start_next_wave_quota_positive_witness :
  let r := WaveManager.start_next_wave WaveManager.init in
  (WaveManager.wave_active WaveManager.init = false
   ∧ 0 ≤ WaveManager.current_wave WaveManager.init)
  ∧ (0 + 1 < 2 ^ 52
     ∧ ∀ m, float_pow (Float.finite Config.WAVE_MONSTER_COUNT_MULTIPLIER) ((0 + 1) / 10)
            = Ok (Float.finite m) → (1 <= m)%Qc)
  ∧ fst r = Ok true
  ∧ 5 + (0 + 1) / 2 ≤ WaveManager.monsters_to_spawn (snd r)
  ∧ WaveManager.monsters_to_spawn (snd r) = 5.
Proof.
  assert (Hinit : WaveManager.wave_active WaveManager.init = false
                  ∧ 0 ≤ WaveManager.current_wave WaveManager.init)
    by (split; [reflexivity|cbn; lia]).
  assert (Hpow : 0 + 1 < 2 ^ 52
                 ∧ ∀ m, float_pow (Float.finite Config.WAVE_MONSTER_COUNT_MULTIPLIER)
                          ((0 + 1) / 10)
                        = Ok (Float.finite m) → (1 <= m)%Qc).
  { split; [lia|]. intros m Hm. vm_compute in Hm. injection Hm as <-. discriminate. }
  assert (Hanswer : fst (WaveManager.start_next_wave WaveManager.init) = Ok true)
    by (vm_compute; reflexivity).
  split; [exact Hinit|]. split; [exact Hpow|]. split; [exact Hanswer|].
  pose proof (start_next_wave_quota_positive WaveManager.init Hinit Hpow) as Hquota.
  cbv zeta in Hquota. rewrite Hanswer in Hquota.
  destruct Hquota as (_ & _ & Hregular).
  split; [apply Hregular; discriminate|].
  vm_compute. reflexivity.
Defined.

(** A new "Archer" tower at the origin, one second in, with the three
    grunts at distance 10, 30 and 100: the grunt at distance 10 is hit
    and keeps 40 of its 50 health. *)
Lemma archer_update_hits_closest_witness :
  let self := ArcherTower.init (0, 0)%Z in
  (Tower.attack_speed self ≠ 0%Qc
   ∧ (1 / Tower.attack_speed self ≤ Tower.attack_timer self + 1)%Qc
   ∧ Tower.targets
       (SingleTarget.find_targets self Scenario.three_grunts [2%nat; 0%nat; 1%nat])
     = [0%nat; 1%nat; 2%nat])
  ∧ ∃ t' heap' game_instances',
      BaseTower.update ArcherTower.attack self 1%Qc Scenario.three_grunts
        [2%nat; 0%nat; 1%nat] []
      = BaseTower.Returns (t', heap', game_instances')
      ∧ Monster.health <$> heap' !! 0%nat = Some (Qc_of_Z 50 - Qc_of_Z 10)%Qc
      ∧ Monster.health <$> heap' !! 1%nat = Some (Qc_of_Z 50)
      ∧ Tower.attack_timer t' = 0%Qc.
Proof.
  assert (Hspeed : Tower.attack_speed (ArcherTower.init (0, 0)%Z) ≠ 0%Qc)
    by (vm_compute; discriminate).
  assert (Hcool : (1 / Tower.attack_speed (ArcherTower.init (0, 0)%Z)
                   ≤ Tower.attack_timer (ArcherTower.init (0, 0)%Z) + 1)%Qc)
    by compute_done.
  assert (Ht : Tower.targets
                 (SingleTarget.find_targets (ArcherTower.init (0, 0)%Z)
                    Scenario.three_grunts [2%nat; 0%nat; 1%nat])
               = [0%nat; 1%nat; 2%nat])
    by (vm_compute; reflexivity).
  split; [auto|].
  destruct (archer_update_hits_closest (ArcherTower.init (0, 0)%Z) 1%Qc
              Scenario.three_grunts [2%nat; 0%nat; 1%nat] [] 0%nat [1%nat; 2%nat]
              Hspeed Hcool Ht)
    as (m & t' & heap' & gis' & Hrun & (_ & Hm & _) & _ & Hhit & _ & Hplain & Htimer & _).
  exists t', heap', gis'. split; [exact Hrun|].
  assert (Hm0 : m = Reference.grunt (Qc_of_Z 0, Qc_of_Z 10)).
  { assert (E : Scenario.three_grunts !! 0%nat
                = Some (Reference.grunt (Qc_of_Z 0, Qc_of_Z 10))) by reflexivity.
    rewrite E in Hm. injection Hm as <-. reflexivity. }
  split; [|split; [|exact Htimer]].
  - rewrite Hhit, Hm0. vm_compute. reflexivity.
  - rewrite (Hplain eq_refl 1%nat) by discriminate. reflexivity.
Defined.

(** A new "Sniper" tower at the origin, two seconds in, with the same
    three grunts of equal health: one of them is hit and keeps nothing of
    its 50 health; the target remembered for the animation is the
    closest. *)
Lemma sniper_update_hits_strongest_witness :
  let self := SniperTower.init (0, 0)%Z in
  (Tower.attack_speed self ≠ 0%Qc
   ∧ (1 / Tower.attack_speed self ≤ Tower.attack_timer self + Qc_of_Z 2)%Qc
   ∧ Tower.targets
       (SingleTarget.find_targets self Scenario.three_grunts [2%nat; 0%nat; 1%nat])
     = [0%nat; 1%nat; 2%nat])
  ∧ ∃ target t' heap' game_instances',
      BaseTower.update SniperTower.attack self (Qc_of_Z 2) Scenario.three_grunts
        [2%nat; 0%nat; 1%nat] []
      = BaseTower.Returns (t', heap', game_instances')
      ∧ target ∈ [2%nat; 0%nat; 1%nat]
      ∧ Monster.health <$> heap' !! target = Some (Qc_of_Z 50 - Qc_of_Z 50)%Qc
      ∧ Tower.current_target t' = Some 0%nat.
Proof.
  assert (Hspeed : Tower.attack_speed (SniperTower.init (0, 0)%Z) ≠ 0%Qc)
    by (vm_compute; discriminate).
  assert (Hcool : (1 / Tower.attack_speed (SniperTower.init (0, 0)%Z)
                   ≤ Tower.attack_timer (SniperTower.init (0, 0)%Z) + Qc_of_Z 2)%Qc)
    by compute_done.
  assert (Ht : Tower.targets
                 (SingleTarget.find_targets (SniperTower.init (0, 0)%Z)
                    Scenario.three_grunts [2%nat; 0%nat; 1%nat])
               = [0%nat; 1%nat; 2%nat])
    by (vm_compute; reflexivity).
  split; [auto|].
  destruct (sniper_update_hits_strongest (SniperTower.init (0, 0)%Z) (Qc_of_Z 2)
              Scenario.three_grunts [2%nat; 0%nat; 1%nat] [] 0%nat [1%nat; 2%nat]
              Hspeed Hcool Ht)
    as (target & m & t' & heap' & gis' & Hrun & (Hin & Hm & _) & _ & Hhit & _ & _
        & _ & Hcur).
  exists target, t', heap', gis'. split; [exact Hrun|]. split; [exact Hin|].
  split; [|exact Hcur].
  assert (Hhealth : Monster.health m = Qc_of_Z 50).
  { apply elem_of_cons in Hin as [->|Hin];
      [|apply elem_of_cons in Hin as [->|Hin];
        [|apply list_elem_of_singleton in Hin as ->]];
      vm_compute in Hm; injection Hm as <-; reflexivity. }
  rewrite Hhit, Hhealth. vm_compute. reflexivity.
Defined.

(** An "Archer" tower placed at (100, 100) and updated for a sixtieth of
    a second with no monster around: its attack timer has changed, and
    the spot is still taken. *)
Lemma placed_tower_blocks_its_spot_witness :
  ∃ g' tower r,
    (Game.place_tower Scenario.placing_archer (100, 100) = Ok (true, g')
     ∧ (scale_size (40, 40)).1 ≠ 0
     ∧ (scale_size (40, 40)).2 ≠ 0)
    ∧ (Game.towers g' !! 0%nat = Some tower
       ∧ BaseTower.update ArcherTower.attack tower (Py.frac 1 60) ∅ [] []
         = BaseTower.Returns r
       ∧ Tower.attack_timer r.1.1 ≠ Tower.attack_timer tower)
    ∧ let later := Game.set_towers (<[0%nat := r.1.1]> (Game.towers g')) g' in
      Game.is_valid_tower_position later (100, 100) = false
      ∧ Game.place_tower later (100, 100) = Ok (false, later).
Proof.
  set (g' := match Game.place_tower Scenario.placing_archer (100, 100) with
             | Ok (_, g') => g'
             | Raise _ => Scenario.placing_archer
             end).
  set (tower := ArcherTower.init (100, 100)).
  set (r := match BaseTower.update ArcherTower.attack tower (Py.frac 1 60) ∅ [] [] with
            | BaseTower.Returns r => r
            | BaseTower.ZeroDivisionError => (tower, ∅, [])
            end).
  exists g', tower, r.
  assert (Hplaced : Game.place_tower Scenario.placing_archer (100, 100) = Ok (true, g'))
    by (vm_compute; reflexivity).
  assert (Hw : (scale_size (40, 40)).1 ≠ 0) by (cbn; lia).
  assert (Hh : (scale_size (40, 40)).2 ≠ 0) by (cbn; lia).
  assert (Htower : Game.towers g' !! 0%nat = Some tower) by (vm_compute; reflexivity).
  assert (Hupdate : BaseTower.update ArcherTower.attack tower (Py.frac 1 60) ∅ [] []
                    = BaseTower.Returns r) by (vm_compute; reflexivity).
  assert (Htimer : Tower.attack_timer r.1.1 ≠ Tower.attack_timer tower).
  { intros E. apply (f_equal this) in E. vm_compute in E. discriminate E. }
  split; [auto|]. split; [auto|].
  destruct (placed_tower_blocks_its_spot Scenario.placing_archer g' (100, 100)
              Hplaced Hw Hh) as (_ & Hlater & _).
  cbv zeta.
  apply (Hlater (Game.set_towers (<[0%nat := r.1.1]> (Game.towers g')) g')).
  change (Game.towers (Game.set_towers (<[0%nat := r.1.1]> (Game.towers g')) g'))
    with (<[0%nat := r.1.1]> (Game.towers g')).
  apply (GroundSpec.later_step _ _ 0%nat tower r.1.1);
    [apply GroundSpec.later_now|exact Htower|].
  exact (GroundSpec.step_update_archer tower (Py.frac 1 60) ∅ [] [] r Hupdate).
Defined.

(** From the first entry: Down, then Return with another key before it
    in the same call, saves the game. *)
Lemma pause_menu_selection_stays_in_menu_witness :
  0 ≤ 0 < 3
  ∧ (∃ final effects,
       PausedState.handle_frames 0
         [[PausedState.K_DOWN]; [PausedState.K_OTHER; PausedState.K_RETURN]]
       = Some (final, effects)
       ∧ 0 ≤ final < 3
       ∧ length effects = 2%nat)
  ∧ PausedState.handle_frames 0
      [[PausedState.K_DOWN]; [PausedState.K_OTHER; PausedState.K_RETURN]]
    = Some (1, [PausedState.Nothing; PausedState.Save]).
Proof.
  assert (Hs : 0 ≤ 0 < 3) by lia.
  split; [exact Hs|]. split; [|reflexivity].
  exact (proj1 (pause_menu_selection_stays_in_menu 0
                  [[PausedState.K_DOWN]; [PausedState.K_OTHER; PausedState.K_RETURN]]
                  Hs)).
Defined.

(** Three saves and a text file, two saves allowed: the save with the
    smallest name goes. *)
Lemma clean_old_saves_keeps_newest_witness :
  let directory := ["c.save"; "notes.txt"; "a.save"; "b.save"]%string in
  let kept := SaveFiles.clean_old_saves 2 directory in
  NoDup directory
  ∧ (kept `sublist_of` directory
     ∧ (∀ f, f ∈ directory → SaveFiles.endswith f ".save" = false → f ∈ kept)
     ∧ length (filter (fun f => SaveFiles.endswith f ".save" = true) kept)
       = (2 `min` length (filter (fun f => SaveFiles.endswith f ".save" = true)
                            directory))%nat
     ∧ ((length (filter (fun f => SaveFiles.endswith f ".save" = true) directory)
         ≤ 2)%nat → kept = directory)
     ∧ (∀ f g, f ∈ directory → f ∉ kept →
          g ∈ filter (fun f => SaveFiles.endswith f ".save" = true) kept →
          SaveFiles.endswith f ".save" = true ∧ String.ltb f g = true))
  ∧ kept = ["c.save"; "notes.txt"; "b.save"]%string.
Proof.
  assert (Hnd : NoDup ["c.save"; "notes.txt"; "a.save"; "b.save"]%string)
    by compute_done.
  split; [exact Hnd|]. split; [|vm_compute; reflexivity].
  exact (clean_old_saves_keeps_newest 2
           ["c.save"; "notes.txt"; "a.save"; "b.save"]%string Hnd).
Defined.

(** A "Sniper" tower saved under the type name of the factory with a
    damage of 80: read back it has the damage of 80, which the next
    computation of the derived stats sets back to 50. *)
Lemma deserialize_tower_restores_derived_stats_only_witness :
  let tower_data :=
    SaveManager.mkTowerData "Sniper" (10, 20) 3 (Qc_of_Z 80) (Qc_of_Z 1)
      (Qc_of_Z 400) [None; None] None None None in
  TowerFactory.create_tower (SaveManager.type tower_data)
    (SaveManager.position tower_data)
  = Ok (SniperTower.init (10, 20))
  ∧ ∃ tower,
      SaveManager.deserialize_tower tower_data = Ok tower
      ∧ Tower.damage tower = Qc_of_Z 80
      ∧ Tower.damage (Tower.apply_item_effects tower) = Qc_of_Z 50.
Proof.
  assert (Hmade : TowerFactory.create_tower "Sniper" (10, 20)
                  = Ok (SniperTower.init (10, 20))) by reflexivity.
  split; [exact Hmade|].
  destruct (deserialize_tower_restores_derived_stats_only
              (SaveManager.mkTowerData "Sniper" (10, 20) 3 (Qc_of_Z 80) (Qc_of_Z 1)
                 (Qc_of_Z 400) [None; None] None None None)
              (SniperTower.init (10, 20)) None None None Hmade)
    as (tower & Hread & _ & (_ & Hdmg & _) & _ & Hnext & _).
  exists tower. split; [exact Hread|]. split; [exact Hdmg|].
  rewrite Hnext. reflexivity.
Defined.

End MoreExamples.
